(** * RawWBApiLoader: a shallow embedding of the ETL core

    The development follows the layout of the Python project:

    - [Py]            the fragment of Python values the loader manipulates
                      (JSON-like data), with truthiness, [str] and [repr];
    - [Exceptions]    the exception classes of [core/utils/exceptions.py] and
                      the built-in ones the code raises or catches;
    - [Transformers]  [scenarios/common/transformers.py] and the scenario
                      transformers;
    - [Clients]       the two paginated clients ([wb17] cursor, [wb24] offset);
    - [Repositories]  [scenarios/wb24/repositories.py] over a model of the
                      database connection;
    - [Connection]    [DatabaseConnectionManager.generate_lpid];
    - [Apps]          [core/apps.py], the scenario loader;
    - [Cli]           the scenario arguments of [config/core.py];
    - [Schema]        [core/db/schema.py], the start-up check of the schema;
    - [Notifiers]     the escaping of [core/utils/notifiers.py];
    - [Services]      [scenarios/common/repositories.py] and
                      [scenarios/common/services.py]: the settings and the
                      run from fetch to insert. *)

From Stdlib Require Import ZArith List String Ascii Bool Lia Arith.
From Stdlib Require Import DecimalString.
Import ListNotations.

Local Open Scope list_scope.
Local Open Scope string_scope.

Set Warnings "-register-all".

(* ================================================================== *)
(** ** Python values *)
(* ================================================================== *)

Module Py.

(** JSON-like Python data: what [response.json()] and
    [model_dump(mode='json')] hand to the loader.  Strings are sequences of
    code points below 256, one per [ascii]. *)
Inductive value : Type :=
| VNone  : value
| VBool  : bool -> value
| VInt   : Z -> value
| VStr   : string -> value
| VList  : list value -> value
| VTuple : list value -> value
| VDict  : list (string * value) -> value.

(** [bool(v)]. *)
Definition truthy (v : value) : bool :=
  match v with
  | VNone => false
  | VBool b => b
  | VInt z => negb (z =? 0)%Z
  | VStr s => negb (s =? "")
  | VList l => match l with [] => false | _ => true end
  | VTuple l => match l with [] => false | _ => true end
  | VDict kvs => match kvs with [] => false | _ => true end
  end.

(** A dict is an association list; a key denotes its first binding. *)
Fixpoint lookup (key : string) (kvs : list (string * value)) : option value :=
  match kvs with
  | [] => None
  | (k, v) :: rest => if k =? key then Some v else lookup key rest
  end.

(** [d.get(key)]: [None] when the key is absent. *)
Definition get (key : string) (d : value) : value :=
  match d with
  | VDict kvs => match lookup key kvs with Some v => v | None => VNone end
  | _ => VNone
  end.

Definition is_none (v : value) : bool :=
  match v with VNone => true | _ => false end.

(** *** [repr] of a string *)

Definition hex_digit (n : nat) : ascii :=
  match n with
  | 0 => "0" | 1 => "1" | 2 => "2" | 3 => "3" | 4 => "4"
  | 5 => "5" | 6 => "6" | 7 => "7" | 8 => "8" | 9 => "9"
  | 10 => "a" | 11 => "b" | 12 => "c" | 13 => "d" | 14 => "e"
  | _ => "f"
  end%char.

Definition single_quote : ascii := "'"%char.
Definition double_quote : ascii :=
  Ascii false true false false false true false false.
Definition backslash : ascii := "\"%char.

(** [str.isprintable] on code points below 256. *)
Definition printable (c : ascii) : bool :=
  let n := nat_of_ascii c in
  ((32 <=? n) && negb (n =? 127) && negb ((128 <=? n) && (n <=? 160))
   && negb (n =? 173))%nat.

Definition escape_char (quote c : ascii) : string :=
  let n := nat_of_ascii c in
  if (c =? quote)%char || (c =? backslash)%char
  then String backslash (String c EmptyString)
  else if (n =? 9)%nat then "\t"
  else if (n =? 10)%nat then "\n"
  else if (n =? 13)%nat then "\r"
  else if printable c then String c EmptyString
  else String backslash
         (String "x"%char
            (String (hex_digit (n / 16)%nat)
               (String (hex_digit (n mod 16)%nat) EmptyString))).

Fixpoint contains (c : ascii) (s : string) : bool :=
  match s with
  | EmptyString => false
  | String d rest => (d =? c)%char || contains c rest
  end.

(** Python prefers single quotes, and switches to double quotes only when
    the string has a single quote and no double quote. *)
Definition quote_for (s : string) : ascii :=
  if contains single_quote s && negb (contains double_quote s)
  then double_quote else single_quote.

Fixpoint escape (quote : ascii) (s : string) : string :=
  match s with
  | EmptyString => EmptyString
  | String c rest => escape_char quote c ++ escape quote rest
  end.

Definition repr_str (s : string) : string :=
  let q := quote_for s in
  String q (escape q s ++ String q EmptyString).

Definition repr_int (z : Z) : string :=
  NilZero.string_of_int (Z.to_int z).

(** *** [repr] and [str] of a value *)

Fixpoint repr (v : value) : string :=
  match v with
  | VNone => "None"
  | VBool true => "True"
  | VBool false => "False"
  | VInt z => repr_int z
  | VStr s => repr_str s
  | VList l => "[" ++ String.concat ", " (map repr l) ++ "]"
  | VTuple l =>
      match l with
      | [x] => "(" ++ repr x ++ ",)"
      | _ => "(" ++ String.concat ", " (map repr l) ++ ")"
      end
  | VDict kvs =>
      "{" ++ String.concat ", "
               (map (fun kv => repr_str (fst kv) ++ ": " ++ repr (snd kv)) kvs)
          ++ "}"
  end.

Definition str (v : value) : string :=
  match v with
  | VStr s => s
  | _ => repr v
  end.

(** [s.replace(old, new)] for one-character [old] and [new]. *)
Fixpoint replace (old new : ascii) (s : string) : string :=
  match s with
  | EmptyString => EmptyString
  | String c rest =>
      String (if (c =? old)%char then new else c) (replace old new rest)
  end.

End Py.

Import Py.

(* ================================================================== *)
(** ** Exceptions, log records and the effect monad *)
(* ================================================================== *)

Module Exceptions.

(** The classes of [core/utils/exceptions.py], the built-in classes the code
    raises or names in an [except] clause, and the driver classes of
    [requests] and [pyodbc]. *)
Inductive exn_class : Type :=
| BaseException_
| Exception_
| OSError | FileNotFoundError
| ImportError | AttributeError | TypeError | ValueError | IndexError
| KeyError
| RuntimeError | NotImplementedError
| RequestException
| PyodbcError | DatabaseError
| ValidationError
| APIRequestException | LoadScenarioException | DataProcessingError
| CustomValidationError | TelegramBotNotificationException.

Definition exn_class_eqb (c d : exn_class) : bool :=
  match c, d with
  | BaseException_, BaseException_ | Exception_, Exception_
  | OSError, OSError | FileNotFoundError, FileNotFoundError
  | ImportError, ImportError | AttributeError, AttributeError
  | TypeError, TypeError | ValueError, ValueError | IndexError, IndexError
  | KeyError, KeyError
  | RuntimeError, RuntimeError | NotImplementedError, NotImplementedError
  | RequestException, RequestException
  | PyodbcError, PyodbcError | DatabaseError, DatabaseError
  | ValidationError, ValidationError
  | APIRequestException, APIRequestException
  | LoadScenarioException, LoadScenarioException
  | DataProcessingError, DataProcessingError
  | CustomValidationError, CustomValidationError
  | TelegramBotNotificationException, TelegramBotNotificationException => true
  | _, _ => false
  end.

(** The direct base class. *)
Definition base (c : exn_class) : option exn_class :=
  match c with
  | BaseException_ => None
  | Exception_ => Some BaseException_
  | FileNotFoundError => Some OSError
  | RequestException => Some OSError
  | NotImplementedError => Some RuntimeError
  | DatabaseError => Some PyodbcError
  | ValidationError => Some ValueError
  | _ => Some Exception_
  end.

(** [issubclass c d]; the hierarchy above is four levels deep. *)
Fixpoint issubclass_fuel (fuel : nat) (c d : exn_class) : bool :=
  exn_class_eqb c d ||
  match fuel, base c with
  | S fuel', Some b => issubclass_fuel fuel' b d
  | _, _ => false
  end.

Definition issubclass (c d : exn_class) : bool := issubclass_fuel 4 c d.

(** An exception instance; [str(e)] is its message. *)
Record exn : Type := mk_exn { cls : exn_class; message : string }.

Definition isinstance (e : exn) (c : exn_class) : bool := issubclass (cls e) c.

Definition isinstance_any (e : exn) (cs : list exn_class) : bool :=
  existsb (isinstance e) cs.

Inductive result (A : Type) : Type :=
| Ok : A -> result A
| Raise : exn -> result A.
Arguments Ok {A} _.
Arguments Raise {A} _.

End Exceptions.

Import Exceptions.

Module Log.

Inductive level : Type := DEBUG | INFO | WARNING | ERROR.

(** One call of [logger.<level>(text, extra=..)] with its [event_code]. *)
Record record : Type := mk { lvl : level; event_code : string; text : string }.

End Log.

(** Computations over a state [S] that log and may raise. *)
Module Eff.

Definition M (S A : Type) : Type := S -> S * list Log.record * result A.

Definition ret {S A} (a : A) : M S A := fun s => (s, [], Ok a).

Definition bind {S A B} (m : M S A) (k : A -> M S B) : M S B :=
  fun s =>
    match m s with
    | (s1, l1, Ok a) =>
        match k a s1 with (s2, l2, r) => (s2, (l1 ++ l2)%list, r) end
    | (s1, l1, Raise e) => (s1, l1, Raise e)
    end.

Definition raise {S A} (e : exn) : M S A := fun s => (s, [], Raise e).

Definition log {S} (l : Log.level) (code text : string) : M S unit :=
  fun s => (s, [Log.mk l code text], Ok tt).

Definition gets {S A} (f : S -> A) : M S A := fun s => (s, [], Ok (f s)).

Definition modify {S} (f : S -> S) : M S unit := fun s => (f s, [], Ok tt).

(** [try: m  except <classes> as e: h e]; an exception of another class
    propagates. *)
Definition try_except {S A}
    (m : M S A) (classes : list exn_class) (h : exn -> M S A) : M S A :=
  fun s =>
    match m s with
    | (s1, l1, Raise e) =>
        if isinstance_any e classes
        then match h e s1 with (s2, l2, r) => (s2, (l1 ++ l2)%list, r) end
        else (s1, l1, Raise e)
    | ok => ok
    end.

(** [try: m] followed by several [except] clauses: the first clause whose
    classes match handles the exception; what a handler raises is not
    offered to the clauses after it. *)
Fixpoint select_handler {S A}
    (e : exn) (clauses : list (list exn_class * (exn -> M S A)))
  : option (exn -> M S A) :=
  match clauses with
  | [] => None
  | (classes, h) :: rest =>
      if isinstance_any e classes then Some h else select_handler e rest
  end.

Definition try_excepts {S A}
    (m : M S A) (clauses : list (list exn_class * (exn -> M S A))) : M S A :=
  fun s =>
    match m s with
    | (s1, l1, Raise e) =>
        match select_handler e clauses with
        | Some h =>
            match h e s1 with (s2, l2, r) => (s2, (l1 ++ l2)%list, r) end
        | None => (s1, l1, Raise e)
        end
    | ok => ok
    end.

(** [try: m  finally: f]. *)
Definition try_finally {S A} (m : M S A) (f : M S unit) : M S A :=
  fun s =>
    match m s with
    | (s1, l1, r) =>
        match f s1 with
        | (s2, l2, Ok _) => (s2, (l1 ++ l2)%list, r)
        | (s2, l2, Raise e) => (s2, (l1 ++ l2)%list, Raise e)
        end
    end.

(** The three components of a run. *)
Definition state_of {S A} (r : S * list Log.record * result A) : S :=
  fst (fst r).
Definition logs_of {S A} (r : S * list Log.record * result A)
  : list Log.record := snd (fst r).
Definition result_of {S A} (r : S * list Log.record * result A) : result A :=
  snd r.

Module Notations.
  Notation "x <- m ;; k" := (bind m (fun x => k))
    (at level 61, m at next level, right associativity).
  Notation "m ;;; k" := (bind m (fun _ => k))
    (at level 61, right associativity).
End Notations.

End Eff.

Import Eff Eff.Notations.

(* ================================================================== *)
(** ** scenarios/common/transformers.py *)
(* ================================================================== *)

Module Transformers.

(** One entry of pydantic's [ValidationError.errors()]: a dict read with
    [error.get('loc', 'unknown')] and
    [error.get('msg', 'Validation failed')]. *)
Record error_details : Type :=
  { loc : option value; msg : option string }.

(** [e.errors()] is never empty. *)
Record validation_error : Type :=
  { first_error : error_details; more_errors : list error_details }.

(** [WBDataTransformer._to_json_string]: [None] for a falsy field, otherwise
    [str(field)] with every single quote replaced by a double quote. *)
Definition _to_json_string (field : value) : value :=
  if truthy field
  then VStr (replace single_quote double_quote (str field))
  else VNone.

Definition modes : list string := ["json"; "python"].

Definition mode_in_modes (mode : string) : bool :=
  existsb (String.eqb mode) modes.

Section WBDataTransformer.

(** The transformer is built over a pydantic model class ([data_model]):
    instances, [model_validate] and [model_dump].  [model_validate]
    answers with the model or with the [ValidationError] it raises; a
    validator that raises another exception is not represented. *)
Variable model : Type.
Variable model_validate : value -> validation_error + model.
Variable model_dump : string -> model -> value.

(** [_clean_data], overridden by each scenario. *)
Variable _clean_data : value -> M unit value.

Definition validation_message (e : validation_error) : string :=
  let error := first_error e in
  let field_name :=
    match loc error with Some l => l | None => VStr "unknown" end in
  match msg error with Some m => m | None => "Validation failed" end
    ++ ": " ++ str field_name.

Definition _validate_data (data : value) : M unit model :=
  match model_validate data with
  | inr model_obj => ret model_obj
  | inl e =>
      let error_msg := validation_message e in
      log Log.ERROR "VALIDATE_DATA_ERROR" error_msg ;;;
      raise (mk_exn CustomValidationError error_msg)
  end.

Definition _model_to_dict (model_obj : model) (mode : string)
  : M unit value :=
  try_except
    (if mode_in_modes mode
     then ret (model_dump mode model_obj)
     else raise (mk_exn ValueError ("Invalid mode: " ++ mode)))
    [Exception_]
    (fun e =>
       log Log.ERROR "VALIDATE_DATA_ERROR"
         ("Error converting model to dictionary: " ++ message e) ;;;
       raise e).

(** The body of the [for record in data] loop. *)
Definition process_record (record : value) : M unit value :=
  try_except
    (model_obj <- _validate_data record ;;
     python_dict <- _model_to_dict model_obj "json" ;;
     _clean_data python_dict)
    [Exception_]
    (fun e =>
       log Log.ERROR "TRANSFORM_DATA_ERROR"
         ("Error processing product data: " ++ message e) ;;;
       raise (mk_exn DataProcessingError (message e))).

(** The record goes through validation, dump and cleaning unharmed. *)
Definition processes_ok (record : value) : Prop :=
  exists logs clean, process_record record tt = (tt, logs, Ok clean).

Fixpoint process_loop (data processed_data : list value)
  : M unit (list value) :=
  match data with
  | [] => ret processed_data
  | record :: rest =>
      clean_record <- process_record record ;;
      process_loop rest (processed_data ++ [clean_record])%list
  end.

(** [WBDataTransformer.process_data]. *)
Definition process_data (data : list value) : M unit (list value) :=
  processed_data <- process_loop data [] ;;
  match processed_data with
  | [] =>
      log Log.WARNING "INSERT_DATA_ERROR" "No data to be inserted in the DB" ;;;
      raise (mk_exn DataProcessingError "No data to be inserted in the DB")
  | _ =>
      log Log.INFO "TRANSFORM_DATA_SUCCESS"
        ("Processed " ++ repr_int (Z.of_nat (List.length processed_data))
           ++ " objects") ;;;
      ret processed_data
  end.

(** *** [WBAPISettingsTransformer] *)

(** [self.data_model()], built once in [__init__]. *)
Variable default_model_obj : model.

(** A [pyodbc.Row]: its columns by name. *)
Definition row : Type := list (string * value).

Fixpoint getattr (r : row) (name : string) : M unit value :=
  match r with
  | [] => raise (mk_exn AttributeError
                   ("'pyodbc.Row' object has no attribute '" ++ name ++ "'"))
  | (k, v) :: rest => if k =? name then ret v else getattr rest name
  end.

Definition _row_to_dict (r : row) : M unit value :=
  try_except
    (endpoint_url <- getattr r "EndpointUrl" ;;
     id <- getattr r "Id" ;;
     is_test_data <- getattr r "IsTestData" ;;
     ret (VDict [("EndpointUrl", endpoint_url);
                 ("LoadParamsId", id);
                 ("IsTestData", is_test_data)]))
    [Exception_]
    (fun e =>
       log Log.ERROR "TRANSFORM_DATA_ERROR"
         ("Error converting row to dictionary: " ++ message e) ;;;
       raise e).

Definition _get_default_settings : M unit value :=
  _model_to_dict default_model_obj "python".

(** [WBAPISettingsTransformer.process_data]. *)
Definition settings_process_data (data : option row) : M unit value :=
  match data with
  | None =>
      log Log.WARNING "LOAD_CONFIG_ERROR"
        "No database row provided, using default WBAPISettings" ;;;
      _get_default_settings
  | Some r =>
      try_except
        (row_dict <- _row_to_dict r ;;
         model_obj <- _validate_data row_dict ;;
         _model_to_dict model_obj "python")
        [Exception_]
        (fun e =>
           log Log.ERROR "TRANSFORM_DATA_ERROR"
             ("Error processing API settings: " ++ message e
                ++ ", using defaults") ;;;
           _get_default_settings)
  end.

End WBDataTransformer.

(** [scenarios/wb17/transformers.py]: [WB17DataTransformer._clean_data]. *)
Definition wb17_clean_tuple (record : value) : value :=
  VTuple
    [ get "nmID" record;
      get "imtID" record;
      get "nmUUID" record;
      get "subjectID" record;
      get "subjectName" record;
      get "vendorCode" record;
      get "brand" record;
      get "title" record;
      get "description" record;
      get "needKiz" record;
      get "video" record;
      _to_json_string (get "photos" record);
      _to_json_string (get "wholesale" record);
      _to_json_string (get "dimensions" record);
      _to_json_string (get "characteristics" record);
      _to_json_string (get "sizes" record);
      _to_json_string (get "tags" record);
      get "createdAt" record;
      get "updatedAt" record ].

Definition wb17_clean_data (record : value) : M unit value :=
  ret (wb17_clean_tuple record).

(** [scenarios/wb24/transformers.py]: [WB24DataTransformer._clean_data]. *)
Definition wb24_clean_tuple (record : value) : value :=
  VTuple
    [ get "nmID" record;
      get "vendorCode" record;
      _to_json_string (get "sizes" record);
      get "currencyIsoCode4217" record;
      get "discount" record;
      get "clubDiscount" record;
      get "editableSizePrice" record;
      get "isBadTurnover" record ].

Definition wb24_clean_data (record : value) : M unit value :=
  ret (wb24_clean_tuple record).

End Transformers.

(* ================================================================== *)
(** ** scenarios/wb17/client.py and scenarios/wb24/client.py *)
(* ================================================================== *)

Module Clients.

(** One HTTP request as the clients issue it. *)
Inductive request : Type :=
| GET (limit offset : Z)     (* wb24: query parameters *)
| POST (payload : value).    (* wb17: JSON body *)

(** What [s.get(..)]/[s.post(..)], [raise_for_status()] and [json()] give
    together: the decoded body, or the exception one of them raises (after
    the session's transparent retries). *)
Inductive response : Type :=
| Body (json : value)
| Fails (e : exn).

(** The remote API: its answer to a request, given the requests it has
    already served; and, for the exception [e] of a failed request, what
    [e.response.json()] gives when [e.response] is truthy, that is when
    the exception carries a response whose status is below 400: the
    decoded body, or the exception of the decoder.  [None] when [e]
    carries no response or one with an error status. *)
Record remote : Type :=
  { answer :> list request -> request -> response;
    response_json : exn -> option (result value) }.

(** A remote that plays a script: the [n]-th request gets the [n]-th
    response, and the connection fails once the script is over; its
    failures carry no response. *)
Definition scripted (pages : list response) : remote :=
  {| answer := fun history _ =>
       nth (List.length history) pages
         (Fails (mk_exn RequestException "connection refused"));
     response_json := fun _ => None |}.

(** The client object and its session: the requests sent so far, the
    mutable [self.offset] of the wb24 client and the number of
    [time.sleep(0.5)] calls. *)
Record client : Type :=
  { requests : list request; offset : Z; sleeps : nat }.

Definition new_client (offset0 : Z) : client :=
  {| requests := []; offset := offset0; sleeps := 0 |}.

(** What one turn of the [while True] loop does. *)
Inductive step (A : Type) : Type :=
| Return : A -> step A
| Continue : A -> step A.
Arguments Return {A} _.
Arguments Continue {A} _.

Section Client.

Variable api : remote.
Variable limit : Z.

Definition send (rq : request) : M client value :=
  fun c =>
    let c' := {| requests := (requests c ++ [rq])%list;
                 offset := offset c; sleeps := sleeps c |} in
    match api (requests c) rq with
    | Body json => (c', [], Ok json)
    | Fails e => (c', [], Raise e)
    end.

Definition sleep : M client unit :=
  modify (fun c => {| requests := requests c; offset := offset c;
                      sleeps := S (sleeps c) |}).

Definition add_offset (n : Z) : M client unit :=
  modify (fun c => {| requests := requests c; offset := (offset c + n)%Z;
                      sleeps := sleeps c |}).

(** [d.get(key, default)]; an [AttributeError] when [d] is not a dict. *)
Definition get_default (key : string) (default d : value)
  : M client value :=
  match d with
  | VDict kvs =>
      ret (match lookup key kvs with Some v => v | None => default end)
  | _ => raise (mk_exn AttributeError
                  ("object has no attribute 'get'"))
  end.

(** [e.response.json() if e.response else str(e)] in the handlers of
    [RequestException]. *)
Definition error_message (e : exn) : M client value :=
  match response_json api e with
  | Some (Ok json) => ret json
  | Some (Raise decoding) => raise decoding
  | None => ret (VStr (message e))
  end.

(** The elements [len], [extend] and indexing see in a value. *)
Definition elements (v : value) : M client (list value) :=
  match v with
  | VList l | VTuple l => ret l
  | VDict kvs => ret (map (fun kv => VStr (fst kv)) kvs)
  | VStr s =>
      ret (map (fun ch => VStr (String ch EmptyString))
             (list_ascii_of_string s))
  | _ => raise (mk_exn TypeError "object is not iterable")
  end.

Definition len (l : list value) : Z := Z.of_nat (List.length l).

(** *** wb24: offset pagination *)

Definition _build_query_params : M client request :=
  o <- gets offset ;; ret (GET limit o).

Definition wb24_is_last_batch (batch : list value) : bool :=
  (len batch <? limit)%Z.

Definition wb24_turn (all_products : list value)
  : M client (step (list value)) :=
  try_excepts
    (params <- _build_query_params ;;
     response_data <- send params ;;
     data <- get_default "data" (VDict []) response_data ;;
     products <- get_default "listGoods" (VList []) data ;;
     (if truthy products then ret tt
      else
        log Log.ERROR "EXTRACT_DATA_ERROR"
          "Empty response from the API call." ;;;
        raise (mk_exn APIRequestException "Could not extract data.")) ;;;
     batch <- elements products ;;
     log Log.INFO "EXTRACT_DATA_SUCCESS"
       ("Extracted " ++ repr_int (len batch) ++ " products.") ;;;
     let all_products := (all_products ++ batch)%list in
     if wb24_is_last_batch batch
     then
       log Log.INFO "EXTRACT_DATA_SUCCESS"
         ("All data extracted: " ++ repr_int (len all_products)
            ++ " objects") ;;;
       ret (Return all_products)
     else
       add_offset (len batch) ;;;
       sleep ;;;
       ret (Continue all_products))
    [ ([RequestException],
       fun e =>
         error_msg <- error_message e ;;
         log Log.ERROR "API_ERROR"
           ("API error while fetching data: " ++ str error_msg) ;;;
         raise (mk_exn APIRequestException (str error_msg)));
      ([Exception_],
       fun e =>
         log Log.ERROR "UNKNOWN_ERROR"
           ("Unexpected error while fetching data: " ++ message e) ;;;
         raise (mk_exn APIRequestException (message e))) ].

(** [WB24APIClient.fetch_data]; [None] when [fuel] turns of the loop were
    not enough. *)
Fixpoint wb24_loop (fuel : nat) (all_products : list value)
  : M client (option (list value)) :=
  match fuel with
  | O => ret None
  | S fuel' =>
      r <- wb24_turn all_products ;;
      match r with
      | Return l => ret (Some l)
      | Continue l => wb24_loop fuel' l
      end
  end.

Definition wb24_fetch_data (fuel : nat) : M client (option (list value)) :=
  wb24_loop fuel [].

(** *** wb17: cursor pagination *)

Definition _build_payload (updated_at nm_id : value) : request :=
  POST (VDict
    [("settings",
      VDict [("cursor", VDict [("limit", VInt limit);
                               ("updatedAt", updated_at);
                               ("nmID", nm_id)]);
             ("filter", VDict [("withPhoto", VInt (-1))])])]).

(** [len(cards) > total] for the [total] the response carries. *)
Definition exceeds_total (n : Z) (total : value) : M client bool :=
  match total with
  | VNone => ret false
  | VInt t => ret (t <? n)%Z
  | VBool b => ret ((if b then 1 else 0) <? n)%Z
  | _ => raise (mk_exn TypeError
                  "'>' not supported between instances")
  end.

Definition wb17_is_last_batch (cards : list value) (response_data : value)
  : M client bool :=
  cursor <- get_default "cursor" (VDict []) response_data ;;
  total <- get_default "total" VNone cursor ;;
  if (len cards <? limit)%Z then ret true
  else
    over <- exceeds_total (len cards) total ;;
    if over then ret true else ret false.

(** [cards[-1]] for the value [cards] whose elements are [batch]. *)
Definition last_item (cards : value) (batch : list value)
  : M client value :=
  match cards with
  | VDict _ => raise (mk_exn KeyError "-1")
  | _ => ret (last batch VNone)
  end.

Definition wb17_turn (st : list value * value * value)
  : M client (step (list value * value * value)) :=
  let '(all_cards, updated_at, nm_id) := st in
  try_excepts
    (let payload := _build_payload updated_at nm_id in
     response_data <- send payload ;;
     cards <- get_default "cards" (VList []) response_data ;;
     (if truthy cards then ret tt
      else
        log Log.ERROR "EXTRACT_DATA_ERROR"
          "Empty response for payload" ;;;
        raise (mk_exn Exception_ "Could not extract data.")) ;;;
     batch <- elements cards ;;
     let all_cards := (all_cards ++ batch)%list in
     log Log.INFO "EXTRACT_DATA_SUCCESS"
       ("Extracted " ++ repr_int (len batch) ++ " cards") ;;;
     is_last <- wb17_is_last_batch batch response_data ;;
     if is_last
     then
       log Log.INFO "EXTRACT_DATA_SUCCESS"
         ("All data extracted: " ++ repr_int (len all_cards)) ;;;
       ret (Return (all_cards, updated_at, nm_id))
     else
       last_card <- last_item cards batch ;;
       updated_at <- get_default "updatedAt" VNone last_card ;;
       nm_id <- get_default "nmID" VNone last_card ;;
       if is_none updated_at || is_none nm_id
       then
         log Log.ERROR "EXTRACT_DATA_ERROR"
           "Incomplete cursor data for pagination" ;;;
         raise (mk_exn Exception_ "Could not extract data.")
       else ret (Continue (all_cards, updated_at, nm_id)))
    [ ([RequestException],
       fun e =>
         error_msg <- error_message e ;;
         log Log.ERROR "API_ERROR"
           ("API error while fetching data: " ++ str error_msg) ;;;
         raise e) ].

(** [WB17APIClient.fetch_data]. *)
Fixpoint wb17_loop (fuel : nat) (st : list value * value * value)
  : M client (option (list value)) :=
  match fuel with
  | O => ret None
  | S fuel' =>
      r <- wb17_turn st ;;
      match r with
      | Return (all_cards, _, _) => ret (Some all_cards)
      | Continue st' => wb17_loop fuel' st'
      end
  end.

Definition wb17_fetch_data (fuel : nat) : M client (option (list value)) :=
  wb17_loop fuel ([], VNone, VNone).

End Client.

End Clients.

(* ================================================================== *)
(** ** scenarios/wb24/repositories.py *)
(* ================================================================== *)

Module Repositories.

(** A row of [RawWBData.wb24_ProductsPricesReport]: the parameters of one
    [INSERT], in column order. *)
Definition row : Type := list value.

Inductive statement : Type :=
| SelectNow                    (* SELECT CAST(SYSUTCDATETIME() ..) *)
| Insert (r : row)
| Commit
| Rollback
| SetAutocommit (b : bool).

(** The [pyodbc.Connection] the repository holds together with the table
    behind it: [committed] rows are visible to every reader, [pending] rows
    belong to the open transaction; [statements] is what the server has been
    sent, oldest first. *)
Record connection : Type :=
  { autocommit : bool;
    timeout : Z;
    committed : list row;
    pending : list row;
    statements : list statement }.

(** The server during one call: what [SYSUTCDATETIME()] answers (or the
    error of that query) and, for the [k]-th row of an [executemany], the
    error its [INSERT] raises, if any. *)
Record database : Type :=
  { now : result value;
    row_error : nat -> row -> option exn }.

Definition sent (st : statement) (c : connection) : connection :=
  {| autocommit := autocommit c; timeout := timeout c;
     committed := committed c; pending := pending c;
     statements := (statements c ++ [st])%list |}.

(** [conn.commit()]: the open transaction becomes visible. *)
Definition commit : M connection unit :=
  modify (fun c =>
    let c := sent Commit c in
    {| autocommit := autocommit c; timeout := timeout c;
       committed := (committed c ++ pending c)%list; pending := [];
       statements := statements c |}).

(** [conn.rollback()]: the open transaction is discarded. *)
Definition rollback : M connection unit :=
  modify (fun c =>
    let c := sent Rollback c in
    {| autocommit := autocommit c; timeout := timeout c;
       committed := committed c; pending := [];
       statements := statements c |}).

(** [conn.autocommit = b]; switching auto-commit on commits the open
    transaction (ODBC [SQL_ATTR_AUTOCOMMIT]). *)
Definition set_autocommit (b : bool) : M connection unit :=
  modify (fun c =>
    let c := sent (SetAutocommit b) c in
    if b
    then {| autocommit := true; timeout := timeout c;
            committed := (committed c ++ pending c)%list; pending := [];
            statements := statements c |}
    else {| autocommit := false; timeout := timeout c;
            committed := committed c; pending := pending c;
            statements := statements c |}).

Definition set_timeout (t : Z) : M connection unit :=
  modify (fun c =>
    {| autocommit := autocommit c; timeout := t;
       committed := committed c; pending := pending c;
       statements := statements c |}).

(** [with conn.cursor() as cursor: body]: pyodbc's cursor commits on a
    clean exit when auto-commit is off. *)
Definition with_cursor {A} (body : M connection A) : M connection A :=
  a <- body ;;
  ac <- gets autocommit ;;
  (if ac then ret tt else commit) ;;;
  ret a.

(** [with self.connection as conn: body]: pyodbc's connection, when
    auto-commit is off, commits on a clean exit and rolls back when the body
    raised. *)
Definition with_connection {A} (body : M connection A) : M connection A :=
  fun c =>
    match body c with
    | (c1, l1, Ok a) =>
        match (if autocommit c1 then ret tt else commit) c1 with
        | (c2, l2, _) => (c2, (l1 ++ l2)%list, Ok a)
        end
    | (c1, l1, Raise e) =>
        match (if autocommit c1 then ret tt else rollback) c1 with
        | (c2, l2, _) => (c2, (l1 ++ l2)%list, Raise e)
        end
    end.

Definition is_select_now (st : statement) : bool :=
  match st with SelectNow => true | _ => false end.

Section Repository.

Variable db : database.

(** [cursor.execute("SELECT CAST(SYSUTCDATETIME() ..)")] and
    [cursor.fetchone()[0]]. *)
Definition select_now : M connection value :=
  modify (sent SelectNow) ;;;
  match now db with
  | Ok t => ret t
  | Raise e => raise e
  end.

Definition insert_row (r : row) : M connection unit :=
  modify (fun c =>
    let c := sent (Insert r) c in
    if autocommit c
    then {| autocommit := autocommit c; timeout := timeout c;
            committed := (committed c ++ [r])%list; pending := pending c;
            statements := statements c |}
    else {| autocommit := autocommit c; timeout := timeout c;
            committed := committed c; pending := (pending c ++ [r])%list;
            statements := statements c |}).

(** [cursor.executemany(sql, params)]: one [INSERT] per parameter tuple,
    in order, stopping at the first one the server refuses.  This is what
    the server is asked; an empty [params], which [pyodbc] refuses itself
    with a one-argument [ProgrammingError] before anything is sent, is not
    represented. *)
Fixpoint executemany (k : nat) (params : list row) : M connection unit :=
  match params with
  | [] => ret tt
  | r :: rest =>
      match row_error db k r with
      | Some e => modify (sent (Insert r)) ;;; raise e
      | None => insert_row r ;;; executemany (S k) rest
      end
  end.

(** [core/utils/decorators.py]: [with_query_timeout].  Its guard against a
    repository without a live connection has no counterpart here: the
    state always holds one. *)
Definition with_query_timeout {A} (timeout_seconds : Z)
    (fn : M connection A) : M connection A :=
  old_timeout <- gets timeout ;;
  try_finally
    (set_timeout timeout_seconds ;;; fn)
    (set_timeout old_timeout).

Definition prefixed (lpid : Z) (is_test_data : bool)
    (collection_start_dttm : string) (collection_end : value)
    (item : row) : row :=
  (VInt lpid :: VBool is_test_data :: VStr collection_start_dttm
     :: collection_end :: item).

(** The body of [with self.connection as conn:] in [insert]. *)
Definition transaction (data : list row) (lpid : Z) (is_test_data : bool)
    (collection_start_dttm : string) : M connection unit :=
  set_autocommit false ;;;
  collection_end <- with_cursor select_now ;;
  let params :=
    map (prefixed lpid is_test_data collection_start_dttm collection_end)
      data in
  with_cursor (executemany 0 params) ;;;
  commit ;;;
  log Log.INFO "INSERT_DATA_SUCCESS"
    ("Successfully inserted " ++ repr_int (Z.of_nat (List.length params))
       ++ " records").

(** The [except] clauses of [insert].  The errors handled are the
    server's: they have the two arguments (SQLSTATE, text), and the text,
    [err.args[1]], is what the model keeps as their message. *)
Definition on_error : list (list exn_class * (exn -> M connection unit)) :=
  [ ([DatabaseError],
     fun err =>
       rollback ;;;
       log Log.ERROR "DB_ERROR"
         ("Database error inserting products: " ++ message err) ;;;
       raise err);
    ([Exception_],
     fun e =>
       log Log.ERROR "UNEXPECTED_ERROR"
         ("Unexpected error in insert operation: " ++ message e) ;;;
       raise e) ].

(** [WB24Repository.insert]. *)
Definition insert (data : list row) (lpid : Z) (is_test_data : bool)
    (collection_start_dttm : string) : M connection unit :=
  with_query_timeout 60
    (try_finally
       (try_excepts
          (with_connection
             (transaction data lpid is_test_data collection_start_dttm))
          on_error)
       (set_autocommit true)).

End Repository.

End Repositories.

(* ================================================================== *)
(** ** core/db/connection.py: generate_lpid *)
(* ================================================================== *)

Module Connection.

(** The application lock [LpidLock] as this session finds it. *)
Inductive lock_state : Type :=
| Free
| HeldByOther (remaining_ms : Z)   (* released after that long *)
| Faulty (code : Z).               (* sp_getapplock fails with this code *)

(** The steps of the T-SQL batch, as the server performs them. *)
Inductive event : Type :=
| CheckSequence (existed : bool)   (* IF NOT EXISTS (.. sys.sequences ..) *)
| CreateSequence
| GetAppLock (timeout_ms result : Z)
| Throw (msg : string)
| NextValue (v : Z)
| ReleaseAppLock
| SelectNextLpid (v : Z).

(** The server: the next value of [Lpid.LpidSequence] when the sequence
    exists, the lock, whether this session holds it, and the steps so far. *)
Record server : Type :=
  { sequence : option Z;
    lock : lock_state;
    holding : bool;
    trace : list event }.

Definition emit (e : event) : M server unit :=
  modify (fun s => {| sequence := sequence s; lock := lock s;
                      holding := holding s;
                      trace := (trace s ++ [e])%list |}).

Definition set_sequence (q : option Z) : M server unit :=
  modify (fun s => {| sequence := q; lock := lock s;
                      holding := holding s; trace := trace s |}).

Definition set_holding (b : bool) : M server unit :=
  modify (fun s => {| sequence := sequence s; lock := lock s;
                      holding := b; trace := trace s |}).

(** [IF NOT EXISTS (..) BEGIN CREATE SEQUENCE .. START WITH 1 .. END]. *)
Definition ensure_sequence : M server unit :=
  q <- gets sequence ;;
  match q with
  | Some _ => emit (CheckSequence true)
  | None =>
      emit (CheckSequence false) ;;;
      emit CreateSequence ;;;
      set_sequence (Some 1%Z)
  end.

(** [EXEC @LockResult = sp_getapplock .. @LockTimeout = @TimeoutMs]:
    0 granted at once, 1 granted after waiting, -1 the timeout expired,
    other negative codes for a cancelled or failed request. *)
Definition sp_getapplock (timeout_ms : Z) : M server Z :=
  l <- gets lock ;;
  let result :=
    match l with
    | Free => 0
    | HeldByOther remaining_ms =>
        if (remaining_ms <=? timeout_ms)%Z then 1 else -1
    | Faulty code => code
    end%Z in
  emit (GetAppLock timeout_ms result) ;;;
  (if (0 <=? result)%Z then set_holding true else ret tt) ;;;
  ret result.

Definition lock_error_message (lock_result : Z) : string :=
  if (lock_result =? -1)%Z then "Lock timeout expired"
  else if (lock_result =? -2)%Z then "Canceled (deadlock)"
  else if (lock_result =? -3)%Z then "Canceled (error)"
  else "Failed to acquire lock (code: " ++ repr_int lock_result ++ ")".

Definition sp_releaseapplock : M server unit :=
  emit ReleaseAppLock ;;; set_holding false.

(** T-SQL [INT], the type of [@TimeoutMs] and of [@NextLpid]. *)
Definition fits_int (z : Z) : bool :=
  ((-2147483648 <=? z) && (z <=? 2147483647))%Z.

Definition overflow_message : string :=
  "Arithmetic overflow error converting expression to data type int.".

Section Driver.

(** [str(e)] of the [pyodbc] error with which [cursor.execute] answers an
    error of the server, by the server's message: the text of the pair
    (SQLSTATE, message as the driver words it).  The error is a
    [pyodbc.DatabaseError], of the subclass its SQLSTATE selects. *)
Variable error_text : string -> string.

Definition server_error (msg : string) : exn :=
  mk_exn DatabaseError (error_text msg).

(** [DECLARE @TimeoutMs INT = ? * 1000]. *)
Definition declare_timeout_ms (timeout_seconds : Z) : M server Z :=
  let timeout_ms := (timeout_seconds * 1000)%Z in
  if fits_int timeout_ms then ret timeout_ms
  else raise (server_error overflow_message).

(** [SELECT @NextLpid = NEXT VALUE FOR Lpid.LpidSequence]: the sequence
    moves on, then the value is assigned to the [INT] variable. *)
Definition next_value : M server Z :=
  q <- gets sequence ;;
  match q with
  | Some v =>
      emit (NextValue v) ;;;
      set_sequence (Some (v + 1)%Z) ;;;
      if fits_int v then ret v else raise (server_error overflow_message)
  | None => raise (server_error "Invalid object name 'Lpid.LpidSequence'.")
  end.

(** The batch [cursor.execute] sends, followed by [cursor.fetchone()[0]]:
    the value of [SELECT @NextLpid], [None] for [NULL].  The batch is
    followed up to its first error, which is what [cursor.execute]
    raises; a time-out below zero, to which [sp_getapplock] gives a
    meaning of its own, is not distinguished. *)
Definition execute_batch (timeout_seconds : Z) : M server (option Z) :=
  ensure_sequence ;;;
  timeout_ms <- declare_timeout_ms timeout_seconds ;;
  lock_result <- sp_getapplock timeout_ms ;;
  (if (lock_result <? 0)%Z
   then
     let error_msg := lock_error_message lock_result in
     emit (Throw error_msg) ;;;
     raise (server_error error_msg)
   else ret tt) ;;;
  next_lpid <- next_value ;;
  sp_releaseapplock ;;;
  emit (SelectNextLpid next_lpid) ;;;
  ret (Some next_lpid).

(** [DatabaseConnectionManager.generate_lpid]. *)
Definition generate_lpid (timeout_seconds : Z) : M server Z :=
  try_excepts
    (result <- execute_batch timeout_seconds ;;
     match result with
     | None =>
         raise (mk_exn RuntimeError
                  "Failed to generate LPID: No value returned from sequence")
     | Some lpid => ret lpid
     end)
    [ ([DatabaseError],
       fun e =>
         let error_msg :=
           "Database error while generating LPID: " ++ message e in
         log Log.ERROR "DB_ERROR" error_msg ;;;
         raise (mk_exn RuntimeError error_msg));
      ([Exception_],
       fun e =>
         let error_msg :=
           "Unexpected error while generating LPID: " ++ message e in
         log Log.ERROR "UNEXPECTED_ERROR" error_msg ;;;
         raise (mk_exn RuntimeError error_msg)) ].

End Driver.

(** Reading a trace: is every check or creation of the sequence made while
    this session holds the lock? *)
Fixpoint inside_critical_section (held : bool) (tr : list event) : bool :=
  match tr with
  | [] => true
  | GetAppLock _ result :: rest =>
      inside_critical_section (0 <=? result)%Z rest
  | ReleaseAppLock :: rest => inside_critical_section false rest
  | CheckSequence _ :: rest | CreateSequence :: rest =>
      held && inside_critical_section held rest
  | _ :: rest => inside_critical_section held rest
  end.

End Connection.

(* ================================================================== *)
(** ** core/apps.py: the scenario loader *)
(* ================================================================== *)

Module Apps.

(** Network and database operations of a pipeline. *)
Inductive io : Type :=
| DbGetConnection
| DbRetrieveSettings (scenario : string)
| HttpRequest
| DbInsert.

(** What [getattr(module, class_name)] may find. *)
Inductive attribute : Type :=
| NotAClass                          (* a function, a constant, .. *)
| Class (is_wbservice : bool)        (* [issubclass(cls, WBService)] *)
        (init_error : option exn).   (* what its constructor raises, if any *)

(** A module object after [exec_module]. *)
Definition module_ : Type := list (string * attribute).

(** A file on disk as [importlib] sees it: whether a spec can be made from
    it, and the module (or the exception) executing it gives. *)
Record file : Type :=
  { has_spec : bool;
    exec_module : result module_ }.

(** The installation: the files below [BASE_DIR], by path. *)
Definition file_system : Type := string -> option file.

(** A constructed pipeline. *)
Record service : Type := { service_class : string; service_scenario : string }.

Definition _target_dir : string := "scenarios".
Definition _filename : string := "service.py".
Definition _class_suffix : string := "Service".

(** [str.upper] on ASCII letters. *)
Definition upper_char (c : ascii) : ascii :=
  let n := nat_of_ascii c in
  if ((97 <=? n) && (n <=? 122))%nat then ascii_of_nat (n - 32) else c.

Fixpoint upper (s : string) : string :=
  match s with
  | EmptyString => EmptyString
  | String c rest => String (upper_char c) (upper rest)
  end.

(** [s.replace(pat, "")]: [skip] characters of a match are still to drop. *)
Fixpoint remove_all (pat : string) (skip : nat) (s : string) : string :=
  match s with
  | EmptyString => EmptyString
  | String c rest =>
      match skip with
      | S k => remove_all pat k rest
      | O =>
          if negb (pat =? "") && prefix pat s
          then remove_all pat (String.length pat - 1) rest
          else String c (remove_all pat 0 rest)
      end
  end.

Section WBApp.

(** [config.settings.BASE_DIR], the directory of the installation. *)
Variable BASE_DIR : string.
Variable fs : file_system.
Variable scenario : string.

Definition perform (e : io) : M (list io) unit :=
  modify (fun done => (done ++ [e])%list).

(** [WBApp._get_service_file_path]. *)
Definition _get_service_file_path : M (list io) (string * file) :=
  let module_path :=
    BASE_DIR ++ "/" ++ _target_dir ++ "/" ++ scenario ++ "/" ++ _filename in
  match fs module_path with
  | None =>
      raise (mk_exn FileNotFoundError
               ("Scenario service file not found: " ++ module_path))
  | Some f =>
      log Log.INFO "LOAD_CONFIG_SUCCESS"
        ("Scenario service file found: " ++ module_path) ;;;
      ret (module_path, f)
  end.

(** [WBApp._get_module_name]. *)
Definition _get_module_name : M (list io) string :=
  let module_name :=
    remove_all ".py" 0 (_target_dir ++ "." ++ scenario ++ "." ++ _filename) in
  log Log.INFO "LOAD_CONFIG_SUCCESS" ("Module name: " ++ module_name) ;;;
  ret module_name.

(** [WBApp._load_spec]. *)
Definition _load_spec : M (list io) module_ :=
  pf <- _get_service_file_path ;;
  let '(module_path, f) := pf in
  module_name <- _get_module_name ;;
  if has_spec f
  then match exec_module f with
       | Ok m => ret m
       | Raise e => raise e
       end
  else raise (mk_exn ImportError
                ("Could not load spec from " ++ module_path)).

Fixpoint module_getattr (m : module_) (name : string) : M (list io) attribute :=
  match m with
  | [] => raise (mk_exn AttributeError
                   ("module has no attribute '" ++ name ++ "'"))
  | (k, a) :: rest => if k =? name then ret a else module_getattr rest name
  end.

(** [WBApp._parse_service_class]; the class is returned with its name. *)
Definition _parse_service_class (m : module_)
  : M (list io) (string * option exn) :=
  let base := upper scenario in
  let class_name := base ++ _class_suffix in
  try_excepts
    (service_class <- module_getattr m class_name ;;
     match service_class with
     | NotAClass =>
         raise (mk_exn TypeError "issubclass() arg 1 must be a class")
     | Class false _ =>
         raise (mk_exn TypeError
                  "Scenario service must inherit from WBService class")
     | Class true init_error => ret (class_name, init_error)
     end)
    [ ([AttributeError],
       fun e =>
         raise (mk_exn ImportError
                  ("Service class '" ++ class_name
                     ++ "' not found in module."))) ].

(** [service_class(config=.., db_manager=.., ..)]: [WBService.__init__]
    opens the connection and reads the scenario's settings row. *)
Definition construct (cls : string * option exn) : M (list io) service :=
  perform DbGetConnection ;;;
  perform (DbRetrieveSettings scenario) ;;;
  match snd cls with
  | Some e => raise e
  | None => ret {| service_class := fst cls; service_scenario := scenario |}
  end.

(** [WBApp._load_scenario]. *)
Definition _load_scenario : M (list io) service :=
  try_excepts
    (m <- _load_spec ;;
     service_class <- _parse_service_class m ;;
     construct service_class)
    [ ([ImportError; AttributeError; TypeError],
       fun e =>
         raise (mk_exn LoadScenarioException
                  ("Failed to load service for scenario '" ++ scenario
                     ++ "': " ++ message e))) ].

(** [WBApp.get_service_instance]. *)
Definition get_service_instance : M (list io) service :=
  try_excepts
    _load_scenario
    [ ([LoadScenarioException],
       fun e => log Log.ERROR "LOAD_CONFIG_ERROR" (message e) ;;; raise e) ].

End WBApp.

End Apps.

(* ================================================================== *)
(** ** Python dicts that are written to *)
(* ================================================================== *)

Module Dict.

(** A dict is the list of its items in insertion order; [Py.lookup] reads
    it. *)
Definition dict : Type := list (string * value).

(** [key in d]. *)
Definition has_key (key : string) (d : dict) : bool :=
  match lookup key d with Some _ => true | None => false end.

(** [d[key] = v]: a key that is present keeps its place. *)
Fixpoint set_item (key : string) (v : value) (d : dict) : dict :=
  match d with
  | [] => [(key, v)]
  | (k, w) :: rest =>
      if k =? key then (k, v) :: rest else (k, w) :: set_item key v rest
  end.

(** [d.update(other)]. *)
Definition update (d other : dict) : dict :=
  fold_left (fun acc kv => set_item (fst kv) (snd kv) acc) other d.

End Dict.

(* ================================================================== *)
(** ** config/core.py: the scenario arguments of the command line *)
(* ================================================================== *)

Module Cli.

Import Dict.

(** [parser.error(message)] prints the usage with [message] and leaves the
    process with status 2: the left summand.  The right one is the value
    the method goes on with. *)
Definition parsed (A : Type) : Type := (string + A)%type.

Definition newline : string := String (ascii_of_nat 10) EmptyString.

(** [arg.split('=', 1)] for an [arg] that holds [sep]: what precedes the
    first [sep], and what follows it. *)
Fixpoint split_first (sep : ascii) (arg : string) : string * string :=
  match arg with
  | EmptyString => (EmptyString, EmptyString)
  | String c rest =>
      if (c =? sep)%char then (EmptyString, rest)
      else let (key, value) := split_first sep rest in (String c key, value)
  end.

(** The [for arg in args.scenario_args] loop of
    [_process_scenario_args]. *)
Fixpoint scenario_args_loop (args : list string) (scenario_args : dict)
  : parsed dict :=
  match args with
  | [] => inr scenario_args
  | arg :: rest =>
      if negb (contains "=" arg)
      then inl ("Invalid argument format: " ++ arg ++ ". Expected key=value")
      else
        let (key, value) := split_first "=" arg in
        if (key =? "") || (value =? "")
        then inl ("Empty key or value in: " ++ arg)
        else scenario_args_loop rest (set_item key (VStr value) scenario_args)
  end.

(** [CliConfig._process_scenario_args]; the argument is
    [args.scenario_args] as [argparse] left it, the result what the method
    stores there. *)
Definition _process_scenario_args (scenario_args : option (list string))
  : parsed dict :=
  match scenario_args with
  | None | Some [] => inr []
  | Some args => scenario_args_loop args []
  end.

(** An entry of [config.settings.SCENARIOS]. *)
Record scenario_config : Type :=
  { description : string;
    required_args : list (string * string) }.

(** [config/settings.py]: [SCENARIOS]. *)
Definition SCENARIOS : list (string * scenario_config) :=
  [ ("wb17", {| description := "Generate WB17 product catalog report";
                required_args := [] |});
    ("wb24", {| description :=
                  "Generate WB24 products and prices catalog report";
                required_args := [] |}) ].

Fixpoint scenarios_get (scenarios : list (string * scenario_config))
    (name : string) : option scenario_config :=
  match scenarios with
  | [] => None
  | (k, cfg) :: rest => if k =? name then Some cfg else scenarios_get rest name
  end.

Section Validation.

(** The table of scenarios the method reads. *)
Variable scenarios : list (string * scenario_config).

(** [CliConfig._validate_scenario_args]. *)
Definition _validate_scenario_args_in (scenario : string) (scenario_args : dict)
  : parsed unit :=
  let required_args :=
    match scenarios_get scenarios scenario with
    | Some cfg => required_args cfg
    | None => []
    end in
  let missing_args :=
    filter (fun ad => negb (has_key (fst ad) scenario_args)) required_args in
  match missing_args with
  | [] => inr tt
  | _ =>
      let missing_args_str := String.concat ", " (map fst missing_args) in
      let descriptions :=
        map (fun ad => fst ad ++ ": " ++ snd ad) missing_args in
      inl ("Missing required scenario arguments: " ++ missing_args_str
             ++ newline
             ++ "Required arguments and their descriptions:" ++ newline
             ++ String.concat newline
                  (map (fun desc => "- " ++ desc) descriptions))
  end.

End Validation.

Definition _validate_scenario_args : string -> dict -> parsed unit :=
  _validate_scenario_args_in SCENARIOS.

(** [CliConfig.parse_arguments], after [argparse] has filled the
    namespace with [scenario] and [scenario_args]. *)
Definition parse_arguments (scenario : string)
    (scenario_args : option (list string)) : parsed dict :=
  match _process_scenario_args scenario_args with
  | inl message => inl message
  | inr d =>
      match _validate_scenario_args scenario d with
      | inl message => inl message
      | inr _ => inr d
      end
  end.

End Cli.

(* ================================================================== *)
(** ** core/db/schema.py *)
(* ================================================================== *)

Module Schema.

Record DBSchema : Type :=
  { project_name : string;
    config_schema : string;
    config_table : string;
    log_schema : string;
    log_table : string;
    data_schema : string;
    tables : list string;
    scenario : option string }.

(** [DBSchema(scenario=scenario)]: the dataclass defaults. *)
Definition default_schema (scenario : option string) : DBSchema :=
  {| project_name := "RawWBApiLoader";
     config_schema := "cfg";
     config_table := "WBApiLoadParams";
     log_schema := "RawLogdata";
     log_table := "LoaderLog";
     data_schema := "RawWBData";
     tables := ["wb17_ProductsReport"; "wb24_ProductsPricesReport"];
     scenario := scenario |}.

(** The dict [schemas]: the tables found, by schema name. *)
Definition schemas_dict : Type := list (string * list string).

Fixpoint schemas_get (schemas : schemas_dict) (schema_name : string)
  : option (list string) :=
  match schemas with
  | [] => None
  | (k, ts) :: rest =>
      if k =? schema_name then Some ts else schemas_get rest schema_name
  end.

(** One turn of the loop over [cursor.fetchall()]: a new schema gets an
    empty list first, then the table is appended. *)
Fixpoint add_table (schema_name table_name : string) (schemas : schemas_dict)
  : schemas_dict :=
  match schemas with
  | [] => [(schema_name, [table_name])]
  | (k, ts) :: rest =>
      if k =? schema_name
      then (k, (ts ++ [table_name])%list) :: rest
      else (k, ts) :: add_table schema_name table_name rest
  end.

Definition collect (rows : list (string * string)) : schemas_dict :=
  fold_left (fun schemas r => add_table (fst r) (snd r) schemas) rows [].

(** [t in existing_tables]. *)
Definition table_in (t : string) (existing_tables : list string) : bool :=
  existsb (String.eqb t) existing_tables.

(** [DatabaseSchemaService._validate_schema]. *)
Definition _validate_schema {S : Type} (schemas : schemas_dict)
    (schema_name : string) (expected_tables : list string) : M S unit :=
  match schemas_get schemas schema_name with
  | None =>
      raise (mk_exn ValueError
               ("Schema '" ++ schema_name ++ "' does not exist"))
  | Some existing_tables =>
      let missing_tables :=
        filter (fun t => negb (table_in t existing_tables)) expected_tables in
      match missing_tables with
      | [] => ret tt
      | _ =>
          raise (mk_exn ValueError
                   ("Missing tables in schema '" ++ schema_name ++ "': "
                      ++ String.concat ", " missing_tables))
      end
  end.

Section DatabaseSchemaService.

(** [self.db_manager]: absent, or a manager whose connection answers the
    query of [sys.tables] with the (schema, table) pairs it finds, or with
    an exception. *)
Variable db_manager : option (result (list (string * string))).
Variable scenario_ : option string.

Definition _schema : DBSchema := default_schema scenario_.

(** [if self.scenario:]. *)
Definition has_scenario : bool :=
  match scenario_ with
  | Some s => negb (s =? "")
  | None => false
  end.

(** [DatabaseSchemaService.get_schema_config]. *)
Definition get_schema_config : M Repositories.connection DBSchema :=
  match db_manager with
  | None => ret _schema
  | Some fetchall =>
      try_except
        (Repositories.with_connection
           (Repositories.with_cursor
              (rows <- match fetchall with
                       | Ok rows => ret rows
                       | Raise e => raise e
                       end ;;
               let schemas := collect rows in
               _validate_schema schemas (config_schema _schema)
                 [config_table _schema] ;;;
               _validate_schema schemas (log_schema _schema)
                 [log_table _schema] ;;;
               (if has_scenario
                then _validate_schema schemas (data_schema _schema)
                       (tables _schema)
                else ret tt) ;;;
               ret _schema)))
        [Exception_]
        (fun e =>
           log Log.ERROR EmptyString
             ("Error validating database schema: " ++ message e) ;;;
           ret _schema)
  end.

End DatabaseSchemaService.

End Schema.

(* ================================================================== *)
(** ** core/utils/notifiers.py *)
(* ================================================================== *)

Module Notifiers.

Definition CR : ascii := ascii_of_nat 13.
Definition LF : ascii := ascii_of_nat 10.
Definition percent : ascii := "%"%char.

(** [s.replace(old, new)] for a non-empty [old]: matches are taken from
    left to right and do not overlap; [skip] characters of the match just
    replaced are still to drop. *)
Fixpoint replace_all (old new : string) (skip : nat) (s : string) : string :=
  match s with
  | EmptyString => EmptyString
  | String c rest =>
      match skip with
      | S k => replace_all old new k rest
      | O =>
          if prefix old s
          then new ++ replace_all old new (String.length old - 1) rest
          else String c (replace_all old new 0 rest)
      end
  end.

Definition one (c : ascii) : string := String c EmptyString.

(** [TelegramBotNotificationSender._escape_for_cmd_single_arg]. *)
Definition _escape_for_cmd_single_arg (s : string) : string :=
  let s := replace_all (String CR (one LF)) (one LF) 0 s in
  let s := replace_all (one CR) (one LF) 0 s in
  let s := replace_all (one LF) " " 0 s in
  replace_all "%" "%%" 0 s.

End Notifiers.

(* ================================================================== *)
(** ** scenarios/common/repositories.py and scenarios/common/services.py *)
(* ================================================================== *)

Module Services.

Import Dict.

(** A computation that touches no state, run inside one that has some. *)
Definition lift {S A : Type} (m : M unit A) : M S A :=
  fun s => match m tt with (_, l, r) => (s, l, r) end.

(** [type(v).__name__]. *)
Definition value_type_name (v : value) : string :=
  match v with
  | VNone => "NoneType"
  | VBool _ => "bool"
  | VInt _ => "int"
  | VStr _ => "str"
  | VList _ => "list"
  | VTuple _ => "tuple"
  | VDict _ => "dict"
  end.

(** [type(e).__name__]. *)
Definition type_name (c : exn_class) : string :=
  match c with
  | BaseException_ => "BaseException"
  | Exception_ => "Exception"
  | OSError => "OSError"
  | FileNotFoundError => "FileNotFoundError"
  | ImportError => "ImportError"
  | AttributeError => "AttributeError"
  | TypeError => "TypeError"
  | ValueError => "ValueError"
  | IndexError => "IndexError"
  | KeyError => "KeyError"
  | RuntimeError => "RuntimeError"
  | NotImplementedError => "NotImplementedError"
  | RequestException => "RequestException"
  | PyodbcError => "Error"
  | DatabaseError => "DatabaseError"
  | ValidationError => "ValidationError"
  | APIRequestException => "APIRequestException"
  | LoadScenarioException => "LoadScenarioException"
  | DataProcessingError => "DataProcessingError"
  | CustomValidationError => "CustomValidationError"
  | TelegramBotNotificationException => "TelegramBotNotificationException"
  end.

Section WBAPISettingsRepository.

(** What [cursor.execute(query, (scenario, is_debug))] and
    [cursor.fetchone()] give: the first row of [cfg.WBApiLoadParams] for
    the scenario and the flag, no row, or the driver's exception.  The
    query reads only. *)
Variable fetchone : string -> bool -> result (option Transformers.row).

(** [WBAPISettingsRepository.retrieve]. *)
Definition retrieve (scenario : string) (is_debug : bool)
  : M Repositories.connection (option Transformers.row) :=
  try_except
    (Repositories.with_connection
       (Repositories.with_cursor
          (match fetchone scenario is_debug with
           | Raise e => raise e
           | Ok (Some (column :: columns)) => ret (Some (column :: columns))
           | Ok _ =>
               log Log.WARNING "LOAD_CONFIG_ERROR"
                 ("No API settings found for scenario=" ++ scenario
                    ++ ",debug=" ++ str (VBool is_debug)) ;;;
               ret None
           end)))
    [Exception_]
    (fun e =>
       log Log.ERROR "LOAD_CONFIG_ERROR"
         ("Error fetching API settings for scenario=" ++ scenario
            ++ ", debug=" ++ str (VBool is_debug) ++ ": " ++ message e) ;;;
       ret None).

End WBAPISettingsRepository.

(** The service's two resources: the API client and the one database
    connection its repositories share. *)
Record world : Type :=
  { api_client : Clients.client;
    db_conn : Repositories.connection }.

Definition on_client {A : Type} (m : M Clients.client A) : M world A :=
  fun w =>
    match m (api_client w) with
    | (c, l, r) => ({| api_client := c; db_conn := db_conn w |}, l, r)
    end.

Definition on_connection {A : Type} (m : M Repositories.connection A)
  : M world A :=
  fun w =>
    match m (db_conn w) with
    | (c, l, r) => ({| api_client := api_client w; db_conn := c |}, l, r)
    end.

Section WBService.

(** The settings model class and the settings table. *)
Variable settings_model : Type.
Variable settings_validate
  : value -> Transformers.validation_error + settings_model.
Variable settings_dump : string -> settings_model -> value.
Variable default_settings : settings_model.
Variable fetchone : string -> bool -> result (option Transformers.row).

(** [self._scenario], [type(self).__name__], [self._is_debug],
    [self._api_key], [self._scenario_args], [self.lpid] and
    [self.collection_start_dttm]. *)
Variable scenario : string.
Variable class_name : string.
Variable is_debug : bool.
Variable api_key : value.
Variable scenario_args : option dict.
Variable lpid : Z.
Variable collection_start_dttm : option string.

(** [datetime.now(timezone.utc).isoformat()]. *)
Variable utcnow : string.

(** The collaborators the scenario's subclass chooses: the client's
    [fetch_data] (no result when its fuel runs out), the transformer's
    [process_data] and the repository's [insert]. *)
Variable fetch_data : M Clients.client (option (list value)).
Variable process_data : list value -> M unit (list value).
Variable insert
  : list value -> Z -> bool -> string -> M Repositories.connection unit.

(** [WBService._init_api_settings]. *)
Definition _init_api_settings : M Repositories.connection dict :=
  db_row <- retrieve fetchone scenario is_debug ;;
  api_settings <-
    lift (Transformers.settings_process_data settings_model settings_validate
            settings_dump default_settings db_row) ;;
  match api_settings with
  | VDict items =>
      log Log.INFO "LOAD_CONFIG_SUCCESS"
        ("API client settings: "
           ++ String.concat ", "
                (map (fun kv => fst kv ++ ":" ++ str (snd kv)) items)) ;;;
      ret items
  | _ =>
      raise (mk_exn AttributeError
               ("'" ++ value_type_name api_settings
                  ++ "' object has no attribute 'items'"))
  end.

(** [WBService._init_api_client], up to the call of the client class: the
    settings the client is built from. *)
Definition _init_api_client : M Repositories.connection dict :=
  api_settings <- _init_api_settings ;;
  let api_settings := set_item "api_key" api_key api_settings in
  let api_settings :=
    update api_settings
      (match scenario_args with Some d => d | None => [] end) in
  ret api_settings.

(** [WBService.run]. *)
Definition run : M world (option unit) :=
  log Log.INFO "LOAD_CONFIG_SUCCESS"
    ("Running " ++ scenario ++ " service: " ++ class_name) ;;;
  try_except
    (let start :=
       match collection_start_dttm with
       | Some s => if s =? "" then utcnow else s
       | None => utcnow
       end in
     fetched <- on_client fetch_data ;;
     match fetched with
     | None => ret None
     | Some raw_data =>
         processed_data <- lift (process_data raw_data) ;;
         on_connection (insert processed_data lpid is_debug start) ;;;
         ret (Some tt)
     end)
    [Exception_]
    (fun e =>
       log Log.ERROR "EXCEPTION"
         ("Error during " ++ scenario ++ " service run: "
            ++ type_name (cls e) ++ ".") ;;;
       raise e).

End WBService.

(** *** [scenarios/wb24/service.py] *)

(** The columns [WB24DataTransformer._clean_data] puts in its tuple. *)
Definition wb24_columns (record : value) : Repositories.row :=
  match Transformers.wb24_clean_tuple record with
  | VTuple columns => columns
  | _ => []
  end.

(** [*item] in the parameters of [WB24Repository.insert]: the entries of
    a tuple or a list, the characters of a string, the keys of a dict;
    nothing else can be unpacked. *)
Fixpoint characters (s : string) : list value :=
  match s with
  | EmptyString => []
  | String c rest => VStr (String c EmptyString) :: characters rest
  end.

Definition unpack (item : value) : option Repositories.row :=
  match item with
  | VTuple entries | VList entries => Some entries
  | VStr s => Some (characters s)
  | VDict items => Some (map (fun kv => VStr (fst kv)) items)
  | VNone | VBool _ | VInt _ => None
  end.

(** The rows of the items, or the first item that cannot be unpacked. *)
Fixpoint unpack_all (data : list value) : value + list Repositories.row :=
  match data with
  | [] => inr []
  | item :: rest =>
      match unpack item with
      | None => inl item
      | Some r =>
          match unpack_all rest with
          | inl bad => inl bad
          | inr rows => inr (r :: rows)
          end
      end
  end.

(** [WB24Repository.insert] on the items the transformer returned.  The
    parameter list is built inside the transaction, after the timestamp
    is read: an item that cannot be unpacked raises [TypeError] there. *)
Definition wb24_insert (db : Repositories.database) (data : list value)
    (lpid : Z) (is_test_data : bool) (collection_start_dttm : string)
  : M Repositories.connection unit :=
  match unpack_all data with
  | inr rows =>
      Repositories.insert db rows lpid is_test_data collection_start_dttm
  | inl bad =>
      Repositories.with_query_timeout 60
        (try_finally
           (try_excepts
              (Repositories.with_connection
                 (Repositories.set_autocommit false ;;;
                  Repositories.with_cursor (Repositories.select_now db) ;;;
                  raise (mk_exn TypeError
                           ("Value after * must be an iterable, not "
                              ++ value_type_name bad))))
              (Repositories.on_error))
           (Repositories.set_autocommit true))
  end.

Section WB24Service.

Variable model : Type.
Variable model_validate : value -> Transformers.validation_error + model.
Variable model_dump : string -> model -> value.
Variable api : Clients.remote.
Variable limit : Z.
Variable fuel : nat.
Variable db : Repositories.database.

(** [WB24Service.run]: [WBService.run] over [WB24APIClient],
    [WB24DataTransformer] and [WB24Repository]. *)
Definition wb24_run (is_debug : bool) (lpid : Z)
    (collection_start_dttm : option string) (utcnow : string)
  : M world (option unit) :=
  run "wb24" "WB24Service" is_debug lpid collection_start_dttm utcnow
    (Clients.wb24_fetch_data api limit fuel)
    (Transformers.process_data model model_validate model_dump
       Transformers.wb24_clean_data)
    (wb24_insert db).

End WB24Service.

End Services.

(* ================================================================== *)
(** ** Vocabulary for the pagination properties *)
(* ================================================================== *)

Module Schedule.

Import Clients.

(** The offsets at which pages of these sizes are requested, starting
    from [offset]. *)
Fixpoint offsets (offset : Z) (pages : list (list value)) : list Z :=
  match pages with
  | [] => []
  | page :: rest => offset :: offsets (offset + len page)%Z rest
  end.

(** The cursor a page of cards hands to the next request: [updatedAt] and
    [nmID] of its last card. *)
Definition cursor_after (cards : list value) : value * value :=
  (get "updatedAt" (last cards VNone), get "nmID" (last cards VNone)).

(** The cursors with which pages of cards are requested, starting from
    [cursor]. *)
Fixpoint cursors (cursor : value * value) (pages : list (list value * Z))
  : list (value * value) :=
  match pages with
  | [] => []
  | (cards, _) :: rest => cursor :: cursors (cursor_after cards) rest
  end.

(** The cursor once all these pages have been read. *)
Fixpoint cursor_past (cursor : value * value) (pages : list (list value * Z))
  : value * value :=
  match pages with
  | [] => cursor
  | (cards, _) :: rest => cursor_past (cursor_after cards) rest
  end.

(** A page after which the wb17 client asks for another one: as many
    cards as the limit or more, no more than the announced total, and a
    last card (a dict) that carries both cursor fields. *)
Definition resumable (limit : Z) (page : list value * Z) : Prop :=
  let '(cards, total) := page in
  (limit <= len cards)%Z /\ (len cards <= total)%Z /\ cards <> [] /\
  (exists kvs, last cards VNone = VDict kvs) /\
  is_none (fst (cursor_after cards)) = false /\
  is_none (snd (cursor_after cards)) = false.

(** Where full pages leave the wb24 client: one request per page at the
    running offset, the offset past all of them, one pause each. *)
Definition advanced (limit : Z) (c : client) (fulls : list (list value))
  : client :=
  {| requests :=
       (requests c ++ map (GET limit) (offsets (offset c) fulls))%list;
     offset := (offset c + len (List.concat fulls))%Z;
     sleeps := sleeps c + List.length fulls |}.

End Schedule.

(* ================================================================== *)
(** ** Sample data *)
(* ================================================================== *)

Module Samples.

Import Transformers.

(** A model class with one required integer field [nmID]; its instances
    are the validated dicts themselves. *)
Definition nmid_validate (data : value) : validation_error + value :=
  match get "nmID" data with
  | VInt _ => inr data
  | VNone =>
      inl {| first_error := {| loc := Some (VTuple [VStr "nmID"]);
                               msg := Some "Field required" |};
             more_errors := [] |}
  | _ =>
      inl {| first_error := {| loc := Some (VTuple [VStr "nmID"]);
                               msg := Some "Input should be a valid integer" |};
             more_errors := [] |}
  end.

Definition nmid_dump (mode : string) (m : value) : value := m.

Definition card (nm_id : Z) : value :=
  VDict [("nmID", VInt nm_id); ("vendorCode", VStr "A-1")].

Definition broken_card : value := VDict [("vendorCode", VStr "A-2")].

(** Two different nested values, one of them holding an apostrophe, that
    the serializer sends to the same text. *)
Definition with_apostrophe : value := VList [VStr "a'b"].
Definition with_double_quote : value :=
  VList [VStr (String "a" (String double_quote "b"))].

Definition rejected : validation_error :=
  {| first_error := {| loc := Some (VTuple [VStr "nmID"]);
                       msg := Some "Field required" |};
     more_errors := [] |}.

(** A settings row whose [Id] column is not an integer. *)
Definition bad_settings_row : row :=
  [("EndpointUrl", VStr "https://example.test"); ("Id", VStr "seven");
   ("IsTestData", VBool false)].

Definition settings_validate (data : value) : validation_error + value :=
  match get "LoadParamsId" data with
  | VInt _ => inr data
  | _ =>
      inl {| first_error := {| loc := Some (VTuple [VStr "LoadParamsId"]);
                               msg := Some "Input should be a valid integer" |};
             more_errors := [] |}
  end.

(** A wb24 response carrying the goods [products]. *)
Definition goods_page (products : list value) : Clients.response :=
  Clients.Body (VDict [("data", VDict [("listGoods", VList products)])]).

(** A wb17 response carrying [cards] and the cursor's [total]. *)
Definition cards_page (cards : list value) (total : Z) : Clients.response :=
  Clients.Body (VDict [("cards", VList cards);
                       ("cursor", VDict [("total", VInt total)])]).

(** A card that carries both cursor fields, and one without [updatedAt]. *)
Definition cursor_card (nm_id : Z) : value :=
  VDict [("nmID", VInt nm_id); ("updatedAt", VStr "2024-05-01T10:00:00Z")].

Definition card_without_cursor (nm_id : Z) : value :=
  VDict [("nmID", VInt nm_id); ("vendorCode", VStr "A-9")].

(** A batch of 50 wb24 tuples and a server that refuses the last row. *)
Definition fifty_rows : list Repositories.row :=
  map (fun n => [VInt (Z.of_nat n); VStr "A-1"; VNone; VStr "RUB"; VInt 10;
                 VInt 5; VBool true; VNone])
      (seq 0 50).

Definition refuses_last_row : Repositories.database :=
  {| Repositories.now := Ok (VStr "2024-05-01 10:00:00.000");
     Repositories.row_error := fun k _ =>
       if (k =? 49)%nat
       then Some (mk_exn DatabaseError "String data, right truncation")
       else None |}.

Definition accepts_all : Repositories.database :=
  {| Repositories.now := Ok (VStr "2024-05-01 10:00:00.000");
     Repositories.row_error := fun _ _ => None |}.

Definition unreachable_clock : Repositories.database :=
  {| Repositories.now := Raise (mk_exn DatabaseError "Query timeout expired");
     Repositories.row_error := fun _ _ => None |}.

Definition fresh_connection : Repositories.connection :=
  {| Repositories.autocommit := true; Repositories.timeout := 120;
     Repositories.committed := []; Repositories.pending := [];
     Repositories.statements := [] |}.

(** A server on which [Lpid.LpidSequence] does not exist yet and the lock
    is free. *)
Definition fresh_server : Connection.server :=
  {| Connection.sequence := None; Connection.lock := Connection.Free;
     Connection.holding := false; Connection.trace := [] |}.

(** Installations: an empty one; one whose wb17 service module lacks the
    class [WB17Service]; one where [WB17Service] is not a [WBService]; and
    a sound one. *)
Definition service_path : string := "/app/scenarios/wb17/service.py".

Definition installation (m : Apps.module_) : Apps.file_system :=
  fun path =>
    if path =? service_path
    then Some {| Apps.has_spec := true; Apps.exec_module := Ok m |}
    else None.

Definition empty_installation : Apps.file_system := fun _ => None.

Definition without_class : Apps.file_system :=
  installation [("logger", Apps.NotAClass)].

Definition with_foreign_class : Apps.file_system :=
  installation [("WB17Service", Apps.Class false None)].

Definition sound_installation : Apps.file_system :=
  installation [("WB17Service", Apps.Class true None)].

(** A settings row with the three columns the transformer reads and one
    it does not. *)
Definition good_settings_row : row :=
  [("Id", VInt 7); ("EndpointUrl", VStr "https://example.test");
   ("IsTestData", VBool false); ("Limit", VInt 500)].

Definition row_without_id : row :=
  [("EndpointUrl", VStr "https://example.test"); ("IsTestData", VBool false)].

(** A model class with the two required fields [nmID] and [vendorCode];
    a missing field is reported under its name, [nmID] first. *)
Definition required (field : string) : error_details :=
  {| loc := Some (VTuple [VStr field]); msg := Some "Field required" |}.

Definition report_validate (data : value) : validation_error + value :=
  match get "nmID" data, get "vendorCode" data with
  | VNone, VNone =>
      inl {| first_error := required "nmID";
             more_errors := [required "vendorCode"] |}
  | VNone, _ =>
      inl {| first_error := required "nmID"; more_errors := [] |}
  | _, VNone =>
      inl {| first_error := required "vendorCode"; more_errors := [] |}
  | _, _ => inr data
  end.

Definition card_without_vendor : value := VDict [("nmID", VInt 2)].

(** A remote that answers every request with a redirect loop: the
    exception carries the last redirect, whose body is not JSON. *)
Definition not_json : exn :=
  mk_exn ValueError "Expecting value: line 1 column 1 (char 0)".

Definition redirect_loop : Clients.remote :=
  {| Clients.answer := fun _ _ =>
       Clients.Fails (mk_exn RequestException "Exceeded 30 redirects.");
     Clients.response_json := fun _ => Some (Raise not_json) |}.

(** A remote whose failure carries no response. *)
Definition unreachable_host : Clients.remote :=
  {| Clients.answer := fun _ _ =>
       Clients.Fails (mk_exn RequestException "Connection refused");
     Clients.response_json := fun _ => None |}.

(** How the ODBC driver 17 words an error of the server, as [str(e)]
    gives it: the text of the pair of its two arguments. *)
Definition odbc_error_text (msg : string) : string :=
  repr (VTuple
          [VStr "42000";
           VStr ("[42000] [Microsoft][ODBC Driver 17 for SQL Server]"
                   ++ "[SQL Server]" ++ msg ++ " (50000) (SQLExecDirectW)")]).

(** A server whose lock another session keeps for 3 more seconds. *)
Definition busy_server : Connection.server :=
  {| Connection.sequence := Some 41%Z;
     Connection.lock := Connection.HeldByOther 3000;
     Connection.holding := false; Connection.trace := [] |}.

(** A server whose lock another session keeps for 8 more seconds. *)
Definition contended_server : Connection.server :=
  {| Connection.sequence := Some 41%Z;
     Connection.lock := Connection.HeldByOther 8000;
     Connection.holding := false; Connection.trace := [] |}.

(** An installation whose wb17 service module cannot be executed. *)
Definition broken_module (e : exn) : Apps.file_system :=
  fun path =>
    if path =? service_path
    then Some {| Apps.has_spec := true; Apps.exec_module := Raise e |}
    else None.


(** The settings table when its query fails; the defaults of a settings
    model; scenario arguments that override the page size. *)
Definition failing_settings_query
  : string -> bool -> result (option Transformers.row) :=
  fun _ _ =>
    Raise (mk_exn DatabaseError "Invalid object name 'cfg.WBApiLoadParams'").

Definition default_settings : value :=
  VDict [("load_params_id", VStr "wb24_ProductsPricesReport");
         ("api_key", VNone); ("limit", VInt 1000); ("offset", VInt 0)].

Definition page_size_override : Dict.dict := [("limit", VStr "50")].

(** A remote that serves one full page of two goods and a last page of
    one; and one whose only good lacks [nmID]. *)
Definition three_goods : Clients.remote :=
  Clients.scripted [goods_page [card 1; card 2]; goods_page [card 3]].

Definition one_broken_good : Clients.remote :=
  Clients.scripted [goods_page [broken_card]].

(** What [sys.tables] holds when the log table is missing. *)
Definition tables_without_log : list (string * string) :=
  [("cfg", "WBApiLoadParams"); ("RawWBData", "wb24_ProductsPricesReport")].

End Samples.

(* ================================================================== *)
(** * Properties *)
(* ================================================================== *)

(** ** Strings and [repr] *)

Module PyFacts.

Lemma append_nonempty_r (s t : string) : t <> "" -> s ++ t <> "".
Proof.
  intros Ht; destruct s as [|c s]; simpl; [exact Ht | discriminate].
Qed.

Lemma append_nonempty_l (s t : string) : s <> "" -> s ++ t <> "".
Proof.
  intros Hs; destruct s as [|c s]; simpl; [congruence | discriminate].
Qed.

Lemma replace_nonempty (old new : ascii) (s : string) :
  s <> "" -> replace old new s <> "".
Proof.
  destruct s; simpl; [congruence | discriminate].
Qed.

Lemma replace_append (old new : ascii) (s t : string) :
  replace old new (s ++ t) = replace old new s ++ replace old new t.
Proof.
  induction s as [|c s IH]; simpl; [reflexivity | now rewrite IH].
Qed.

(** After [replace old new] no [old] is left, provided [new] is not [old]. *)
Lemma replace_removes (old new : ascii) (s : string) :
  (new =? old)%char = false ->
  contains old (replace old new s) = false.
Proof.
  intros Hne; induction s as [|c s IH]; simpl; [reflexivity|].
  rewrite IH, orb_false_r.
  destruct (c =? old)%char eqn:E; [exact Hne | exact E].
Qed.

Lemma repr_int_nonempty (z : Z) : repr_int z <> "".
Proof.
  unfold repr_int.
  destruct z as [|p|p]; simpl; try discriminate.
  unfold NilZero.string_of_uint.
  destruct (Pos.to_uint p); simpl; discriminate.
Qed.

Lemma repr_nonempty (v : value) : repr v <> "".
Proof.
  destruct v as [|b|z|s|l|l|kvs]; simpl; try discriminate.
  - destruct b; discriminate.
  - apply repr_int_nonempty.
  - destruct l as [|x [|y r]]; discriminate.
Qed.

Lemma concat_repr_nonempty (x : value) (l : list value) :
  String.concat ", " (map repr (x :: l)) <> "".
Proof.
  simpl. destruct (map repr l).
  - apply repr_nonempty.
  - apply append_nonempty_l, repr_nonempty.
Qed.

End PyFacts.

(** ** The nested-field serializer *)

Module SerializerSpec.

Import Transformers PyFacts Samples.

Lemma to_json_string_falsy (v : value) :
  truthy v = false -> _to_json_string v = VNone.
Proof. unfold _to_json_string; now intros ->. Qed.

Lemma to_json_string_truthy (v : value) :
  truthy v = true ->
  _to_json_string v = VStr (replace single_quote double_quote (str v)).
Proof. unfold _to_json_string; now intros ->. Qed.

Lemma closing_not_alone (body close : string) :
  body <> "" -> close <> "" ->
  String.length (replace single_quote double_quote (body ++ close)) <> 1.
Proof.
  intros Hb Hc.
  destruct body as [|c s]; [congruence|].
  cbn. intros H; injection H as H.
  assert (Hne : replace single_quote double_quote (s ++ close) <> "")
    by now apply replace_nonempty, append_nonempty_r.
  destruct (replace single_quote double_quote (s ++ close));
    [congruence | discriminate].
Qed.

(** An empty list is never stored as the two characters of an empty
    JSON array, nor an empty dict as those of an empty object. *)
Lemma list_never_brackets (l : list value) :
  _to_json_string (VList l) <> VStr "[]".
Proof.
  destruct l as [|x l]; [discriminate|].
  unfold _to_json_string; cbn [truthy str repr].
  intros H; injection H as H.
  apply (closing_not_alone (String.concat ", " (map repr (x :: l))) "]");
    [apply concat_repr_nonempty | discriminate
    | exact (f_equal String.length H)].
Qed.

Lemma dict_never_braces (kvs : list (string * value)) :
  _to_json_string (VDict kvs) <> VStr "{}".
Proof.
  destruct kvs as [|[k v] kvs]; [discriminate|].
  unfold _to_json_string; cbn [truthy str repr].
  intros H; injection H as H.
  set (f := fun kv : string * value =>
              repr_str (fst kv) ++ ": " ++ repr (snd kv)) in H.
  apply (closing_not_alone (String.concat ", " (map f ((k, v) :: kvs))) "}");
    [ | discriminate | exact (f_equal String.length H)].
  cbn [map String.concat].
  assert (Hf : f (k, v) <> "") by (unfold f, repr_str; discriminate).
  destruct (map f kvs); [exact Hf | now apply append_nonempty_l].
Qed.

(** C10.  [_to_json_string] maps every falsy value ([None], [[]], [{}],
    [False], [0]) to [None], so an empty list or dict is never stored as
    the text of an empty JSON array or object; every other value is mapped
    to its [str] rendering with each single quote replaced by a double
    quote, which leaves no single quote in the result; the six nested
    columns of a wb17 tuple are built this way.  A value holding an
    apostrophe does not round-trip: it is stored as the same text as a
    different value, so no decoder can recover it. *)
Theorem to_json_string_spec (v : value) :
  (truthy v = false -> _to_json_string v = VNone) /\
  (truthy v = true ->
   _to_json_string v = VStr (replace single_quote double_quote (str v)) /\
   contains single_quote (replace single_quote double_quote (str v)) = false)
  /\
  map _to_json_string [VNone; VList []; VDict []; VBool false; VInt 0]
    = [VNone; VNone; VNone; VNone; VNone] /\
  (forall l, _to_json_string (VList l) <> VStr "[]") /\
  (forall kvs, _to_json_string (VDict kvs) <> VStr "{}") /\
  (exists pre post,
     wb17_clean_tuple v =
       VTuple (pre ++ map (fun key => _to_json_string (get key v))
                        ["photos"; "wholesale"; "dimensions";
                         "characteristics"; "sizes"; "tags"] ++ post)%list) /\
  (with_apostrophe <> with_double_quote /\
   _to_json_string with_apostrophe = _to_json_string with_double_quote).
Proof.
  split; [apply to_json_string_falsy|].
  split.
  { intros Ht; split; [now apply to_json_string_truthy|].
    now apply replace_removes. }
  split; [reflexivity|].
  split; [apply list_never_brackets|].
  split; [apply dict_never_braces|].
  split.
  { exists [get "nmID" v; get "imtID" v; get "nmUUID" v; get "subjectID" v;
            get "subjectName" v; get "vendorCode" v; get "brand" v;
            get "title" v; get "description" v; get "needKiz" v;
            get "video" v],
           [get "createdAt" v; get "updatedAt" v].
    reflexivity. }
  split; [discriminate | reflexivity].
Qed.

Lemma to_json_string_spec_witness :
  (truthy (VInt 0) = false /\ _to_json_string (VInt 0) = VNone) /\
  (truthy (VList [VStr "it's"]) = true /\
   _to_json_string (VList [VStr "it's"])
     = VStr (String "[" (String double_quote
               ("it" ++ String double_quote ("s" ++ String double_quote "]"))))).
Proof.
  split; (split; [reflexivity|]).
  - apply (proj1 (to_json_string_spec (VInt 0))); reflexivity.
  - apply (proj1 (proj2 (to_json_string_spec (VList [VStr "it's"]))));
      reflexivity.
Defined.

End SerializerSpec.

(** ** The validation and transformation pipeline *)

Module TransformerSpec.

Import Transformers Samples.

Section Pipeline.

Variable model : Type.
Variable model_validate : value -> validation_error + model.
Variable model_dump : string -> model -> value.
Variable _clean_data : value -> M unit value.
Variable default_model_obj : model.

Abbreviation process_record :=
  (Transformers.process_record model model_validate model_dump _clean_data).
Abbreviation processes_ok :=
  (Transformers.processes_ok model model_validate model_dump _clean_data).
Abbreviation process_loop :=
  (Transformers.process_loop model model_validate model_dump _clean_data).
Abbreviation process_data :=
  (Transformers.process_data model model_validate model_dump _clean_data).
Abbreviation settings_process_data :=
  (Transformers.settings_process_data model model_validate model_dump
     default_model_obj).

Lemma process_record_invalid (record : value) (e : validation_error) :
  model_validate record = inl e ->
  exists logs,
    process_record record tt
    = (tt, logs, Raise (mk_exn DataProcessingError (validation_message e))).
Proof.
  intros Hv. unfold Transformers.process_record, _validate_data.
  rewrite Hv. cbn. eexists; reflexivity.
Qed.

Lemma process_loop_stops (pre post : list value) (record : value)
    (e : validation_error) :
  model_validate record = inl e ->
  (forall r, In r pre -> processes_ok r) ->
  forall processed_data, exists logs,
    process_loop (pre ++ record :: post)%list processed_data tt
    = (tt, logs, Raise (mk_exn DataProcessingError (validation_message e))).
Proof.
  intros Hv. induction pre as [|r pre IH]; intros Hok acc.
  - destruct (process_record_invalid record e Hv) as [logs Hr].
    cbn [app Transformers.process_loop]. unfold bind. rewrite Hr.
    eexists; reflexivity.
  - destruct (Hok r (or_introl eq_refl)) as (l & clean & Hr).
    destruct (IH (fun r' H => Hok r' (or_intror H)) (acc ++ [clean])%list)
      as [logs Hrest].
    cbn [app Transformers.process_loop]. unfold bind at 1. rewrite Hr, Hrest.
    eexists; reflexivity.
Qed.

Lemma process_loop_raises (data : list value) (record : value)
    (e : validation_error) :
  In record data ->
  model_validate record = inl e ->
  forall processed_data, exists logs m,
    process_loop data processed_data tt = (tt, logs, Raise m).
Proof.
  intros Hin Hv. induction data as [|r data IH]; intros acc; [easy|].
  cbn [Transformers.process_loop]. unfold bind at 1.
  destruct (process_record r tt) as [[[] l] [clean|m]] eqn:Hr.
  - destruct Hin as [-> | Hin].
    + destruct (process_record_invalid record e Hv) as [logs Hr'].
      congruence.
    + destruct (IH Hin (acc ++ [clean])%list) as (logs & m & Hrest).
      rewrite Hrest. eexists _, _; reflexivity.
  - eexists _, _; reflexivity.
Qed.

(** C2, amended.  When record [k] of a batch fails schema validation,
    [process_data] returns no canonical record at all: it raises.  The
    loop stops at the first record that fails, so it is when the records
    before [k] are processed without error that the exception is a
    [DataProcessingError] whose message is the validation message of
    record [k] followed by the path of its failing field. *)
Theorem process_data_all_or_nothing
    (data : list value) (k : nat) (record : value) (e : validation_error)
    (text : string) (field : value) :
  nth_error data k = Some record ->
  model_validate record = inl e ->
  msg (first_error e) = Some text ->
  loc (first_error e) = Some field ->
  (exists m, result_of (process_data data tt) = Raise m) /\
  ((forall i r, i < k -> nth_error data i = Some r -> processes_ok r) ->
   result_of (process_data data tt)
   = Raise (mk_exn DataProcessingError (text ++ ": " ++ str field))).
Proof.
  intros Hk Hv Hmsg Hloc. split.
  - destruct (process_loop_raises data record e
                (nth_error_In _ _ Hk) Hv []) as (logs & m & Hr).
    exists m. unfold Transformers.process_data, bind. now rewrite Hr.
  - intros Hbefore.
    destruct (nth_error_split _ _ Hk) as (pre & post & -> & Hlen).
    assert (Hok : forall r, In r pre -> processes_ok r).
    { intros r Hin. destruct (In_nth_error _ _ Hin) as [i Hi].
      apply (Hbefore i).
      - rewrite <- Hlen. apply nth_error_Some. congruence.
      - rewrite nth_error_app1; [exact Hi|].
        apply nth_error_Some. congruence. }
    destruct (process_loop_stops pre post record e Hv Hok []) as [logs Hr].
    unfold Transformers.process_data, bind. rewrite Hr. cbn.
    unfold validation_message. now rewrite Hmsg, Hloc.
Qed.

(** *** The settings variant *)

Lemma default_settings_run :
  _get_default_settings model model_dump default_model_obj tt
  = (tt, [], Ok (model_dump "python" default_model_obj)).
Proof. reflexivity. Qed.

Lemma getattr_run (r : row) (name : string) :
  (exists v, getattr r name tt = (tt, [], Ok v)) \/
  (exists e, getattr r name tt = (tt, [], Raise e) /\
             cls e = AttributeError).
Proof.
  induction r as [|[k v] r IH]; cbn.
  - right; eexists; split; reflexivity.
  - destruct (k =? name); [left; eexists; reflexivity | exact IH].
Qed.

(** [_row_to_dict] gives the dict, or raises an [AttributeError]. *)
Lemma row_to_dict_run (r : row) :
  (exists d, _row_to_dict r tt = (tt, [], Ok d)) \/
  (exists logs e, _row_to_dict r tt = (tt, logs, Raise e) /\
                  cls e = AttributeError).
Proof.
  unfold _row_to_dict, try_except, bind.
  destruct (getattr_run r "EndpointUrl") as [[v1 ->] | (e & -> & He)].
  2:{ right. destruct e as [c m]; cbn in He; subst c. cbn.
      eexists _, _; split; reflexivity. }
  destruct (getattr_run r "Id") as [[v2 ->] | (e & -> & He)].
  2:{ right. destruct e as [c m]; cbn in He; subst c. cbn.
      eexists _, _; split; reflexivity. }
  destruct (getattr_run r "IsTestData") as [[v3 ->] | (e & -> & He)].
  2:{ right. destruct e as [c m]; cbn in He; subst c. cbn.
      eexists _, _; split; reflexivity. }
  left. cbn. eexists; reflexivity.
Qed.

(** C9.  The settings transformer never aborts the run: with no settings
    row it logs one warning and returns the dump of the default model
    object; with a row that fails validation it returns the same
    defaults; and whatever the input, it returns a settings dict and
    raises nothing. *)
Theorem settings_fall_back_to_defaults :
  settings_process_data None tt
  = (tt,
     [Log.mk Log.WARNING "LOAD_CONFIG_ERROR"
        "No database row provided, using default WBAPISettings"],
     Ok (model_dump "python" default_model_obj)) /\
  (forall (r : row) (row_dict : value) (e : validation_error),
     result_of (_row_to_dict r tt) = Ok row_dict ->
     model_validate row_dict = inl e ->
     result_of (settings_process_data (Some r) tt)
     = Ok (model_dump "python" default_model_obj)) /\
  (forall data, exists settings,
     result_of (settings_process_data data tt) = Ok settings).
Proof.
  split; [reflexivity|]. split.
  - intros r row_dict e Hrow Hv.
    unfold Transformers.settings_process_data, try_except, bind.
    destruct (row_to_dict_run r) as [[d Hd] | (logs & e' & Hd & _)];
      rewrite Hd in Hrow |- *; cbn in Hrow; [|discriminate].
    injection Hrow as ->.
    unfold _validate_data. rewrite Hv. reflexivity.
  - intros [r|]; [|eexists; reflexivity].
    unfold Transformers.settings_process_data, try_except, bind.
    destruct (row_to_dict_run r) as [[d Hd] | (logs & e' & Hd & He)];
      rewrite Hd.
    + unfold _validate_data.
      destruct (model_validate d); eexists; reflexivity.
    + destruct e' as [c m]; cbn in He; subst c.
      eexists; reflexivity.
Qed.

End Pipeline.

(** C2, as stated: the message would name the failing field of any
    failing record [k].  In this batch record 1 fails validation on
    [vendorCode]; record 0 fails too, on [nmID], and it is the field of
    record 0 that the message names. *)
Lemma later_failure_is_not_reported :
  nth_error [broken_card; card_without_vendor] 1 = Some card_without_vendor /\
  report_validate card_without_vendor
  = inl {| first_error := required "vendorCode"; more_errors := [] |} /\
  result_of (process_data value report_validate nmid_dump wb24_clean_data
               [broken_card; card_without_vendor] tt)
  = Raise (mk_exn DataProcessingError "Field required: ('nmID',)") /\
  "Field required: ('nmID',)" <> "Field required: ('vendorCode',)".
Proof. repeat split. discriminate. Qed.

Lemma process_data_all_or_nothing_witness :
  result_of (process_data value nmid_validate nmid_dump wb17_clean_data
               [card 1; broken_card; card 3] tt)
  = Raise (mk_exn DataProcessingError "Field required: ('nmID',)").
Proof.
  apply (proj2 (process_data_all_or_nothing value nmid_validate nmid_dump
                  wb17_clean_data [card 1; broken_card; card 3] 1
                  broken_card rejected "Field required"
                  (VTuple [VStr "nmID"])
                  eq_refl eq_refl eq_refl eq_refl)).
  intros i r Hi Hr. destruct i as [|i]; [|lia].
  injection Hr as <-. eexists _, _; reflexivity.
Defined.

Lemma settings_fall_back_to_defaults_witness :
  result_of (settings_process_data value settings_validate nmid_dump
               (VDict [("timeout", VInt 30)]) (Some bad_settings_row) tt)
  = Ok (VDict [("timeout", VInt 30)]).
Proof.
  eapply (proj1 (proj2 (settings_fall_back_to_defaults value settings_validate
                          nmid_dump (VDict [("timeout", VInt 30)])))).
  - reflexivity.
  - reflexivity.
Defined.

End TransformerSpec.

(** ** The paginated clients *)

Module ClientSpec.

Import Clients Samples.

Arguments repr_int : simpl never.

Section Offset.

Variable api : remote.
Variable limit : Z.

(** A turn of the wb24 loop on a full page: one request at the current
    offset, the offset advanced by the page size, one pause. *)
Lemma wb24_turn_full (c : client) (all_products products : list value) :
  api (requests c) (GET limit (offset c)) = goods_page products ->
  products <> [] ->
  (limit <= len products)%Z ->
  exists logs,
    wb24_turn api limit all_products c
    = ({| requests := (requests c ++ [GET limit (offset c)])%list;
          offset := (offset c + len products)%Z;
          sleeps := S (sleeps c) |},
       logs, Ok (Continue (all_products ++ products)%list)).
Proof.
  intros Hapi Hne Hfull.
  destruct products as [|x products]; [congruence|].
  unfold wb24_turn, try_excepts, bind, _build_query_params, send, gets.
  cbn. rewrite Hapi. cbn.
  unfold wb24_is_last_batch.
  destruct (len (x :: products) <? limit)%Z eqn:E;
    [apply Z.ltb_lt in E; lia|].
  cbn. eexists; reflexivity.
Qed.

(** A turn on a short, non-empty page ends the fetch: nothing is sent
    after it and the offset stays where it was. *)
Lemma wb24_turn_short (c : client) (all_products products : list value) :
  api (requests c) (GET limit (offset c)) = goods_page products ->
  products <> [] ->
  (len products < limit)%Z ->
  exists logs,
    wb24_turn api limit all_products c
    = ({| requests := (requests c ++ [GET limit (offset c)])%list;
          offset := offset c;
          sleeps := sleeps c |},
       logs, Ok (Return (all_products ++ products)%list)).
Proof.
  intros Hapi Hne Hshort.
  destruct products as [|x products]; [congruence|].
  unfold wb24_turn, try_excepts, bind, _build_query_params, send, gets.
  cbn. rewrite Hapi. cbn.
  unfold wb24_is_last_batch.
  destruct (len (x :: products) <? limit)%Z eqn:E;
    [|apply Z.ltb_ge in E; lia].
  cbn. eexists; reflexivity.
Qed.

(** A turn on a response whose goods are falsy (an empty list, [null], a
    missing key) raises [APIRequestException]; what was accumulated is
    not returned. *)
Lemma wb24_turn_empty (c : client) (all_products : list value)
    (response_data data products : value) :
  api (requests c) (GET limit (offset c)) = Body response_data ->
  result_of (get_default "data" (VDict []) response_data c) = Ok data ->
  result_of (get_default "listGoods" (VList []) data c) = Ok products ->
  truthy products = false ->
  exists logs,
    wb24_turn api limit all_products c
    = ({| requests := (requests c ++ [GET limit (offset c)])%list;
          offset := offset c;
          sleeps := sleeps c |},
       logs, Raise (mk_exn APIRequestException "Could not extract data.")).
Proof.
  intros Hapi Hdata Hgoods Hfalsy.
  unfold wb24_turn, try_excepts, bind, _build_query_params, send, gets.
  cbn. rewrite Hapi.
  destruct response_data as [| | | | | |kvs]; try discriminate Hdata.
  cbn in Hdata |- *. inversion Hdata as [Hd]; clear Hdata; subst data.
  destruct (match lookup "data" kvs with Some v => v | None => VDict [] end)
    as [| | | | | |kvs']; try discriminate Hgoods.
  cbn in Hgoods |- *. inversion Hgoods as [Hg]; clear Hgoods.
  rewrite Hg, Hfalsy. cbn. eexists; reflexivity.
Qed.

End Offset.

(** C3.  With [limit = 1000] and a remote that answers pages of 1000, 1000
    and 400 goods, [fetch_data] returns (given three turns of fuel or more)
    the 2400 goods in page order after exactly three requests, at offsets
    0, 1000 and 2000; it stops because the third page, unlike the first
    two, is shorter than the limit. *)
Theorem wb24_three_pages (p1 p2 p3 : list value) (fuel : nat) :
  List.length p1 = 1000 ->
  List.length p2 = 1000 ->
  List.length p3 = 400 ->
  3 <= fuel ->
  let run :=
    wb24_fetch_data (scripted [goods_page p1; goods_page p2; goods_page p3])
      1000 fuel (new_client 0) in
  result_of run = Ok (Some (p1 ++ p2 ++ p3)%list) /\
  requests (state_of run) = [GET 1000 0; GET 1000 1000; GET 1000 2000] /\
  List.length (p1 ++ p2 ++ p3)%list = 2400 /\
  wb24_is_last_batch 1000 p1 = false /\
  wb24_is_last_batch 1000 p2 = false /\
  wb24_is_last_batch 1000 p3 = true.
Proof.
  intros H1 H2 H3 Hfuel.
  assert (L1 : len p1 = 1000%Z) by (unfold len; rewrite H1; reflexivity).
  assert (L2 : len p2 = 1000%Z) by (unfold len; rewrite H2; reflexivity).
  assert (L3 : len p3 = 400%Z) by (unfold len; rewrite H3; reflexivity).
  assert (N1 : p1 <> []) by (intros ->; discriminate).
  assert (N2 : p2 <> []) by (intros ->; discriminate).
  assert (N3 : p3 <> []) by (intros ->; discriminate).
  destruct fuel as [|[|[|fuel]]]; try lia.
  set (api := scripted [goods_page p1; goods_page p2; goods_page p3]).
  destruct (wb24_turn_full api 1000 (new_client 0) [] p1 eq_refl N1
              ltac:(lia)) as [l1 T1].
  match type of T1 with _ = (?c, _, _) => set (c1 := c) in * end.
  destruct (wb24_turn_full api 1000 c1 ([] ++ p1)%list p2 eq_refl N2
              ltac:(lia)) as [l2 T2].
  match type of T2 with _ = (?c, _, _) => set (c2 := c) in * end.
  destruct (wb24_turn_short api 1000 c2 (([] ++ p1) ++ p2)%list p3 eq_refl N3
              ltac:(lia)) as [l3 T3].
  cbv zeta. unfold wb24_fetch_data.
  cbn [wb24_loop]. unfold bind.
  rewrite T1; cbv beta iota. rewrite T2; cbv beta iota. rewrite T3.
  unfold result_of, state_of; cbn [fst snd requests].
  repeat split.
  - now rewrite <- app_assoc.
  - subst c2 c1. cbn. now rewrite L1, L2.
  - rewrite !length_app. lia.
  - unfold wb24_is_last_batch. rewrite L1. reflexivity.
  - unfold wb24_is_last_batch. rewrite L2. reflexivity.
  - unfold wb24_is_last_batch. rewrite L3. reflexivity.
Qed.

Lemma wb24_three_pages_witness :
  let p1 := repeat (card 1) 1000 in
  let p2 := repeat (card 2) 1000 in
  let p3 := repeat (card 3) 400 in
  requests (state_of
    (wb24_fetch_data (scripted [goods_page p1; goods_page p2; goods_page p3])
       1000 3 (new_client 0)))
  = [GET 1000 0; GET 1000 1000; GET 1000 2000].
Proof.
  intros p1 p2 p3.
  apply (wb24_three_pages p1 p2 p3 3
           (repeat_length _ _) (repeat_length _ _) (repeat_length _ _)
           (le_n 3)).
Defined.

Section Cursor.

Variable api : remote.
Variable limit : Z.

(** [_is_last_batch] reads its arguments only. *)
Lemma wb17_is_last_batch_pure (cards : list value) (response_data : value)
    (c c' : client) :
  result_of (wb17_is_last_batch limit cards response_data c)
  = result_of (wb17_is_last_batch limit cards response_data c').
Proof.
  unfold wb17_is_last_batch, bind.
  destruct response_data as [| | | | | |kvs]; try reflexivity. cbn.
  destruct (match lookup "cursor" kvs with Some v => v | None => VDict [] end)
    as [| | | | | |kvs']; try reflexivity. cbn.
  destruct (len cards <? limit)%Z; [reflexivity|].
  destruct (match lookup "total" kvs' with Some v => v | None => VNone end)
    as [|[]|t| | | |]; cbn; try reflexivity;
    match goal with |- context [Z.ltb ?a ?b] => destruct (Z.ltb a b) end;
    reflexivity.
Qed.

Lemma wb17_is_last_batch_run (cards : list value) (response_data : value)
    (c : client) (b : bool) :
  result_of (wb17_is_last_batch limit cards response_data c) = Ok b ->
  wb17_is_last_batch limit cards response_data c = (c, [], Ok b).
Proof.
  unfold wb17_is_last_batch, bind.
  destruct response_data as [| | | | | |kvs]; try discriminate. cbn.
  destruct (match lookup "cursor" kvs with Some v => v | None => VDict [] end)
    as [| | | | | |kvs']; try discriminate. cbn.
  destruct (len cards <? limit)%Z; cbn; [congruence|].
  destruct (match lookup "total" kvs' with Some v => v | None => VNone end)
    as [|[]|t| | | |]; cbn; try discriminate; try congruence;
    match goal with |- context [Z.ltb ?a ?b] => destruct (Z.ltb a b) end;
    cbn; congruence.
Qed.

(** A turn of the wb17 loop on a response whose cards are falsy raises a
    plain [Exception]; what was accumulated is not returned. *)
Lemma wb17_turn_empty (c : client) (all_cards : list value)
    (updated_at nm_id response_data cards : value) :
  api (requests c) (_build_payload limit updated_at nm_id)
    = Body response_data ->
  result_of (get_default "cards" (VList []) response_data c) = Ok cards ->
  truthy cards = false ->
  exists logs,
    wb17_turn api limit (all_cards, updated_at, nm_id) c
    = ({| requests :=
            (requests c ++ [_build_payload limit updated_at nm_id])%list;
          offset := offset c;
          sleeps := sleeps c |},
       logs, Raise (mk_exn Exception_ "Could not extract data.")).
Proof.
  intros Hapi Hcards Hfalsy.
  unfold wb17_turn, try_excepts, bind, send.
  rewrite Hapi.
  destruct response_data as [| | | | | |kvs]; try discriminate Hcards.
  cbn -[_build_payload] in Hcards |- *.
  inversion Hcards as [Hc]; clear Hcards. rewrite Hc, Hfalsy.
  cbn -[_build_payload]. eexists; reflexivity.
Qed.

(** C8.  In the cursor fetch, when a page after which pagination must
    continue (a non-empty list of cards that [_is_last_batch] does not
    take for the last one) ends in a card whose [updatedAt] or [nmID] is
    missing or null, the whole fetch raises: whatever fuel is left, the
    only request made from that turn on is the one that fetched the
    page. *)
Theorem wb17_incomplete_cursor_aborts
    (c : client) (all_cards cards : list value) (updated_at nm_id : value)
    (response : list (string * value)) (last_card : list (string * value))
    (fuel : nat) :
  api (requests c) (_build_payload limit updated_at nm_id)
    = Body (VDict response) ->
  lookup "cards" response = Some (VList cards) ->
  cards <> [] ->
  result_of (wb17_is_last_batch limit cards (VDict response) c) = Ok false ->
  last cards VNone = VDict last_card ->
  is_none (get "updatedAt" (VDict last_card))
    || is_none (get "nmID" (VDict last_card)) = true ->
  let run := wb17_loop api limit (S fuel) (all_cards, updated_at, nm_id) c in
  result_of run = Raise (mk_exn Exception_ "Could not extract data.") /\
  requests (state_of run)
    = (requests c ++ [_build_payload limit updated_at nm_id])%list.
Proof.
  intros Hapi Hcards Hne Hlast Hcard Hcursor.
  cbv zeta. cbn [wb17_loop].
  unfold bind at 1, wb17_turn, try_excepts, bind, send.
  rewrite Hapi. cbn -[wb17_is_last_batch last _build_payload].
  rewrite Hcards.
  destruct cards as [|x cards]; [congruence|].
  cbn -[wb17_is_last_batch last _build_payload].
  match goal with
  | |- context [wb17_is_last_batch limit ?cs ?rd ?c1] =>
      rewrite (wb17_is_last_batch_run cs rd c1 false)
        by (rewrite (wb17_is_last_batch_pure cs rd c1 c); exact Hlast)
  end.
  cbn -[last _build_payload]. rewrite Hcard.
  cbn -[_build_payload]. cbn in Hcursor. rewrite Hcursor.
  split; reflexivity.
Qed.

End Cursor.

Lemma wb17_incomplete_cursor_aborts_witness :
  let api := scripted [cards_page [cursor_card 1; card_without_cursor 2] 9;
                       cards_page [cursor_card 3] 9] in
  requests (state_of (wb17_fetch_data api 2 5 (new_client 0)))
  = [_build_payload 2 VNone VNone].
Proof.
  intros api.
  refine (proj2 (wb17_incomplete_cursor_aborts api 2 (new_client 0) []
                   [cursor_card 1; card_without_cursor 2] VNone VNone
                   _ _ 4 eq_refl eq_refl _ eq_refl eq_refl eq_refl)).
  discriminate.
Defined.

(** The offset discipline: an empty page makes the wb24 fetch raise
    [APIRequestException], also after a full page was accumulated. *)
Lemma wb24_empty_page_raises (fuel : nat) :
  let api := scripted [goods_page [card 1; card 2]; goods_page []] in
  result_of (wb24_fetch_data api 2 (S (S fuel)) (new_client 0))
  = Raise (mk_exn APIRequestException "Could not extract data.").
Proof. reflexivity. Qed.

(** C7.  In the cursor discipline an empty page makes the wb17 fetch raise
    too, and the accumulated cards are not returned; but what it raises is
    a plain [Exception], which is not an [APIRequestException], where the
    offset discipline raises [APIRequestException]. *)
Theorem wb17_empty_page_raises_plain_exception (fuel : nat) :
  let api := scripted [cards_page [cursor_card 1; cursor_card 2] 9;
                       cards_page [] 9] in
  let run := wb17_fetch_data api 2 (S (S fuel)) (new_client 0) in
  result_of run = Raise (mk_exn Exception_ "Could not extract data.") /\
  isinstance (mk_exn Exception_ "Could not extract data.")
    APIRequestException = false /\
  List.length (requests (state_of run)) = 2.
Proof. repeat split. Qed.

End ClientSpec.

(** ** The transactional writer *)

Module RepositorySpec.

Import Repositories Samples.

Lemma no_select_among_inserts (rows : list row) :
  filter is_select_now (map Insert rows) = [].
Proof. induction rows; [reflexivity | assumption]. Qed.

Section Writer.

Variable db : database.

(** [executemany] inside a transaction: the rows before the first refused
    one are pending, nothing becomes visible, and it raises exactly when
    the server refuses a row. *)
Lemma executemany_run (params : list row) :
  forall (k : nat) (c : connection),
    autocommit c = false ->
    exists c' r sent_rows,
      executemany db k params c = (c', [], r) /\
      autocommit c' = false /\ timeout c' = timeout c /\
      committed c' = committed c /\
      statements c' = (statements c ++ map Insert sent_rows)%list /\
      incl sent_rows params /\
      ((r = Ok tt /\ pending c' = (pending c ++ params)%list /\
        forall i row, nth_error params i = Some row ->
                      row_error db (k + i) row = None) \/
       (exists e i row,
          r = Raise e /\ nth_error params i = Some row /\
          row_error db (k + i) row = Some e)).
Proof.
  induction params as [|row params IH]; intros k c Hac.
  - exists c, (Ok tt), []. cbn. rewrite !app_nil_r.
    repeat split; try easy. left. repeat split.
    intros [|i] r; discriminate.
  - cbn [executemany].
    destruct (row_error db k row) as [e|] eqn:Hrow.
    + eexists _, _, [row]. cbn. split; [reflexivity|].
      repeat split; try easy.
      * intros x [<-|[]]; now left.
      * right. exists e, 0, row. rewrite Nat.add_0_r. now repeat split.
    + unfold bind, insert_row, modify. cbn. rewrite Hac.
      match goal with
      | |- context [executemany db (S k) params ?c1] =>
          destruct (IH (S k) c1 eq_refl)
            as (c' & r & rows & Hrun & Hac' & Hto & Hcm & Hst & Hincl & Hres)
      end.
      rewrite Hrun. exists c', r, (row :: rows).
      split; [reflexivity|]. cbn in Hto, Hcm, Hst.
      repeat split; try assumption.
      * rewrite Hst, <- app_assoc. reflexivity.
      * intros x [<-|Hx]; [now left | right; now apply Hincl].
      * destruct Hres as [(-> & Hp & Hnone) | (e & i & r' & -> & Hn & He)].
        -- left. repeat split.
           ++ rewrite Hp. cbn. now rewrite <- app_assoc.
           ++ intros [|i] r' Hn; cbn in Hn.
              ** injection Hn as <-. now rewrite Nat.add_0_r.
              ** rewrite <- Nat.add_succ_comm. now apply Hnone.
        -- right. exists e, (S i), r'. repeat split; try assumption.
           now rewrite <- Nat.add_succ_comm.
Qed.

(** After a body that raised with no row pending, the [except] clauses
    of [insert] re-raise the same exception and leave the table as it
    is; at most a [ROLLBACK] is sent. *)
Lemma on_error_run (m : M connection unit) (s s1 : connection)
    (l1 : list Log.record) (e : exn) :
  m s = (s1, l1, Raise e) ->
  pending s1 = [] ->
  exists s2 l2 extra,
    try_excepts m on_error s = (s2, l2, Raise e) /\
    autocommit s2 = autocommit s1 /\ timeout s2 = timeout s1 /\
    committed s2 = committed s1 /\ pending s2 = [] /\
    statements s2 = (statements s1 ++ extra)%list /\
    (extra = [] \/ extra = [Rollback]).
Proof.
  intros Hm Hp. unfold try_excepts. rewrite Hm.
  cbn -[isinstance_any].
  destruct (isinstance_any e [DatabaseError]).
  - cbn. eexists _, _, [Rollback]. repeat split; auto.
  - destruct (isinstance_any e [Exception_]).
    + cbn. eexists _, _, []. rewrite app_nil_r. repeat split; auto.
    + eexists _, _, []. rewrite app_nil_r. repeat split; auto.
Qed.

Lemma in_insert_map (row : row) (rows : list Repositories.row) :
  In (Insert row) (map Insert rows) -> In row rows.
Proof.
  intros H. apply in_map_iff in H. destruct H as (x & Hx & Hin).
  now injection Hx as <-.
Qed.

(** The transaction of [insert], entered with no row pending. *)
Lemma transaction_run (data : list row) (lpid : Z) (is_test_data : bool)
    (start : string) (c : connection) :
  pending c = [] ->
  exists c' logs r new,
    with_connection (transaction db data lpid is_test_data start) c
      = (c', logs, r) /\
    autocommit c' = false /\ timeout c' = timeout c /\ pending c' = [] /\
    statements c' = (statements c ++ new)%list /\
    List.length (filter is_select_now new) = 1 /\
    (forall row, In (Insert row) new ->
       exists t item, now db = Ok t /\ In item data /\
                      row = prefixed lpid is_test_data start t item) /\
    ((exists t,
        now db = Ok t /\ r = Ok tt /\
        committed c'
          = (committed c ++ map (prefixed lpid is_test_data start t) data)%list
        /\ forall i item,
             nth_error data i = Some item ->
             row_error db i (prefixed lpid is_test_data start t item) = None)
     \/
     (exists e,
        r = Raise e /\ committed c' = committed c /\
        (now db = Raise e \/
         exists t i item,
           now db = Ok t /\ nth_error data i = Some item /\
           row_error db i (prefixed lpid is_test_data start t item)
             = Some e))).
Proof.
  intros Hp.
  unfold with_connection, transaction, with_cursor, select_now, bind, gets.
  cbn -[executemany]. rewrite Hp.
  destruct (now db) as [t|e] eqn:Hnow.
  2:{ cbn. eexists _, _, _, [SetAutocommit false; SelectNow; Rollback].
      split; [reflexivity|]. cbn.
      repeat split; try easy.
      - now rewrite <- !app_assoc.
      - intros row [H|[H|[H|[]]]]; discriminate.
      - right. exists e. repeat split. now left. }
  cbn -[executemany].
  set (params := map (prefixed lpid is_test_data start t) data).
  match goal with
  | |- context [executemany db 0 params ?c3] =>
      destruct (executemany_run params 0 c3 eq_refl)
        as (c' & r & rows & Hrun & Hac & Hto & Hcm & Hst & Hincl & Hres)
  end.
  rewrite Hrun. cbn in Hto, Hcm, Hst.
  destruct Hres as [(-> & Hpend & Hnone) | (e & i & row & -> & Hn & He)].
  - cbn. repeat (rewrite Hac; cbn).
    eexists _, _, _,
      ([SetAutocommit false; SelectNow; Commit] ++ map Insert rows
         ++ [Commit; Commit; Commit])%list.
    split; [reflexivity|]. cbn.
    repeat split; try easy.
    + rewrite Hst. now rewrite <- !app_assoc.
    + rewrite filter_app, no_select_among_inserts. reflexivity.
    + intros row [H|[H|[H|H]]]; try discriminate.
      apply in_app_or in H. destruct H as [H|[H|[H|[H|[]]]]];
        try discriminate.
      apply in_insert_map, Hincl, in_map_iff in H.
      destruct H as (item & <- & Hin). now exists t, item.
    + left. exists t. repeat split.
      * rewrite Hcm, Hpend. cbn. now rewrite !app_nil_r.
      * intros i item Hi.
        apply (Hnone i). unfold params. now rewrite nth_error_map, Hi.
  - cbn. repeat (rewrite Hac; cbn).
    eexists _, _, _,
      ([SetAutocommit false; SelectNow; Commit] ++ map Insert rows
         ++ [Rollback])%list.
    split; [reflexivity|]. cbn.
    repeat split; try easy.
    + rewrite Hst. now rewrite <- !app_assoc.
    + rewrite filter_app, no_select_among_inserts. reflexivity.
    + intros row' [H|[H|[H|H]]]; try discriminate.
      apply in_app_or in H. destruct H as [H|[H|[]]]; try discriminate.
      apply in_insert_map, Hincl, in_map_iff in H.
      destruct H as (item & <- & Hin). now exists t, item.
    + right. exists e. repeat split.
      * rewrite Hcm. cbn. now rewrite app_nil_r.
      * right. unfold params in Hn. rewrite nth_error_map in Hn.
        destruct (nth_error data i) as [item|] eqn:Hi; [|discriminate].
        injection Hn as <-. now exists t, i, item.
Qed.

Lemma insert_run (data : list row) (lpid : Z) (is_test_data : bool)
    (start : string) (c : connection) :
  pending c = [] ->
  exists c' logs r new,
    insert db data lpid is_test_data start c = (c', logs, r) /\
    autocommit c' = true /\ timeout c' = timeout c /\ pending c' = [] /\
    statements c' = (statements c ++ new)%list /\
    List.length (filter is_select_now new) = 1 /\
    (forall row, In (Insert row) new ->
       exists t item, now db = Ok t /\ In item data /\
                      row = prefixed lpid is_test_data start t item) /\
    ((exists t,
        now db = Ok t /\ r = Ok tt /\
        committed c'
          = (committed c ++ map (prefixed lpid is_test_data start t) data)%list
        /\ forall i item,
             nth_error data i = Some item ->
             row_error db i (prefixed lpid is_test_data start t item) = None)
     \/
     (exists e,
        r = Raise e /\ committed c' = committed c /\
        (now db = Raise e \/
         exists t i item,
           now db = Ok t /\ nth_error data i = Some item /\
           row_error db i (prefixed lpid is_test_data start t item)
             = Some e))).
Proof.
  intros Hp.
  unfold insert, with_query_timeout, try_finally, bind, gets, set_timeout,
    set_autocommit, modify.
  set (c0 := {| autocommit := autocommit c; timeout := 60;
                committed := committed c; pending := pending c;
                statements := statements c |}).
  destruct (transaction_run data lpid is_test_data start c0 Hp)
    as (c1 & l1 & r & new & Hrun & Hac & Hto & Hpend & Hst & Hone & Hrows
          & Hres).
  cbn in Hto, Hst.
  destruct Hres as [(t & Hnow & -> & Hcm & Hnone) | (e & -> & Hcm & Hwhy)].
  - unfold try_excepts. rewrite Hrun. cbn.
    eexists _, _, _, (new ++ [SetAutocommit true])%list.
    split; [reflexivity|]. cbn.
    repeat split; try easy.
    + rewrite Hst. now rewrite <- app_assoc.
    + rewrite filter_app, length_app. cbn. lia.
    + intros row H. apply in_app_or in H.
      destruct H as [H|[H|[]]]; [now apply Hrows | discriminate].
    + left. exists t. repeat split; try assumption.
      rewrite Hpend, app_nil_r. exact Hcm.
  - destruct (on_error_run _ c0 c1 l1 e Hrun Hpend)
      as (c2 & l2 & extra & Hrun2 & Hac2 & Hto2 & Hcm2 & Hpend2 & Hst2
            & Hextra).
    rewrite Hrun2. cbn.
    eexists _, _, _, (new ++ extra ++ [SetAutocommit true])%list.
    split; [reflexivity|]. cbn.
    repeat split; try easy.
    + rewrite Hst2, Hst. now rewrite <- !app_assoc.
    + rewrite !filter_app, !length_app.
      destruct Hextra as [-> | ->]; cbn; lia.
    + intros row H. apply in_app_or in H.
      destruct H as [H|H]; [now apply Hrows|].
      apply in_app_or in H.
      destruct H as [H|[H|[]]]; [|discriminate].
      destruct Hextra as [-> | ->]; [easy|].
      destruct H as [H|[]]; discriminate.
    + right. exists e. repeat split; try assumption.
      rewrite Hpend2, app_nil_r, Hcm2. exact Hcm.
Qed.

(** C1.  A batch insert entered with no transaction open is
    all-or-nothing.  Whenever the server refuses a row of the batch (any
    row, with any exception), [insert] raises and the visible rows of the
    table are exactly those of before: none of the batch.  In every
    case either it returns and all the rows of the batch have become
    visible, in order, or it raises and none has; no transaction is left
    open and auto-commit is back on. *)
Theorem insert_all_or_nothing (data : list row) (lpid : Z)
    (is_test_data : bool) (start : string) (c : connection) :
  pending c = [] ->
  let run := insert db data lpid is_test_data start c in
  (forall t i item e,
     now db = Ok t ->
     nth_error data i = Some item ->
     row_error db i (prefixed lpid is_test_data start t item) = Some e ->
     (exists e', result_of run = Raise e') /\
     committed (state_of run) = committed c) /\
  ((exists t,
      now db = Ok t /\ result_of run = Ok tt /\
      committed (state_of run)
        = (committed c ++ map (prefixed lpid is_test_data start t) data)%list)
   \/
   (exists e, result_of run = Raise e /\
              committed (state_of run) = committed c)) /\
  pending (state_of run) = [] /\
  autocommit (state_of run) = true.
Proof.
  intros Hp run.
  destruct (insert_run data lpid is_test_data start c Hp)
    as (c' & logs & r & new & Hrun & Hac & Hto & Hpend & Hst & Hone & Hrows
          & Hres).
  subst run. rewrite Hrun. unfold result_of, state_of. cbn [fst snd].
  split; [|split; [|split; assumption]].
  - intros t i item e Hnow Hitem Hrefused.
    destruct Hres as [(t' & Hnow' & -> & Hcm & Hnone) | (e' & -> & Hcm & _)].
    + rewrite Hnow' in Hnow. injection Hnow as <-.
      rewrite (Hnone i item Hitem) in Hrefused. discriminate.
    + split; [now exists e' | exact Hcm].
  - destruct Hres as [(t & Hnow & -> & Hcm & _) | (e & -> & Hcm & _)].
    + left. now exists t.
    + right. now exists e.
Qed.

(** C4.  A batch insert entered with no transaction open asks the
    server for its clock exactly once ([SELECT .. SYSUTCDATETIME()]; the
    client has no clock of its own in [insert]); every row it sends is a
    tuple of the batch prefixed, in this order, by the run identifier,
    the test-data flag, the collection start and that one timestamp; and
    when it returns, the rows that became visible are the whole batch so
    prefixed. *)
Theorem insert_single_timestamp (data : list row) (lpid : Z)
    (is_test_data : bool) (start : string) (c : connection) :
  pending c = [] ->
  let run := insert db data lpid is_test_data start c in
  exists new,
    statements (state_of run) = (statements c ++ new)%list /\
    List.length (filter is_select_now new) = 1 /\
    (forall row, In (Insert row) new ->
       exists collection_end item,
         now db = Ok collection_end /\ In item data /\
         row = (VInt lpid :: VBool is_test_data :: VStr start
                  :: collection_end :: item)) /\
    (result_of run = Ok tt ->
     exists collection_end,
       now db = Ok collection_end /\
       committed (state_of run)
         = (committed c
              ++ map (fun item =>
                        VInt lpid :: VBool is_test_data :: VStr start
                          :: collection_end :: item) data)%list).
Proof.
  intros Hp run.
  destruct (insert_run data lpid is_test_data start c Hp)
    as (c' & logs & r & new & Hrun & Hac & Hto & Hpend & Hst & Hone & Hrows
          & Hres).
  subst run. rewrite Hrun. unfold result_of, state_of. cbn [fst snd].
  exists new. repeat split; try assumption.
  intros ->.
  destruct Hres as [(t & Hnow & _ & Hcm & _) | (e & He & _)];
    [now exists t | discriminate].
Qed.

End Writer.

Lemma insert_all_or_nothing_witness :
  committed (state_of (insert refuses_last_row fifty_rows 7 false
                         "2024-05-01T09:59:00+00:00" fresh_connection))
  = [].
Proof.
  refine (proj2 (proj1 (insert_all_or_nothing refuses_last_row fifty_rows 7
                          false "2024-05-01T09:59:00+00:00" fresh_connection
                          eq_refl)
                   (VStr "2024-05-01 10:00:00.000") 49
                   [VInt 49; VStr "A-1"; VNone; VStr "RUB"; VInt 10;
                    VInt 5; VBool true; VNone]
                   (mk_exn DatabaseError "String data, right truncation")
                   eq_refl eq_refl eq_refl)).
Defined.

Lemma insert_single_timestamp_witness :
  exists collection_end,
    committed (state_of (insert accepts_all fifty_rows 7 false
                           "2024-05-01T09:59:00+00:00" fresh_connection))
    = map (fun item => VInt 7 :: VBool false
                         :: VStr "2024-05-01T09:59:00+00:00"
                         :: collection_end :: item) fifty_rows.
Proof.
  destruct (insert_single_timestamp accepts_all fifty_rows 7 false
              "2024-05-01T09:59:00+00:00" fresh_connection eq_refl)
    as (new & _ & _ & _ & Hok).
  destruct (Hok eq_refl) as (t & _ & Hcm).
  exists t. exact Hcm.
Defined.

End RepositorySpec.

(** ** Run-identifier issuance *)

Module ConnectionSpec.

Import Connection Samples.

(** C5, as stated: the sequence would be ensured inside the critical
    section.  On a fresh server the batch checks and creates the sequence
    first and asks for the lock only afterwards. *)
Lemma generate_lpid_ensures_sequence_before_lock :
  trace (state_of (generate_lpid odbc_error_text 5 fresh_server))
  = [CheckSequence false; CreateSequence; GetAppLock 5000 0; NextValue 1;
     ReleaseAppLock; SelectNextLpid 1] /\
  ~ inside_critical_section false
      (trace (state_of (generate_lpid odbc_error_text 5 fresh_server)))
    = true.
Proof. split; [reflexivity | discriminate]. Qed.

Section Driver.

Variable error_text : string -> string.

(** C5, amended.  For a time-out that is not negative and fits [INT] in
    milliseconds, and a sequence whose next value fits [INT]:
    [generate_lpid] first ensures the sequence exists, creating it
    (starting at 1) only when it is absent and leaving an existing one
    untouched; then it asks for the exclusive lock with a wait bounded by
    [timeout_seconds * 1000] ms.  When the lock is granted it draws the
    next value, releases the lock and only then returns the value; when
    it is not, it draws nothing and raises a [RuntimeError] that carries
    the text of the driver's error for the reason the batch throws. *)
Theorem generate_lpid_order (s : server) (timeout_seconds : Z) :
  (0 <= timeout_seconds)%Z ->
  fits_int (timeout_seconds * 1000) = true ->
  (forall v, sequence s = Some v -> fits_int v = true) ->
  let run := generate_lpid error_text timeout_seconds s in
  let ensured :=
    match sequence s with
    | Some _ => [CheckSequence true]
    | None => [CheckSequence false; CreateSequence]
    end in
  let v := match sequence s with Some v => v | None => 1%Z end in
  let timeout_ms := (timeout_seconds * 1000)%Z in
  let lock_result :=
    match lock s with
    | Free => 0
    | HeldByOther remaining_ms =>
        if (remaining_ms <=? timeout_ms)%Z then 1 else -1
    | Faulty code => code
    end%Z in
  if (0 <=? lock_result)%Z
  then
    result_of run = Ok v /\
    trace (state_of run)
      = (trace s ++ ensured
           ++ [GetAppLock timeout_ms lock_result; NextValue v;
               ReleaseAppLock; SelectNextLpid v])%list /\
    sequence (state_of run) = Some (v + 1)%Z /\
    holding (state_of run) = false
  else
    result_of run
      = Raise (mk_exn RuntimeError
                 ("Database error while generating LPID: "
                    ++ error_text (lock_error_message lock_result))) /\
    trace (state_of run)
      = (trace s ++ ensured
           ++ [GetAppLock timeout_ms lock_result;
               Throw (lock_error_message lock_result)])%list /\
    sequence (state_of run) = Some v /\
    holding (state_of run) = holding s.
Proof.
  intros _ Hms Hseq. cbv zeta.
  unfold generate_lpid, try_excepts, execute_batch, bind, ensure_sequence,
    declare_timeout_ms, sp_getapplock, next_value, sp_releaseapplock, gets.
  rewrite Hms.
  destruct s as [[v|] l h tr]; cbn [sequence lock holding trace] in *.
  1: pose proof (Hseq v eq_refl) as Hv.
  2: assert (Hv : fits_int 1 = true) by reflexivity.
  all: destruct l as [|ms|code].
  all: cbn -[lock_error_message Z.mul Z.ltb Z.leb fits_int].
  all: try match goal with
           | |- context [HeldByOther ?ms] =>
               destruct (ms <=? timeout_seconds * 1000)%Z
           end.
  all: cbn -[lock_error_message Z.mul Z.ltb Z.leb fits_int].
  all: try match goal with
           | |- context [Faulty ?code] =>
               destruct (0 <=? code)%Z eqn:E;
               cbn -[lock_error_message Z.mul Z.ltb Z.leb fits_int];
               rewrite (Z.ltb_antisym 0 code), E
           end.
  all: cbn -[lock_error_message Z.mul fits_int].
  all: rewrite ?Hv.
  all: cbn -[lock_error_message Z.mul fits_int].
  all: repeat split; now rewrite <- ?app_assoc.
Qed.

End Driver.

Lemma generate_lpid_order_witness :
  result_of (generate_lpid odbc_error_text 5 busy_server) = Ok 41%Z /\
  trace (state_of (generate_lpid odbc_error_text 5 busy_server))
  = [CheckSequence true; GetAppLock 5000 1; NextValue 41; ReleaseAppLock;
     SelectNextLpid 41] /\
  holding (state_of (generate_lpid odbc_error_text 5 busy_server)) = false.
Proof.
  assert (Hseq : forall v, sequence busy_server = Some v ->
                           fits_int v = true)
    by (intros v H; inversion H; reflexivity).
  assert (Hnonneg : (0 <= 5)%Z) by lia.
  refine (let H := generate_lpid_order odbc_error_text busy_server 5
                     Hnonneg eq_refl Hseq in _).
  exact (conj (proj1 H)
           (conj (proj1 (proj2 H)) (proj2 (proj2 (proj2 H))))).
Defined.

End ConnectionSpec.

(** ** Scenario resolution *)

Module AppsSpec.

Import Apps Samples.

(** When the service file is absent, whatever the installation and the
    scenario, the [FileNotFoundError] of [_get_service_file_path] leaves
    [get_service_instance] as it is: no [except] clause on its way names
    it. *)
Lemma missing_file_propagates (BASE_DIR : string) (fs : file_system)
    (scenario : string) (done : list io) :
  fs (BASE_DIR ++ "/" ++ _target_dir ++ "/" ++ scenario ++ "/" ++ _filename)
    = None ->
  get_service_instance BASE_DIR fs scenario done
  = (done, [],
     Raise (mk_exn FileNotFoundError
              ("Scenario service file not found: "
                 ++ BASE_DIR ++ "/" ++ _target_dir ++ "/" ++ scenario
                 ++ "/" ++ _filename))).
Proof.
  intros Hfs.
  unfold get_service_instance, _load_scenario, _load_spec,
    _get_service_file_path, try_excepts, bind.
  rewrite Hfs. reflexivity.
Qed.

(** A module without the service class, and a class that is not a
    [WBService], are both surfaced as [LoadScenarioException], before any
    network or database operation of the pipeline. *)
Lemma class_failures_are_load_errors :
  (exists logs text,
     get_service_instance "/app" without_class "wb17" []
     = ([], logs, Raise (mk_exn LoadScenarioException text))) /\
  (exists logs text,
     get_service_instance "/app" with_foreign_class "wb17" []
     = ([], logs, Raise (mk_exn LoadScenarioException text))).
Proof. split; eexists _, _; reflexivity. Qed.

Lemma sound_installation_loads :
  exists logs,
    get_service_instance "/app" sound_installation "wb17" []
    = ([DbGetConnection; DbRetrieveSettings "wb17"], logs,
       Ok {| service_class := "WB17Service"; service_scenario := "wb17" |}).
Proof. eexists; reflexivity. Qed.

(** C6.  On an installation without [scenarios/wb17/service.py], resolving
    the scenario performs no network or database operation, but the failure
    reaches the caller as a [FileNotFoundError], which is not a
    [LoadScenarioException]. *)
Theorem missing_service_file_is_not_a_load_error :
  get_service_instance "/app" empty_installation "wb17" []
  = ([], [],
     Raise (mk_exn FileNotFoundError
              "Scenario service file not found: /app/scenarios/wb17/service.py"))
  /\
  isinstance
    (mk_exn FileNotFoundError
       "Scenario service file not found: /app/scenarios/wb17/service.py")
    LoadScenarioException = false /\
  isinstance_any
    (mk_exn FileNotFoundError
       "Scenario service file not found: /app/scenarios/wb17/service.py")
    [ImportError; AttributeError; TypeError] = false.
Proof. repeat split. Qed.

End AppsSpec.

(** ** More on the pipeline: success path, settings rows, serializer *)

Module PipelineFacts.

Import Transformers PyFacts.

Section Cleaner.

Variable model : Type.
Variable model_validate : value -> validation_error + model.
Variable model_dump : string -> model -> value.

(** A scenario cleaner that cannot fail, as those of wb17 and wb24. *)
Variable clean : value -> value.

Abbreviation process_loop' :=
  (Transformers.process_loop model model_validate model_dump
     (fun record => ret (clean record))).
Abbreviation process_data' :=
  (Transformers.process_data model model_validate model_dump
     (fun record => ret (clean record))).

Lemma process_loop_maps (validated : value -> model) (data : list value) :
  (forall r, In r data -> model_validate r = inr (validated r)) ->
  forall processed_data,
    process_loop' data processed_data tt
    = (tt, [],
       Ok (processed_data
             ++ map (fun r => clean (model_dump "json" (validated r))) data)%list).
Proof.
  induction data as [|r data IH]; intros Hv acc.
  - cbn. now rewrite app_nil_r.
  - cbn [Transformers.process_loop]. unfold bind at 1.
    unfold process_record, try_except, bind, _validate_data.
    rewrite (Hv r (or_introl eq_refl)). cbn.
    rewrite (IH (fun r' H => Hv r' (or_intror H))).
    cbn. now rewrite <- app_assoc.
Qed.

(** X1.  When every record of a non-empty batch validates, [process_data]
    returns one cleaned tuple per record, in the order of the input. *)
Theorem process_data_maps_records
    (validated : value -> model) (data : list value) :
  data <> [] ->
  (forall r, In r data -> model_validate r = inr (validated r)) ->
  result_of (process_data' data tt)
  = Ok (map (fun r => clean (model_dump "json" (validated r))) data).
Proof.
  intros Hne Hv.
  unfold Transformers.process_data, bind.
  rewrite (process_loop_maps validated data Hv []). cbn [app].
  destruct data as [|r data]; [congruence|]. reflexivity.
Qed.

End Cleaner.

Section AnyTransformer.

Variable model : Type.
Variable model_validate : value -> validation_error + model.
Variable model_dump : string -> model -> value.
Variable _clean_data : value -> M unit value.
Variable default_model_obj : model.

Abbreviation process_data'' :=
  (Transformers.process_data model model_validate model_dump _clean_data).
Abbreviation settings' :=
  (Transformers.settings_process_data model model_validate model_dump
     default_model_obj).

(** An empty batch is a hard failure of the transformer: a warning is
    logged and [DataProcessingError] raised. *)
Lemma process_data_rejects_empty_batch :
  process_data'' [] tt
  = (tt,
     [Log.mk Log.WARNING "INSERT_DATA_ERROR" "No data to be inserted in the DB"],
     Raise (mk_exn DataProcessingError "No data to be inserted in the DB")).
Proof. reflexivity. Qed.

(** X2.  Whatever the model and the cleaner, [process_data] never hands an
    empty batch to the writer: what it returns has at least one tuple. *)
Theorem process_data_never_returns_empty
    (data processed : list value) :
  result_of (process_data'' data tt) = Ok processed ->
  processed <> [].
Proof.
  unfold Transformers.process_data, bind.
  destruct (Transformers.process_loop model model_validate model_dump
              _clean_data data [] tt) as [[[] logs] [l|e]]; [|discriminate].
  destruct l as [|x l]; cbn; [discriminate|].
  intros H; injection H as <-. discriminate.
Qed.

(** *** Settings rows *)

(** The columns of a settings row that the transformer reads. *)
Lemma getattr_lookup (r : row) (name : string) :
  getattr r name tt
  = match lookup name r with
    | Some v => (tt, [], Ok v)
    | None =>
        (tt, [],
         Raise (mk_exn AttributeError
                  ("'pyodbc.Row' object has no attribute '" ++ name ++ "'")))
    end.
Proof.
  induction r as [|[k v] r IH]; cbn; [reflexivity|].
  destruct (k =? name); [reflexivity | exact IH].
Qed.

(** X4.  A row that has the three columns [EndpointUrl], [Id] and [IsTestData]
    is validated as the dict of exactly these three, [Id] under the name
    [LoadParamsId]; when it validates, the settings are the dump of the
    validated model, whatever else the row holds (page size, time-out and
    retry columns are not read). *)
Theorem settings_from_valid_row
    (r : row) (endpoint_url id is_test_data : value) (model_obj : model) :
  lookup "EndpointUrl" r = Some endpoint_url ->
  lookup "Id" r = Some id ->
  lookup "IsTestData" r = Some is_test_data ->
  model_validate (VDict [("EndpointUrl", endpoint_url);
                         ("LoadParamsId", id);
                         ("IsTestData", is_test_data)]) = inr model_obj ->
  settings' (Some r) tt = (tt, [], Ok (model_dump "python" model_obj)).
Proof.
  intros H1 H2 H3 Hv.
  unfold Transformers.settings_process_data, try_except, bind, _row_to_dict,
    try_except, bind.
  rewrite getattr_lookup, H1. cbn -[getattr].
  rewrite getattr_lookup, H2. cbn -[getattr].
  rewrite getattr_lookup, H3. cbn -[getattr].
  unfold _validate_data. rewrite Hv. reflexivity.
Qed.

(** A row without one of the three columns (a missing attribute) does not
    abort the run either: the defaults are returned. *)
Theorem settings_from_incomplete_row (r : row) :
  lookup "EndpointUrl" r = None \/ lookup "Id" r = None
    \/ lookup "IsTestData" r = None ->
  result_of (settings' (Some r) tt)
  = Ok (model_dump "python" default_model_obj).
Proof.
  intros H.
  unfold Transformers.settings_process_data, try_except, bind, _row_to_dict,
    try_except, bind.
  rewrite getattr_lookup.
  destruct (lookup "EndpointUrl" r) as [v1|]; [|reflexivity].
  cbn -[getattr]. rewrite getattr_lookup.
  destruct (lookup "Id" r) as [v2|]; [|reflexivity].
  cbn -[getattr]. rewrite getattr_lookup.
  destruct (lookup "IsTestData" r) as [v3|]; [|reflexivity].
  destruct H as [H|[H|H]]; discriminate.
Qed.

End AnyTransformer.

(** *** The serializer *)

Lemma replace_without (old new : ascii) (s : string) :
  contains old s = false -> replace old new s = s.
Proof.
  induction s as [|c s IH]; cbn; [reflexivity|].
  intros H. apply orb_false_iff in H. destruct H as [Hc Hs].
  now rewrite Hc, IH.
Qed.

Lemma str_truthy_nonempty (v : value) : truthy v = true -> str v <> "".
Proof.
  destruct v as [|b|z|s|l|l|kvs]; cbn; try discriminate.
  - destruct b; discriminate.
  - intros _. apply repr_int_nonempty.
  - destruct s; [discriminate | discriminate].
  - destruct l as [|x [|y l]]; discriminate.
Qed.

(** X5.  The serializer yields [None] or a non-empty text, never the empty
    string, and serializing its own result changes nothing. *)
Theorem to_json_string_idempotent (v : value) :
  _to_json_string v <> VStr "" /\
  _to_json_string (_to_json_string v) = _to_json_string v.
Proof.
  unfold _to_json_string at 1 3 4.
  destruct (truthy v) eqn:Ht; [|split; [discriminate | reflexivity]].
  pose proof (replace_nonempty single_quote double_quote _
                (str_truthy_nonempty v Ht)) as Hne.
  split; [congruence|].
  unfold _to_json_string. cbn [truthy str].
  destruct (replace single_quote double_quote (str v)) as [|c s] eqn:E;
    [congruence|].
  cbn [String.eqb negb]. rewrite <- E.
  rewrite (replace_without single_quote double_quote);
    [reflexivity | now apply replace_removes].
Qed.

Lemma process_data_maps_records_witness :
  result_of (process_data value Samples.nmid_validate Samples.nmid_dump
               wb24_clean_data [Samples.card 1; Samples.card 2] tt)
  = Ok [wb24_clean_tuple (Samples.card 1); wb24_clean_tuple (Samples.card 2)].
Proof.
  apply (process_data_maps_records value Samples.nmid_validate
           Samples.nmid_dump wb24_clean_tuple (fun r => r)
           [Samples.card 1; Samples.card 2]).
  - discriminate.
  - intros r [<-|[<-|[]]]; reflexivity.
Defined.

Lemma process_data_never_returns_empty_witness :
  [wb17_clean_tuple (Samples.card 1)] <> [].
Proof.
  apply (process_data_never_returns_empty value Samples.nmid_validate
           Samples.nmid_dump wb17_clean_data [Samples.card 1]).
  reflexivity.
Defined.

Lemma settings_from_valid_row_witness :
  settings_process_data value Samples.settings_validate Samples.nmid_dump
    (VDict [("timeout", VInt 30)]) (Some Samples.good_settings_row) tt
  = (tt, [],
     Ok (VDict [("EndpointUrl", VStr "https://example.test");
                ("LoadParamsId", VInt 7); ("IsTestData", VBool false)])).
Proof.
  apply (settings_from_valid_row value Samples.settings_validate
           Samples.nmid_dump (VDict [("timeout", VInt 30)])
           Samples.good_settings_row
           (VStr "https://example.test") (VInt 7) (VBool false));
    reflexivity.
Defined.

Lemma settings_from_incomplete_row_witness :
  result_of (settings_process_data value Samples.settings_validate
               Samples.nmid_dump (VDict [("timeout", VInt 30)])
               (Some Samples.row_without_id) tt)
  = Ok (VDict [("timeout", VInt 30)]).
Proof.
  apply (settings_from_incomplete_row value Samples.settings_validate
           Samples.nmid_dump (VDict [("timeout", VInt 30)])
           Samples.row_without_id).
  right; left; reflexivity.
Defined.

End PipelineFacts.

(** ** More on the offset client *)

Module OffsetFacts.

Import Clients Schedule Samples.

Section Offset.

Variable limit : Z.

Abbreviation advanced := (Schedule.advanced limit).

Lemma scripted_middle (pre post : list response) (x : response)
    (history : list request) (rq : request) :
  List.length history = List.length pre ->
  scripted (pre ++ x :: post)%list history rq = x.
Proof.
  intros H. unfold scripted. cbn [answer]. rewrite H. apply nth_middle.
Qed.

(** The loop runs through full pages one turn each. *)
Lemma wb24_loop_full_pages (fulls : list (list value)) :
  forall (pre rest : list response) (all_products : list value)
         (c : client) (fuel : nat),
    List.length (requests c) = List.length pre ->
    Forall (fun page => page <> [] /\ (limit <= len page)%Z) fulls ->
    let api := scripted (pre ++ map goods_page fulls ++ rest)%list in
    result_of (wb24_loop api limit (List.length fulls + fuel) all_products c)
    = result_of (wb24_loop api limit fuel (all_products ++ List.concat fulls)%list
                   (advanced c fulls)) /\
    state_of (wb24_loop api limit (List.length fulls + fuel) all_products c)
    = state_of (wb24_loop api limit fuel (all_products ++ List.concat fulls)%list
                  (advanced c fulls)).
Proof.
  induction fulls as [|page fulls IH]; intros pre rest all c fuel Hlen Hfull.
  - cbn [List.length Nat.add List.concat map app]. unfold Schedule.advanced. cbn.
    rewrite !app_nil_r, Z.add_0_r, Nat.add_0_r.
    destruct c; split; reflexivity.
  - apply Forall_cons_iff in Hfull. destruct Hfull as [[Hne Hge] Hfull].
    cbv zeta. cbn [map List.length Nat.add wb24_loop].
    set (api := scripted (pre ++ (goods_page page :: map goods_page fulls)
                            ++ rest)%list).
    destruct (ClientSpec.wb24_turn_full api limit c all page
                (scripted_middle pre _ _ _ _ Hlen) Hne Hge) as [logs Hturn].
    unfold bind. rewrite Hturn.
    match type of Hturn with _ = (?x, _, _) => set (c1 := x) in * end.
    assert (Hlen1 : List.length (requests c1)
                    = List.length (pre ++ [goods_page page])%list).
    { subst c1. cbn. rewrite !length_app. cbn. lia. }
    specialize (IH (pre ++ [goods_page page])%list rest
                   (all ++ page)%list c1 fuel Hlen1 Hfull).
    cbv zeta in IH.
    replace ((pre ++ [goods_page page]) ++ map goods_page fulls ++ rest)%list
      with (pre ++ (goods_page page :: map goods_page fulls) ++ rest)%list
      in IH by (rewrite <- app_assoc; reflexivity).
    fold api in IH.
    assert (Hadv : advanced c1 fulls = advanced c (page :: fulls)).
    { subst c1. unfold Schedule.advanced.
      cbn [requests offset sleeps offsets map List.concat List.length].
      f_equal.
      - now rewrite <- app_assoc.
      - unfold len. rewrite length_app, Nat2Z.inj_add. lia.
      - lia. }
    rewrite Hadv in IH.
    replace ((all ++ page) ++ List.concat fulls)%list
      with (all ++ List.concat (page :: fulls))%list in IH
      by (cbn; now rewrite app_assoc).
    destruct IH as [IHr IHs].
    unfold result_of, state_of in *.
    destruct (wb24_loop api limit (List.length fulls + fuel)
                (all ++ page)%list c1) as [[s1 l1] r1].
    destruct (wb24_loop api limit fuel (all ++ List.concat (page :: fulls))%list
                (advanced c (page :: fulls))) as [[s2 l2] r2].
    cbn in *. now subst.
Qed.

Lemma offsets_length (o : Z) (pages : list (list value)) :
  List.length (offsets o pages) = List.length pages.
Proof.
  revert o; induction pages as [|p pages IH]; intros o; cbn;
    [reflexivity | now rewrite IH].
Qed.

Lemma offsets_app (o : Z) (pages : list (list value)) (page : list value) :
  offsets o (pages ++ [page])%list
  = (offsets o pages ++ [(o + len (List.concat pages))%Z])%list.
Proof.
  revert o; induction pages as [|p pages IH]; intros o; cbn.
  - now rewrite Z.add_0_r.
  - rewrite IH. unfold len. rewrite length_app, Nat2Z.inj_add.
    now rewrite Z.add_assoc.
Qed.

Lemma advanced_requests_length (c : client) (fulls : list (list value)) :
  requests c = [] ->
  List.length (requests (advanced c fulls))
  = List.length (map goods_page fulls).
Proof.
  intros Hc. unfold Schedule.advanced. cbn [requests]. rewrite Hc.
  cbn [app]. now rewrite !length_map, offsets_length.
Qed.

(** The run of [fetch_data] over full pages followed by a short one. *)
Lemma wb24_fetch_run
    (fulls : list (list value)) (short : list value) (o : Z) (fuel : nat) :
  Forall (fun page => page <> [] /\ (limit <= len page)%Z) fulls ->
  short <> [] ->
  (len short < limit)%Z ->
  List.length fulls < fuel ->
  let api := scripted (map goods_page (fulls ++ [short]))%list in
  let run := wb24_fetch_data api limit fuel (new_client o) in
  result_of run = Ok (Some (List.concat fulls ++ short)%list) /\
  requests (state_of run)
    = map (GET limit) (offsets o (fulls ++ [short])%list) /\
  offset (state_of run) = (o + len (List.concat fulls))%Z /\
  sleeps (state_of run) = List.length fulls.
Proof.
  intros Hfull Hne Hshort Hfuel. cbv zeta.
  replace fuel with (List.length fulls + S (fuel - S (List.length fulls)))
    by lia.
  set (f := fuel - S (List.length fulls)).
  unfold wb24_fetch_data.
  rewrite map_app. cbn [map].
  destruct (wb24_loop_full_pages fulls [] [goods_page short] []
              (new_client o) (S f) eq_refl Hfull) as [Hr Hs].
  cbv zeta in Hr, Hs. cbn [app] in Hr, Hs. rewrite Hr, Hs. clear Hr Hs.
  set (api := scripted (map goods_page fulls ++ [goods_page short])%list).
  set (c := advanced (new_client o) fulls).
  destruct (ClientSpec.wb24_turn_short api limit c (List.concat fulls) short
              (scripted_middle _ [] _ _ _
                 (advanced_requests_length (new_client o) fulls eq_refl))
              Hne Hshort) as [logs Hturn].
  cbn [wb24_loop]. unfold bind. rewrite Hturn.
  unfold result_of, state_of. cbn [fst snd requests offset sleeps].
  subst c. unfold Schedule.advanced. cbn [requests offset sleeps new_client app].
  repeat split.
  rewrite offsets_app, map_app. reflexivity.
Qed.

(** X6.  Offset pagination in general.  Against a remote that serves any
    number of full pages (each with [limit] goods or more) and then a
    shorter, non-empty one, [fetch_data] returns the goods of all pages in
    order; the requests carry the running offsets; there is one pause per
    full page; and [self.offset] is left past the full pages, not reset. *)
Theorem wb24_fetch_concatenates
    (fulls : list (list value)) (short : list value) (o : Z) (fuel : nat) :
  Forall (fun page => page <> [] /\ (limit <= len page)%Z) fulls ->
  short <> [] ->
  (len short < limit)%Z ->
  List.length fulls < fuel ->
  let api := scripted (map goods_page (fulls ++ [short]))%list in
  let run := wb24_fetch_data api limit fuel (new_client o) in
  result_of run = Ok (Some (List.concat fulls ++ short)%list) /\
  requests (state_of run)
    = map (GET limit) (offsets o (fulls ++ [short])%list) /\
  offset (state_of run) = (o + len (List.concat fulls))%Z /\
  sleeps (state_of run) = List.length fulls.
Proof. exact (wb24_fetch_run fulls short o fuel). Qed.

(** X7.  When the remote has served only full pages and has nothing left, it
    answers the next request with an empty page, and [fetch_data] raises
    [APIRequestException] instead of returning what it has fetched: a data
    set whose size is a multiple of the limit cannot be loaded. *)
Theorem wb24_exact_multiple_fails
    (fulls : list (list value)) (o : Z) (fuel : nat) :
  Forall (fun page => page <> [] /\ (limit <= len page)%Z) fulls ->
  List.length fulls < fuel ->
  let api := scripted (map goods_page fulls ++ [goods_page []])%list in
  let run := wb24_fetch_data api limit fuel (new_client o) in
  result_of run
    = Raise (mk_exn APIRequestException "Could not extract data.") /\
  List.length (requests (state_of run)) = S (List.length fulls).
Proof.
  intros Hfull Hfuel. cbv zeta.
  replace fuel with (List.length fulls + S (fuel - S (List.length fulls)))
    by lia.
  set (f := fuel - S (List.length fulls)).
  unfold wb24_fetch_data.
  destruct (wb24_loop_full_pages fulls [] [goods_page []] []
              (new_client o) (S f) eq_refl Hfull) as [Hr Hs].
  cbv zeta in Hr, Hs. cbn [app] in Hr, Hs. rewrite Hr, Hs. clear Hr Hs.
  set (api := scripted (map goods_page fulls ++ [goods_page []])%list).
  set (c := advanced (new_client o) fulls).
  destruct (ClientSpec.wb24_turn_empty api limit c (List.concat fulls)
              _ _ _
              (scripted_middle _ [] _ _ _
                 (advanced_requests_length (new_client o) fulls eq_refl))
              eq_refl eq_refl eq_refl) as [logs Hturn].
  cbn [wb24_loop]. unfold bind. rewrite Hturn.
  unfold result_of, state_of. cbn [fst snd requests].
  split; [reflexivity|].
  subst c. unfold Schedule.advanced. cbn [requests new_client app].
  rewrite length_app, length_map, offsets_length. cbn. lia.
Qed.

Ltac raised :=
  eexists _, _, _; split; [reflexivity | intros _; left; reflexivity].

(** One turn of the wb24 loop, whatever the remote answers: it extends
    the accumulated goods by a non-empty page, or it raises; and what it
    raises is an [APIRequestException], or the exception with which
    [e.response.json()] failed in the handler of the request's failure,
    as soon as the failure of the request, if there was one, is an
    [Exception]. *)
Lemma wb24_turn_cases (api : remote) (all_products : list value)
    (c : client) :
  exists c' logs r,
    wb24_turn api limit all_products c = (c', logs, r) /\
    match r with
    | Ok (Return l) | Ok (Continue l) =>
        exists batch, batch <> [] /\ l = (all_products ++ batch)%list
    | Raise e =>
        (forall e0, api (requests c) (GET limit (offset c)) = Fails e0 ->
                    isinstance e0 Exception_ = true) ->
        cls e = APIRequestException \/
        exists e0, isinstance e0 RequestException = true /\
                   response_json api e0 = Some (Raise e)
    end.
Proof.
  unfold wb24_turn, try_excepts, bind, _build_query_params, send, gets.
  cbn -[isinstance_any isinstance].
  destruct (api (requests c) (GET limit (offset c))) as [json|e0] eqn:Hapi.
  2:{ cbn -[isinstance_any isinstance error_message].
      destruct (isinstance_any e0 [RequestException]) eqn:E1.
      - unfold error_message, bind.
        destruct (response_json api e0) as [[json|decoding]|] eqn:Hjson.
        + cbn. raised.
        + cbn. eexists _, _, _. split; [reflexivity|].
          intros _. right. exists e0. split; [|exact Hjson].
          unfold isinstance_any in E1. cbn [existsb] in E1.
          now rewrite orb_false_r in E1.
        + cbn. raised.
      - destruct (isinstance_any e0 [Exception_]) eqn:E2.
        + cbn. raised.
        + eexists _, _, _. split; [reflexivity|].
          intros H. specialize (H e0 eq_refl).
          unfold isinstance_any in E2. cbn [existsb] in E2.
          rewrite orb_false_r in E2. congruence. }
  destruct json as [| | | | | |kvs];
    try (cbn; raised).
  cbn.
  destruct (match lookup "data" kvs with Some v => v | None => VDict [] end)
    as [| | | | | |kvs'];
    try (cbn; raised).
  cbn.
  destruct (match lookup "listGoods" kvs' with
            | Some v => v | None => VList [] end)
    as [|[]|z|str|l|l|d] eqn:Hgoods;
    cbn;
    try raised.
  - destruct (negb (z =? 0)%Z); cbn; raised.
  - destruct str as [|ch str]; cbn;
      [raised|].
    unfold wb24_is_last_batch.
    match goal with |- context [(?a <? limit)%Z] => destruct (a <? limit)%Z end;
      cbn; eexists _, _, _; (split; [reflexivity|]);
      eexists; (split; [|reflexivity]); discriminate.
  - destruct l as [|x l]; cbn;
      [raised|].
    unfold wb24_is_last_batch.
    match goal with |- context [(?a <? limit)%Z] => destruct (a <? limit)%Z end;
      cbn; eexists _, _, _; (split; [reflexivity|]);
      eexists; (split; [|reflexivity]); discriminate.
  - destruct l as [|x l]; cbn;
      [raised|].
    unfold wb24_is_last_batch.
    match goal with |- context [(?a <? limit)%Z] => destruct (a <? limit)%Z end;
      cbn; eexists _, _, _; (split; [reflexivity|]);
      eexists; (split; [|reflexivity]); discriminate.
  - destruct d as [|x d]; cbn;
      [raised|].
    unfold wb24_is_last_batch.
    match goal with |- context [(?a <? limit)%Z] => destruct (a <? limit)%Z end;
      cbn; eexists _, _, _; (split; [reflexivity|]);
      eexists; (split; [|reflexivity]); discriminate.
Qed.

Lemma wb24_loop_cases (api : remote) (fuel : nat) :
  forall (all_products : list value) (c : client),
    match result_of (wb24_loop api limit fuel all_products c) with
    | Ok None => True
    | Ok (Some l) =>
        exists batch, batch <> [] /\ l = (all_products ++ batch)%list
    | Raise e =>
        (forall history rq e0, api history rq = Fails e0 ->
                               isinstance e0 Exception_ = true) ->
        cls e = APIRequestException \/
        exists e0, isinstance e0 RequestException = true /\
                   response_json api e0 = Some (Raise e)
    end.
Proof.
  induction fuel as [|fuel IH]; intros all c; [exact I|].
  cbn [wb24_loop]. unfold bind.
  destruct (wb24_turn_cases api all c) as (c' & logs & r & Hturn & Hcase).
  rewrite Hturn.
  destruct r as [[l|l]|e]; cbn.
  - exact Hcase.
  - destruct Hcase as (batch & Hne & ->).
    specialize (IH (all ++ batch)%list c'). unfold result_of in IH.
    destruct (wb24_loop api limit fuel (all ++ batch)%list c')
      as [[s2 l2] [[l'|]|e]]; cbn in *; try assumption.
    destruct IH as (batch' & Hne' & ->).
    exists (batch ++ batch')%list. split; [|now rewrite app_assoc].
    destruct batch; [congruence | discriminate].
  - intros H. apply Hcase. intros e0. apply H.
Qed.

(** X8.  What leaves the offset fetch, provided the failures of the
    HTTP layer are [Exception]s: an [APIRequestException], or else the
    exception with which [e.response.json()] failed in the handler of a
    [RequestException] [e] that carries a response without a JSON body.
    Nothing else leaves [fetch_data]. *)
Theorem wb24_error_contract
    (api : remote) (fuel : nat) (c : client) (e : exn) :
  (forall history rq e0, api history rq = Fails e0 ->
                         isinstance e0 Exception_ = true) ->
  result_of (wb24_fetch_data api limit fuel c) = Raise e ->
  cls e = APIRequestException \/
  exists e0, isinstance e0 RequestException = true /\
             response_json api e0 = Some (Raise e).
Proof.
  intros Hapi Hrun. unfold wb24_fetch_data in Hrun.
  pose proof (wb24_loop_cases api fuel [] c) as H.
  rewrite Hrun in H. exact (H Hapi).
Qed.

(** The offset fetch never returns an empty list of goods. *)
Theorem wb24_never_returns_empty
    (api : remote) (fuel : nat) (c : client) (goods : list value) :
  result_of (wb24_fetch_data api limit fuel c) = Ok (Some goods) ->
  goods <> [].
Proof.
  intros Hrun. unfold wb24_fetch_data in Hrun.
  pose proof (wb24_loop_cases api fuel [] c) as H.
  rewrite Hrun in H. destruct H as (batch & Hne & ->). exact Hne.
Qed.

End Offset.

Lemma wb24_fetch_concatenates_witness :
  result_of (wb24_fetch_data
               (scripted (map goods_page
                            [[card 1; card 2]; [card 3; card 4]; [card 5]]))
               2 3 (new_client 0))
  = Ok (Some [card 1; card 2; card 3; card 4; card 5]).
Proof.
  apply (wb24_fetch_concatenates 2 [[card 1; card 2]; [card 3; card 4]]
           [card 5] 0 3).
  - repeat constructor; (discriminate || (cbn; lia)).
  - discriminate.
  - cbn; lia.
  - cbn; lia.
Defined.

Lemma wb24_exact_multiple_fails_witness :
  result_of (wb24_fetch_data
               (scripted (map goods_page [[card 1; card 2]; [card 3; card 4]]
                            ++ [goods_page []]))
               2 3 (new_client 0))
  = Raise (mk_exn APIRequestException "Could not extract data.").
Proof.
  apply (wb24_exact_multiple_fails 2 [[card 1; card 2]; [card 3; card 4]]
           0 3).
  - repeat constructor; (discriminate || (cbn; lia)).
  - cbn; lia.
Defined.

Lemma wb24_error_contract_witness :
  cls not_json = APIRequestException \/
  exists e0, isinstance e0 RequestException = true /\
             response_json redirect_loop e0 = Some (Raise not_json).
Proof.
  apply (wb24_error_contract 1000 redirect_loop 1 (new_client 0)).
  - intros history rq e0 H. inversion H. reflexivity.
  - reflexivity.
Defined.

Lemma wb24_never_returns_empty_witness : [card 1] <> [].
Proof.
  apply (wb24_never_returns_empty 1000 (scripted [goods_page [card 1]]) 1
           (new_client 0)).
  reflexivity.
Defined.

End OffsetFacts.

(** ** More on the cursor client *)

Module CursorFacts.

Import Clients Schedule Samples.

Section Cursor.

Variable limit : Z.

Abbreviation payload cursor :=
  (_build_payload limit (fst cursor) (snd cursor)).

(** A turn of the wb17 loop on a resumable page: the cards are
    accumulated and the cursor moves to the last card of the page. *)
Lemma wb17_turn_resumable (api : remote) (c : client)
    (all_cards cards : list value) (total : Z) (cursor : value * value) :
  api (requests c) (payload cursor) = cards_page cards total ->
  resumable limit (cards, total) ->
  exists logs,
    wb17_turn api limit (all_cards, fst cursor, snd cursor) c
    = ({| requests := (requests c ++ [payload cursor])%list;
          offset := offset c; sleeps := sleeps c |},
       logs,
       Ok (Continue ((all_cards ++ cards)%list,
                     fst (cursor_after cards), snd (cursor_after cards)))).
Proof.
  intros Hapi (Hge & Hle & Hne & (kvs & Hlast) & Hu & Hn).
  unfold wb17_turn, try_excepts, bind, send. rewrite Hapi.
  destruct cards as [|x cards]; [congruence|].
  unfold cards_page.
  cbn -[last _build_payload len Z.ltb].
  assert (E1 : (len (x :: cards) <? limit)%Z = false) by lia.
  assert (E2 : (total <? len (x :: cards))%Z = false) by lia.
  rewrite E1. cbn -[last _build_payload len Z.ltb].
  rewrite E2. cbn -[last _build_payload len].
  unfold cursor_after in Hu, Hn. cbn [fst snd] in Hu, Hn.
  rewrite Hlast in Hu, Hn |- *. cbn -[_build_payload] in Hu, Hn |- *.
  rewrite Hu, Hn. cbn -[_build_payload].
  unfold cursor_after. rewrite ?Hlast. cbn -[_build_payload].
  eexists; reflexivity.
Qed.

Abbreviation page_of :=
  (fun page : list value * Z => cards_page (fst page) (snd page)).

(** A turn on a short, non-empty page ends the fetch. *)
Lemma wb17_turn_short (api : remote) (c : client)
    (all_cards cards : list value) (total : Z) (cursor : value * value) :
  api (requests c) (payload cursor) = cards_page cards total ->
  cards <> [] ->
  (len cards < limit)%Z ->
  exists logs,
    wb17_turn api limit (all_cards, fst cursor, snd cursor) c
    = ({| requests := (requests c ++ [payload cursor])%list;
          offset := offset c; sleeps := sleeps c |},
       logs,
       Ok (Return ((all_cards ++ cards)%list, fst cursor, snd cursor))).
Proof.
  intros Hapi Hne Hlt.
  unfold wb17_turn, try_excepts, bind, send. rewrite Hapi.
  destruct cards as [|x cards]; [congruence|].
  unfold cards_page.
  cbn -[last _build_payload len Z.ltb].
  assert (E1 : (len (x :: cards) <? limit)%Z = true) by lia.
  rewrite E1. cbn -[_build_payload len].
  eexists; reflexivity.
Qed.

(** What leaves a turn whose request fails: the failure itself, or,
    when the failure is a [RequestException] whose response has no JSON
    body, the exception of the decoder. *)
Lemma wb17_turn_failure (api : remote) (c : client)
    (all_cards : list value) (cursor : value * value) (e : exn) :
  api (requests c) (payload cursor) = Fails e ->
  exists logs,
    wb17_turn api limit (all_cards, fst cursor, snd cursor) c
    = ({| requests := (requests c ++ [payload cursor])%list;
          offset := offset c; sleeps := sleeps c |},
       logs,
       Raise (if isinstance e RequestException
              then match response_json api e with
                   | Some (Raise decoding) => decoding
                   | _ => e
                   end
              else e)).
Proof.
  intros Hapi.
  unfold wb17_turn, try_excepts, bind, send. rewrite Hapi.
  cbn -[isinstance_any isinstance _build_payload error_message].
  assert (Hany : isinstance_any e [RequestException]
                 = isinstance e RequestException).
  { unfold isinstance_any, existsb. apply orb_false_r. }
  rewrite Hany.
  destruct (isinstance e RequestException).
  - unfold error_message.
    destruct (response_json api e) as [[json|decoding]|];
      cbn -[_build_payload]; eexists; reflexivity.
  - eexists; reflexivity.
Qed.

(** The loop runs through resumable pages one turn each. *)
Lemma wb17_loop_resumable_pages (fulls : list (list value * Z)) :
  forall (pre rest : list response) (all_cards : list value)
         (c : client) (cursor : value * value) (fuel : nat),
    List.length (requests c) = List.length pre ->
    Forall (resumable limit) fulls ->
    let api := scripted (pre ++ map page_of fulls ++ rest)%list in
    let c' := {| requests :=
                   (requests c ++ map (fun cu => payload cu)
                                    (cursors cursor fulls))%list;
                 offset := offset c; sleeps := sleeps c |} in
    let st' := ((all_cards ++ List.concat (map fst fulls))%list,
                fst (cursor_past cursor fulls),
                snd (cursor_past cursor fulls)) in
    result_of (wb17_loop api limit (List.length fulls + fuel)
                 (all_cards, fst cursor, snd cursor) c)
    = result_of (wb17_loop api limit fuel st' c') /\
    state_of (wb17_loop api limit (List.length fulls + fuel)
                (all_cards, fst cursor, snd cursor) c)
    = state_of (wb17_loop api limit fuel st' c').
Proof.
  induction fulls as [|[cards total] fulls IH];
    intros pre rest all c cursor fuel Hlen Hfull.
  - cbv zeta. cbn [List.length Nat.add List.concat map app cursors
                     cursor_past].
    rewrite !app_nil_r. destruct c; split; reflexivity.
  - apply Forall_cons_iff in Hfull. destruct Hfull as [Hres Hfull].
    cbv zeta. cbn [map List.length Nat.add wb17_loop fst snd].
    set (api := scripted (pre ++ (cards_page cards total :: map page_of fulls)
                            ++ rest)%list).
    destruct (wb17_turn_resumable api c all cards total cursor
                (OffsetFacts.scripted_middle pre _ _ _ _ Hlen) Hres)
      as [logs Hturn].
    unfold bind. rewrite Hturn.
    match type of Hturn with _ = (?x, _, _) => set (c1 := x) in * end.
    assert (Hlen1 : List.length (requests c1)
                    = List.length (pre ++ [cards_page cards total])%list).
    { subst c1. cbn [requests]. rewrite !length_app. cbn. lia. }
    specialize (IH (pre ++ [cards_page cards total])%list rest
                   (all ++ cards)%list c1 (cursor_after cards) fuel
                   Hlen1 Hfull).
    cbv zeta in IH.
    replace ((pre ++ [cards_page cards total]) ++ map page_of fulls ++ rest)%list
      with (pre ++ (cards_page cards total :: map page_of fulls) ++ rest)%list
      in IH by (rewrite <- app_assoc; reflexivity).
    fold api in IH.
    cbn [cursors cursor_past List.concat map fst].
    subst c1. cbn [requests offset sleeps] in IH.
    rewrite <- !app_assoc in IH. cbn [app] in IH.
    destruct IH as [IHr IHs].
    unfold result_of, state_of in *.
    match goal with
    | |- context [wb17_loop api limit (List.length fulls + fuel) ?st ?cc] =>
        destruct (wb17_loop api limit (List.length fulls + fuel) st cc)
          as [[s1 l1] r1]
    end.
    match goal with
    | |- context [wb17_loop api limit fuel ?st ?cc] =>
        destruct (wb17_loop api limit fuel st cc) as [[s2 l2] r2]
    end.
    cbn in *. now subst.
Qed.

Lemma cursors_length (cursor : value * value)
    (pages : list (list value * Z)) :
  List.length (cursors cursor pages) = List.length pages.
Proof.
  revert cursor; induction pages as [|[cards total] pages IH]; intros cursor;
    cbn; [reflexivity | now rewrite IH].
Qed.

Lemma cursors_app (cursor : value * value) (pages : list (list value * Z))
    (page : list value * Z) :
  cursors cursor (pages ++ [page])%list
  = (cursors cursor pages ++ [cursor_past cursor pages])%list.
Proof.
  revert cursor; induction pages as [|[cards total] pages IH]; intros cursor;
    cbn.
  - now destruct page.
  - now rewrite IH.
Qed.

(** X9.  Cursor pagination in general.  Against a remote that serves any
    number of resumable pages and then a non-empty page shorter than the
    limit, [fetch_data] returns the cards of all pages in order; the first
    request carries no cursor, and every later one carries [updatedAt] and
    [nmID] of the last card of the page before it. *)
Theorem wb17_fetch_concatenates
    (fulls : list (list value * Z)) (cards : list value) (total : Z)
    (fuel : nat) :
  Forall (resumable limit) fulls ->
  cards <> [] ->
  (len cards < limit)%Z ->
  List.length fulls < fuel ->
  let api := scripted (map page_of (fulls ++ [(cards, total)]))%list in
  let run := wb17_fetch_data api limit fuel (new_client 0) in
  result_of run = Ok (Some (List.concat (map fst fulls) ++ cards)%list) /\
  requests (state_of run)
    = map (fun cu => payload cu)
        (cursors (VNone, VNone) (fulls ++ [(cards, total)])%list).
Proof.
  intros Hfull Hne Hshort Hfuel. cbv zeta.
  replace fuel with (List.length fulls + S (fuel - S (List.length fulls)))
    by lia.
  set (f := fuel - S (List.length fulls)).
  unfold wb17_fetch_data.
  rewrite map_app. cbn [map fst snd].
  destruct (wb17_loop_resumable_pages fulls [] [cards_page cards total] []
              (new_client 0) (VNone, VNone) (S f) eq_refl Hfull)
    as [Hr Hs].
  cbv zeta in Hr, Hs. cbn [app] in Hr, Hs.
  change (fst (VNone, VNone)) with VNone in Hr, Hs.
  change (snd (VNone, VNone)) with VNone in Hr, Hs.
  rewrite Hr, Hs. clear Hr Hs.
  set (api := scripted (map page_of fulls ++ [cards_page cards total])%list).
  match goal with
  | |- context [wb17_loop api limit (S f) _ ?cc] => set (c := cc)
  end.
  assert (Hlen : List.length (requests c)
                 = List.length (map page_of fulls)).
  { subst c. cbn [requests new_client app].
    now rewrite !length_map, cursors_length. }
  destruct (wb17_turn_short api c (List.concat (map fst fulls)) cards total
              (cursor_past (VNone, VNone) fulls)
              (OffsetFacts.scripted_middle _ [] _ _ _ Hlen) Hne Hshort)
    as [logs Hturn].
  cbn [wb17_loop]. unfold bind. rewrite Hturn.
  unfold result_of, state_of. cbn [fst snd requests].
  split; [reflexivity|].
  subst c. cbn [requests new_client app].
  rewrite cursors_app, map_app. reflexivity.
Qed.

(** X10.  The cursor fetch does not wrap failures.  When a request
    fails, the loop ends after that one request, and what leaves it is
    the failure itself, with one exception: for a [RequestException] that
    carries a response whose body is not JSON, [e.response.json()] raises
    in the handler and the decoder's exception leaves instead. *)
Theorem wb17_failure_is_not_wrapped
    (api : remote) (c : client) (all_cards : list value)
    (updated_at nm_id : value) (e : exn) (fuel : nat) :
  api (requests c) (_build_payload limit updated_at nm_id) = Fails e ->
  let run := wb17_loop api limit (S fuel) (all_cards, updated_at, nm_id) c in
  result_of run
  = Raise (if isinstance e RequestException
           then match response_json api e with
                | Some (Raise decoding) => decoding
                | _ => e
                end
           else e) /\
  requests (state_of run)
    = (requests c ++ [_build_payload limit updated_at nm_id])%list.
Proof.
  intros Hapi. cbv zeta.
  destruct (wb17_turn_failure api c all_cards (updated_at, nm_id) e Hapi)
    as [logs Hturn].
  cbn [fst snd] in Hturn.
  cbn [wb17_loop]. unfold bind. rewrite Hturn.
  split; reflexivity.
Qed.

End Cursor.

Lemma wb17_fetch_concatenates_witness :
  result_of (wb17_fetch_data
               (scripted [cards_page [cursor_card 1; cursor_card 2] 9;
                          cards_page [cursor_card 3] 9])
               2 2 (new_client 0))
  = Ok (Some [cursor_card 1; cursor_card 2; cursor_card 3]).
Proof.
  apply (wb17_fetch_concatenates 2 [([cursor_card 1; cursor_card 2], 9%Z)]
           [cursor_card 3] 9 2).
  - repeat constructor; cbn; try lia; try discriminate.
    eexists; reflexivity.
  - discriminate.
  - cbn; lia.
  - cbn; lia.
Defined.

Lemma wb17_failure_is_not_wrapped_witness :
  result_of (wb17_fetch_data unreachable_host 100 1 (new_client 0))
  = Raise (mk_exn RequestException "Connection refused") /\
  result_of (wb17_fetch_data redirect_loop 100 1 (new_client 0))
  = Raise not_json.
Proof.
  split.
  - apply (wb17_failure_is_not_wrapped 100 unreachable_host (new_client 0) []
             VNone VNone (mk_exn RequestException "Connection refused") 0).
    reflexivity.
  - apply (wb17_failure_is_not_wrapped 100 redirect_loop (new_client 0) []
             VNone VNone (mk_exn RequestException "Exceeded 30 redirects.") 0).
    reflexivity.
Defined.

End CursorFacts.

(** ** More on the writer *)

Module WriterFacts.

Import Repositories Samples RepositorySpec.

(** X11.  The decorator [with_query_timeout] runs the call under the given
    time-out and puts the connection's previous time-out back, whether the
    call returns or raises; nothing else of the outcome is changed. *)
Theorem with_query_timeout_restores {A : Type}
    (timeout_seconds : Z) (fn : M connection A) (c : connection) :
  let inner :=
    fn {| autocommit := autocommit c; timeout := timeout_seconds;
          committed := committed c; pending := pending c;
          statements := statements c |} in
  let run := with_query_timeout timeout_seconds fn c in
  result_of run = result_of inner /\
  logs_of run = logs_of inner /\
  timeout (state_of run) = timeout c /\
  autocommit (state_of run) = autocommit (state_of inner) /\
  committed (state_of run) = committed (state_of inner) /\
  pending (state_of run) = pending (state_of inner) /\
  statements (state_of run) = statements (state_of inner).
Proof.
  cbv zeta.
  unfold with_query_timeout, try_finally, bind, gets, set_timeout, modify.
  cbn.
  destruct (fn _) as [[s l] r]. cbn.
  rewrite !app_nil_r. repeat split.
Qed.

Section Writer.

Variable db : database.

(** X12.  For a batch that is not empty, [insert] does not wrap what the
    server raises: the exception that reaches the caller is the very one
    with which the server answered the timestamp query or refused a row.
    (An empty parameter list is refused by [pyodbc] itself, before
    anything is sent; that case is left aside.) *)
Theorem insert_reraises_driver_exception
    (data : list row) (lpid : Z) (is_test_data : bool) (start : string)
    (c : connection) (e : exn) :
  data <> [] ->
  pending c = [] ->
  result_of (insert db data lpid is_test_data start c) = Raise e ->
  now db = Raise e \/
  exists t i item,
    now db = Ok t /\ nth_error data i = Some item /\
    row_error db i (prefixed lpid is_test_data start t item) = Some e.
Proof.
  intros _ Hp Hrun.
  destruct (insert_run db data lpid is_test_data start c Hp)
    as (c' & logs & r & new & Heq & _ & _ & _ & _ & _ & _ & Hres).
  rewrite Heq in Hrun. cbn in Hrun. subst r.
  destruct Hres as [(t & _ & Hok & _) | (e' & He & _ & Hwhy)];
    [discriminate|].
  injection He as <-. exact Hwhy.
Qed.

(** X13.  When the timestamp cannot be read, no row is sent at all: [insert]
    raises that error and the table is as before. *)
Theorem insert_without_timestamp_sends_no_row
    (data : list row) (lpid : Z) (is_test_data : bool) (start : string)
    (c : connection) (e : exn) :
  pending c = [] ->
  now db = Raise e ->
  let run := insert db data lpid is_test_data start c in
  result_of run = Raise e /\
  committed (state_of run) = committed c /\
  exists new,
    statements (state_of run) = (statements c ++ new)%list /\
    forall row, ~ In (Insert row) new.
Proof.
  intros Hp Hnow. cbv zeta.
  destruct (insert_run db data lpid is_test_data start c Hp)
    as (c' & logs & r & new & Heq & _ & _ & _ & Hst & _ & Hrows & Hres).
  rewrite Heq. unfold result_of, state_of. cbn [fst snd].
  destruct Hres as [(t & Hok & _) | (e' & -> & Hcm & Hwhy)];
    [congruence|].
  repeat split.
  - destruct Hwhy as [H | (t & _ & _ & H & _)]; congruence.
  - exact Hcm.
  - exists new. split; [exact Hst|].
    intros row Hin. destruct (Hrows row Hin) as (t & _ & H & _). congruence.
Qed.

End Writer.

Lemma insert_reraises_driver_exception_witness :
  now refuses_last_row
    = Raise (mk_exn DatabaseError "String data, right truncation") \/
  exists t i item,
    now refuses_last_row = Ok t /\ nth_error fifty_rows i = Some item /\
    row_error refuses_last_row i
      (prefixed 7 false "2024-05-01T09:59:00+00:00" t item)
    = Some (mk_exn DatabaseError "String data, right truncation").
Proof.
  apply (insert_reraises_driver_exception refuses_last_row fifty_rows 7 false
           "2024-05-01T09:59:00+00:00" fresh_connection);
    [discriminate | reflexivity | reflexivity].
Defined.

Lemma insert_without_timestamp_sends_no_row_witness :
  committed (state_of (insert unreachable_clock fifty_rows 7 false
                         "2024-05-01T09:59:00+00:00" fresh_connection))
  = [].
Proof.
  apply (insert_without_timestamp_sends_no_row unreachable_clock fifty_rows 7
           false "2024-05-01T09:59:00+00:00" fresh_connection
           (mk_exn DatabaseError "Query timeout expired"));
    reflexivity.
Defined.

End WriterFacts.

(** ** More on run-identifier issuance *)

Module ConnectionFacts.

Import Connection Samples.

Section Driver.

Variable error_text : string -> string.

Lemma generate_lpid_granted (s : server) (timeout_seconds : Z) :
  lock s = Free ->
  fits_int (timeout_seconds * 1000) = true ->
  let v := match sequence s with Some v => v | None => 1%Z end in
  fits_int v = true ->
  result_of (generate_lpid error_text timeout_seconds s) = Ok v /\
  sequence (state_of (generate_lpid error_text timeout_seconds s))
    = Some (v + 1)%Z /\
  lock (state_of (generate_lpid error_text timeout_seconds s)) = Free /\
  holding (state_of (generate_lpid error_text timeout_seconds s)) = false.
Proof.
  intros Hl Hms. cbv zeta.
  unfold generate_lpid, try_excepts, execute_batch, bind, ensure_sequence,
    declare_timeout_ms, sp_getapplock, next_value, sp_releaseapplock, gets.
  rewrite Hms.
  destruct s as [[v|] l h tr]. all: cbn in Hl; subst l.
  all: cbn -[Z.mul fits_int]; intros Hv; rewrite Hv.
  all: cbn -[Z.mul]; repeat split.
Qed.

(** X14.  Issuing twice on a free lock gives two different, increasing
    identifiers: the second is the first plus one, and the lock is left
    released each time.  The time-outs are not negative and fit [INT] in
    milliseconds, and both values of the sequence fit [INT]. *)
Theorem generate_lpid_consecutive (s : server) (t1 t2 : Z) :
  lock s = Free ->
  (0 <= t1)%Z -> fits_int (t1 * 1000) = true ->
  (0 <= t2)%Z -> fits_int (t2 * 1000) = true ->
  let v := match sequence s with Some v => v | None => 1%Z end in
  fits_int v = true ->
  fits_int (v + 1) = true ->
  let first := generate_lpid error_text t1 s in
  let second := generate_lpid error_text t2 (state_of first) in
  result_of first = Ok v /\
  result_of second = Ok (v + 1)%Z /\
  holding (state_of first) = false /\
  holding (state_of second) = false.
Proof.
  intros Hl _ Hms1 _ Hms2. cbv zeta. intros Hv Hv1.
  destruct (generate_lpid_granted s t1 Hl Hms1 Hv)
    as (H1 & Hseq & Hlock & Hh1).
  assert (Hv1' : fits_int
                   (match sequence (state_of (generate_lpid error_text t1 s))
                    with Some v => v | None => 1%Z end) = true)
    by (rewrite Hseq; exact Hv1).
  destruct (generate_lpid_granted (state_of (generate_lpid error_text t1 s))
              t2 Hlock Hms2 Hv1') as (H2 & _ & _ & Hh2).
  rewrite Hseq in H2.
  repeat split; assumption.
Qed.

(** X15.  When another session keeps the lock longer than the time-out
    (not negative, and fitting [INT] in milliseconds), the issuance gives
    up with a [RuntimeError] whose message is [Database error while
    generating LPID: ] followed by the text of the driver's error for the
    batch's [Lock timeout expired]; the session, which held no lock,
    holds none afterwards, and no value of the sequence is consumed. *)
Theorem generate_lpid_times_out
    (s : server) (timeout_seconds remaining_ms : Z) :
  lock s = HeldByOther remaining_ms ->
  holding s = false ->
  (0 <= timeout_seconds)%Z ->
  fits_int (timeout_seconds * 1000) = true ->
  (timeout_seconds * 1000 < remaining_ms)%Z ->
  let run := generate_lpid error_text timeout_seconds s in
  result_of run
    = Raise (mk_exn RuntimeError
               ("Database error while generating LPID: "
                  ++ error_text "Lock timeout expired"))
  /\
  holding (state_of run) = false /\
  sequence (state_of run)
    = Some (match sequence s with Some v => v | None => 1%Z end).
Proof.
  intros Hl Hh _ Hms Hlong. cbv zeta.
  unfold generate_lpid, try_excepts, execute_batch, bind, ensure_sequence,
    declare_timeout_ms, sp_getapplock, next_value, gets.
  rewrite Hms.
  destruct s as [[v|] l h tr]. all: cbn in Hl, Hh; subst l h.
  all: cbn -[Z.mul Z.leb].
  all: destruct (remaining_ms <=? timeout_seconds * 1000)%Z eqn:E;
         [apply Z.leb_le in E; lia|].
  all: cbn -[Z.mul]; repeat split.
Qed.

End Driver.

Lemma generate_lpid_consecutive_witness :
  result_of (generate_lpid odbc_error_text 5 fresh_server) = Ok 1%Z /\
  result_of (generate_lpid odbc_error_text 5
               (state_of (generate_lpid odbc_error_text 5 fresh_server)))
  = Ok 2%Z.
Proof.
  assert (H5 : (0 <= 5)%Z) by lia.
  refine (let H := generate_lpid_consecutive odbc_error_text fresh_server 5 5
                     eq_refl H5 eq_refl H5 eq_refl eq_refl eq_refl in _).
  exact (conj (proj1 H) (proj1 (proj2 H))).
Defined.

Lemma generate_lpid_times_out_witness :
  result_of (generate_lpid odbc_error_text 5 contended_server)
  = Raise (mk_exn RuntimeError
             ("Database error while generating LPID: "
                ++ odbc_error_text "Lock timeout expired")).
Proof.
  assert (H5 : (0 <= 5)%Z) by lia.
  refine (proj1 (generate_lpid_times_out odbc_error_text contended_server
                   5 8000 eq_refl eq_refl H5 eq_refl _)).
  reflexivity.
Defined.

End ConnectionFacts.

(** ** More on scenario resolution *)

Module AppsFacts.

Import Apps Samples.

Lemma module_getattr_run (m : module_) (name : string) (done : list io) :
  (exists a, module_getattr m name done = (done, [], Ok a)) \/
  module_getattr m name done
  = (done, [],
     Raise (mk_exn AttributeError
              ("module has no attribute '" ++ name ++ "'"))).
Proof.
  induction m as [|[k a] rest IH]; cbn -[String.append].
  - right; reflexivity.
  - destruct (k =? name); [left; eexists; reflexivity | exact IH].
Qed.

Section Loader.

Variable BASE_DIR : string.
Variable fs : file_system.
Variable scenario : string.

Abbreviation module_path :=
  (BASE_DIR ++ "/" ++ _target_dir ++ "/" ++ scenario ++ "/" ++ _filename).
Abbreviation class_name := (upper scenario ++ _class_suffix).
Abbreviation load_error e :=
  (mk_exn LoadScenarioException
     ("Failed to load service for scenario '" ++ scenario ++ "': "
        ++ message e)).
Abbreviation found :=
  (Log.mk Log.INFO "LOAD_CONFIG_SUCCESS"
     ("Scenario service file found: " ++ module_path)).
Abbreviation named :=
  (Log.mk Log.INFO "LOAD_CONFIG_SUCCESS"
     ("Module name: "
        ++ remove_all ".py" 0
             (_target_dir ++ "." ++ scenario ++ "." ++ _filename))).

Lemma load_spec_run (f : file) (done : list io) :
  fs module_path = Some f ->
  _load_spec BASE_DIR fs scenario done
  = (done, [found; named],
     if has_spec f then exec_module f
     else Raise (mk_exn ImportError
                   ("Could not load spec from " ++ module_path))).
Proof.
  intros Hfs.
  unfold _load_spec, _get_service_file_path, _get_module_name, bind.
  rewrite Hfs. cbn -[remove_all String.append].
  destruct (has_spec f); [destruct (exec_module f)|].
  all: reflexivity.
Qed.

(** What looking the class up and checking it gives: the class, or an
    [ImportError] or [TypeError]; nothing is done or logged. *)
Lemma parse_service_class_run (m : module_) (done : list io) :
  exists r,
    _parse_service_class scenario m done = (done, [], r) /\
    match r with
    | Ok (name, init_error) =>
        name = class_name /\
        module_getattr m class_name done
        = (done, [], Ok (Class true init_error))
    | Raise e =>
        (cls e = ImportError \/ cls e = TypeError) /\
        forall init_error,
          module_getattr m class_name done
          <> (done, [], Ok (Class true init_error))
    end.
Proof.
  unfold _parse_service_class, try_excepts, bind.
  destruct (module_getattr_run m class_name done) as [[a Ha]|Hno].
  - rewrite Ha. destruct a as [|[|] init_error].
    all: cbn -[String.append]; eexists; split; [reflexivity|].
    all: cbn -[String.append].
    + split; [right; reflexivity | intros i H; discriminate].
    + split; [reflexivity | reflexivity].
    + split; [right; reflexivity | intros i H; discriminate].
  - rewrite Hno. cbn -[String.append]. eexists; split; [reflexivity|].
    cbn -[String.append]. split; [left; reflexivity | intros i H; discriminate].
Qed.

(** X16.  An exception raised while the service module is executed leaves
    [get_service_instance] as a [LoadScenarioException] exactly when it is
    an [ImportError], an [AttributeError] or a [TypeError] (or of a
    subclass); any other exception reaches the caller unchanged.  Either
    way no database or network operation was made. *)
Theorem module_error_classification (f : file) (e : exn) (done : list io) :
  fs module_path = Some f ->
  has_spec f = true ->
  exec_module f = Raise e ->
  let run := get_service_instance BASE_DIR fs scenario done in
  state_of run = done /\
  result_of run
  = Raise (if isinstance_any e [ImportError; AttributeError; TypeError]
           then load_error e else e).
Proof.
  intros Hfs Hspec Hexec. cbv zeta.
  pose proof (load_spec_run f done Hfs) as Hrun.
  rewrite Hspec, Hexec in Hrun.
  unfold get_service_instance, _load_scenario, try_excepts, bind.
  rewrite Hrun. cbn -[isinstance_any isinstance String.append].
  destruct (isinstance_any e [ImportError; AttributeError; TypeError]) eqn:E.
  - cbn -[String.append]. split; reflexivity.
  - cbn -[isinstance String.append].
    unfold isinstance_any. cbn -[isinstance String.append].
    destruct (isinstance e LoadScenarioException) eqn:E2.
    all: cbn; split; reflexivity.
Qed.

(** X17.  When the module is executed but the class [<SCENARIO>Service] is
    missing from it, is no class, or does not inherit from [WBService],
    the failure is a [LoadScenarioException], and it comes before the
    connection is opened or the settings are read. *)
Theorem unusable_class_is_load_error (f : file) (m : module_)
    (done : list io) :
  fs module_path = Some f ->
  has_spec f = true ->
  exec_module f = Ok m ->
  (forall init_error,
     module_getattr m class_name done
     <> (done, [], Ok (Class true init_error))) ->
  let run := get_service_instance BASE_DIR fs scenario done in
  state_of run = done /\
  exists text,
    result_of run = Raise (mk_exn LoadScenarioException text) /\
    In (Log.mk Log.ERROR "LOAD_CONFIG_ERROR" text) (logs_of run).
Proof.
  intros Hfs Hspec Hexec Hno. cbv zeta.
  pose proof (load_spec_run f done Hfs) as Hrun.
  rewrite Hspec, Hexec in Hrun.
  destruct (parse_service_class_run m done) as (r & Hparse & Hr).
  unfold get_service_instance, _load_scenario, try_excepts, bind.
  rewrite Hrun. cbv beta iota. rewrite Hparse.
  destruct r as [[name init_error]|e].
  - destruct Hr as [_ Hr]. destruct (Hno _ Hr).
  - destruct Hr as [[Hc|Hc] _]; destruct e as [c msg]; cbn in Hc; subst c.
    all: cbn -[String.append]; split; [reflexivity|].
    all: eexists; split; [reflexivity|].
    all: cbn -[String.append]; auto.
Qed.

(** X18.  A service is only ever constructed from a class that the executed
    module binds to [<SCENARIO>Service] and that inherits from
    [WBService]; by then exactly the connection and the settings row have
    been asked of the database. *)
Theorem service_only_from_wbservice_class (svc : service) (done : list io) :
  let run := get_service_instance BASE_DIR fs scenario done in
  result_of run = Ok svc ->
  service_class svc = class_name /\
  service_scenario svc = scenario /\
  state_of run = (done ++ [DbGetConnection; DbRetrieveSettings scenario])%list
  /\
  exists f m,
    fs module_path = Some f /\ has_spec f = true /\ exec_module f = Ok m /\
    module_getattr m class_name done = (done, [], Ok (Class true None)).
Proof.
  cbv zeta.
  destruct (fs module_path) as [f|] eqn:Hfs.
  2:{ unfold get_service_instance, _load_scenario, _load_spec,
        _get_service_file_path, try_excepts, bind.
      rewrite Hfs. cbn. discriminate. }
  pose proof (load_spec_run f done Hfs) as Hrun.
  unfold get_service_instance, _load_scenario, try_excepts, bind.
  rewrite Hrun.
  destruct (has_spec f) eqn:Hspec.
  2:{ cbn. discriminate. }
  destruct (exec_module f) as [m|e] eqn:Hexec.
  2:{ destruct (select_handler e _) as [h|] eqn:Hh.
      - cbn -[isinstance_any String.append] in Hh.
        destruct (isinstance_any e _); [|discriminate].
        inversion Hh; subst h. cbn. discriminate.
      - cbn -[isinstance_any].
        destruct (isinstance_any e [LoadScenarioException]);
          cbn; discriminate. }
  cbv beta iota.
  destruct (parse_service_class_run m done) as (r & Hparse & Hr).
  rewrite Hparse.
  destruct r as [[name init_error]|e].
  - destruct Hr as [-> Hr].
    destruct init_error as [e|].
    + cbn -[String.append isinstance_any].
      destruct (isinstance_any e _).
      * cbn. discriminate.
      * unfold isinstance_any at 1. cbn -[isinstance].
        destruct (isinstance e LoadScenarioException); cbn; discriminate.
    + cbn -[String.append]. intros H. inversion H; subst svc.
      cbn -[String.append]. repeat split.
      * unfold perform, modify. cbn. rewrite <- app_assoc. reflexivity.
      * exists f, m. repeat split; assumption.
  - destruct Hr as [[Hc|Hc] _]; destruct e as [c msg]; cbn in Hc; subst c.
    all: cbn; discriminate.
Qed.

(** A [LoadScenarioException] never leaves [get_service_instance] without
    an [ERROR] record [LOAD_CONFIG_ERROR] that carries its message. *)
Theorem load_errors_are_logged (e : exn) (done : list io) :
  let run := get_service_instance BASE_DIR fs scenario done in
  result_of run = Raise e ->
  isinstance e LoadScenarioException = true ->
  In (Log.mk Log.ERROR "LOAD_CONFIG_ERROR" (message e)) (logs_of run).
Proof.
  cbv zeta. unfold get_service_instance, try_excepts.
  destruct (_load_scenario BASE_DIR fs scenario done) as [[s1 l1] [a|e1]].
  - cbn. discriminate.
  - unfold select_handler, isinstance_any, existsb.
    rewrite orb_false_r.
    destruct (isinstance e1 LoadScenarioException) eqn:E.
    + cbn -[isinstance]. intros H; inversion H; subst e1. intros _.
      apply in_or_app. right. left. reflexivity.
    + cbn -[isinstance]. intros H; inversion H; subst e1. congruence.
Qed.

End Loader.

Lemma module_error_classification_witness :
  result_of (get_service_instance "/app"
               (broken_module (mk_exn ValueError "bad constant")) "wb17" [])
  = Raise (mk_exn ValueError "bad constant") /\
  result_of (get_service_instance "/app"
               (broken_module (mk_exn ImportError "No module named 'x'"))
               "wb17" [])
  = Raise (mk_exn LoadScenarioException
             "Failed to load service for scenario 'wb17': No module named 'x'").
Proof.
  split.
  - apply (module_error_classification "/app"
             (broken_module (mk_exn ValueError "bad constant")) "wb17"
             _ (mk_exn ValueError "bad constant") [] eq_refl eq_refl eq_refl).
  - apply (module_error_classification "/app"
             (broken_module (mk_exn ImportError "No module named 'x'")) "wb17"
             _ (mk_exn ImportError "No module named 'x'") []
             eq_refl eq_refl eq_refl).
Defined.

Lemma unusable_class_is_load_error_witness :
  state_of (get_service_instance "/app" with_foreign_class "wb17" []) = [] /\
  exists text,
    result_of (get_service_instance "/app" with_foreign_class "wb17" [])
    = Raise (mk_exn LoadScenarioException text) /\
    In (Log.mk Log.ERROR "LOAD_CONFIG_ERROR" text)
       (logs_of (get_service_instance "/app" with_foreign_class "wb17" [])).
Proof.
  apply (unusable_class_is_load_error "/app" with_foreign_class "wb17"
           _ [("WB17Service", Class false None)] [] eq_refl eq_refl eq_refl).
  intros init_error H. discriminate H.
Defined.

Lemma service_only_from_wbservice_class_witness :
  service_class {| service_class := "WB17Service"; service_scenario := "wb17" |}
  = "WB17Service" /\
  state_of (get_service_instance "/app" sound_installation "wb17" [])
  = [DbGetConnection; DbRetrieveSettings "wb17"].
Proof.
  destruct (service_only_from_wbservice_class "/app" sound_installation "wb17"
              {| service_class := "WB17Service"; service_scenario := "wb17" |}
              [] eq_refl) as (H1 & _ & H3 & _).
  split; [exact H1 | exact H3].
Defined.

Lemma load_errors_are_logged_witness :
  In (Log.mk Log.ERROR "LOAD_CONFIG_ERROR"
        "Failed to load service for scenario 'wb17': Service class 'WB17Service' not found in module.")
     (logs_of (get_service_instance "/app" without_class "wb17" [])).
Proof.
  apply (load_errors_are_logged "/app" without_class "wb17"
           (mk_exn LoadScenarioException
              "Failed to load service for scenario 'wb17': Service class 'WB17Service' not found in module.")
           [] eq_refl eq_refl).
Defined.

End AppsFacts.

(** ** The transformer's error contract *)

Module TransformerFacts.

Import Transformers Samples.

Section ErrorContract.

Variable model : Type.
Variable model_validate : value -> validation_error + model.
Variable model_dump : string -> model -> value.
Variable _clean_data : value -> M unit value.

Hypothesis clean_raises_exceptions :
  forall record e,
    result_of (_clean_data record tt) = Raise e ->
    isinstance e Exception_ = true.

Lemma process_record_cases (record : value) :
  (exists logs clean,
     process_record model model_validate model_dump _clean_data record tt
     = (tt, logs, Ok clean)) \/
  (exists logs text,
     process_record model model_validate model_dump _clean_data record tt
     = (tt, logs, Raise (mk_exn DataProcessingError text))).
Proof.
  unfold process_record, try_except, bind, _validate_data.
  destruct (model_validate record) as [err|model_obj].
  - right. cbn -[String.append]. eexists _, _. reflexivity.
  - cbn -[isinstance_any isinstance String.append].
    pose proof (clean_raises_exceptions (model_dump "json" model_obj)) as Hc.
    destruct (_clean_data (model_dump "json" model_obj) tt)
      as [[[] logs] [clean|e]].
    + left. eexists _, _. reflexivity.
    + right. cbn -[isinstance_any isinstance String.append].
      unfold isinstance_any, existsb. rewrite (Hc e eq_refl).
      cbn -[String.append]. eexists _, _. reflexivity.
Qed.

Lemma process_loop_cases (data : list value) :
  forall processed_data e,
    result_of (process_loop model model_validate model_dump _clean_data
                 data processed_data tt) = Raise e ->
    cls e = DataProcessingError.
Proof.
  induction data as [|record data IH]; intros acc e; [discriminate|].
  cbn [process_loop]. unfold bind at 1.
  destruct (process_record_cases record)
    as [(logs & clean & ->) | (logs & text & ->)].
  - specialize (IH (acc ++ [clean])%list e).
    destruct (process_loop _ _ _ _ data _ tt) as [[u l] r].
    exact IH.
  - cbn. intros H. inversion H. reflexivity.
Qed.

(** X3.  Whatever [process_data] raises is a [DataProcessingError]: a
    validation failure, an error of the scenario's cleaning step and an
    empty batch all reach the caller under that one class. *)
Theorem process_data_raises_only_data_processing_error
    (data : list value) (e : exn) :
  result_of (process_data model model_validate model_dump _clean_data
               data tt) = Raise e ->
  cls e = DataProcessingError.
Proof.
  unfold process_data, bind.
  pose proof (process_loop_cases data [] e) as Hloop.
  destruct (process_loop _ _ _ _ data [] tt) as [[u l] [processed|e']].
  - destruct processed; cbn -[String.append repr_int].
    + intros H. inversion H. reflexivity.
    + discriminate.
  - cbn. intros H. apply Hloop. exact H.
Qed.

End ErrorContract.

Lemma process_data_raises_only_data_processing_error_witness :
  cls (mk_exn DataProcessingError "Field required: ('nmID',)")
  = DataProcessingError.
Proof.
  assert (Hclean : forall record e,
            result_of (wb24_clean_data record tt) = Raise e ->
            isinstance e Exception_ = true)
    by (intros record e H; discriminate H).
  apply (process_data_raises_only_data_processing_error
           value nmid_validate nmid_dump wb24_clean_data Hclean
           [card 1; broken_card]).
  reflexivity.
Defined.

End TransformerFacts.

(** ** Dicts and the scenario arguments of the command line *)

Module DictFacts.

Import Dict.

Lemma lookup_set_item (key k : string) (v : value) (d : dict) :
  lookup k (set_item key v d)
  = if key =? k then Some v else lookup k d.
Proof.
  induction d as [|[k' w] rest IH]; cbn.
  - reflexivity.
  - destruct (k' =? key) eqn:E; cbn.
    + apply String.eqb_eq in E. subst k'.
      destruct (key =? k); reflexivity.
    + rewrite IH. destruct (k' =? k) eqn:E2; [|reflexivity].
      apply String.eqb_eq in E2. subst k'.
      rewrite String.eqb_sym, E. reflexivity.
Qed.

Lemma lookup_app (k : string) (a b : dict) :
  lookup k (a ++ b)%list
  = match lookup k a with Some v => Some v | None => lookup k b end.
Proof.
  induction a as [|[k' w] rest IH]; cbn; [reflexivity|].
  destruct (k' =? k); [reflexivity | exact IH].
Qed.

(** After [d.update(other)] a key denotes what [other] binds it to last,
    and what [d] bound it to when [other] does not hold it. *)
Lemma lookup_update (k : string) (other : dict) :
  forall d,
    lookup k (update d other)
    = match lookup k (rev other) with
      | Some v => Some v
      | None => lookup k d
      end.
Proof.
  unfold update.
  induction other as [|[k' w] rest IH]; intros d; cbn; [reflexivity|].
  rewrite IH, lookup_app, lookup_set_item. cbn.
  destruct (lookup k (rev rest)); [reflexivity|].
  destruct (k' =? k); reflexivity.
Qed.

Lemma lookup_in (k : string) (v : value) (d : dict) :
  lookup k d = Some v -> In (k, v) d.
Proof.
  induction d as [|[k' w] rest IH]; cbn; [discriminate|].
  destruct (k' =? k) eqn:E.
  - intros H; inversion H; subst. apply String.eqb_eq in E. subst. now left.
  - intros H. right. now apply IH.
Qed.

(** In a dict, whose keys are distinct, the order of the items does not
    matter to [lookup]. *)
Lemma lookup_rev (k : string) (d : dict) :
  NoDup (map fst d) -> lookup k (rev d) = lookup k d.
Proof.
  induction d as [|[k' w] rest IH]; intros Hnd; [reflexivity|].
  inversion Hnd as [|? ? Hnotin Hnd']; subst.
  cbn. rewrite lookup_app, (IH Hnd'). cbn.
  destruct (k' =? k) eqn:E.
  - apply String.eqb_eq in E. subst k'.
    destruct (lookup k rest) as [v|] eqn:Hl; [|reflexivity].
    exfalso. apply Hnotin. apply lookup_in in Hl.
    apply in_map_iff. now exists (k, v).
  - destruct (lookup k rest); reflexivity.
Qed.

End DictFacts.

Module CliFacts.

Import Dict Cli DictFacts.

Lemma contains_app_sep (sep : ascii) (k v : string) :
  contains sep (k ++ String sep v) = true.
Proof.
  induction k as [|c k IH]; cbn.
  - now rewrite Ascii.eqb_refl.
  - rewrite IH. apply orb_true_r.
Qed.

Lemma split_first_app (sep : ascii) (k v : string) :
  contains sep k = false ->
  split_first sep (k ++ String sep v) = (k, v).
Proof.
  induction k as [|c k IH]; cbn; intros H.
  - now rewrite Ascii.eqb_refl.
  - apply orb_false_iff in H. destruct H as [Hc Hk].
    rewrite Hc, (IH Hk). reflexivity.
Qed.

Lemma split_first_spec (sep : ascii) (arg : string) :
  contains sep arg = true ->
  arg = fst (split_first sep arg) ++ String sep (snd (split_first sep arg)) /\
  contains sep (fst (split_first sep arg)) = false.
Proof.
  induction arg as [|c arg IH]; cbn; [discriminate|].
  destruct (c =? sep)%char eqn:E.
  - intros _. apply Ascii.eqb_eq in E. subst c. now split.
  - cbn. intros H. destruct (IH H) as [Heq Hk].
    destruct (split_first sep arg) as [key value]. cbn in *.
    rewrite E, Hk. split; [now rewrite <- Heq | reflexivity].
Qed.

Lemma string_eqb_empty (s : string) : (s =? "") = false <-> s <> "".
Proof. apply String.eqb_neq. Qed.

Lemma scenario_args_loop_run (kvs : list (string * string)) :
  Forall (fun kv => fst kv <> "" /\ snd kv <> ""
                    /\ contains "=" (fst kv) = false) kvs ->
  forall d,
    scenario_args_loop (map (fun kv => fst kv ++ "=" ++ snd kv) kvs) d
    = inr (update d (map (fun kv => (fst kv, VStr (snd kv))) kvs)).
Proof.
  induction 1 as [|[k v] kvs (Hk & Hv & Hsep) _ IH]; intros d;
    [reflexivity|].
  cbn [map scenario_args_loop fst snd] in *.
  change (k ++ "=" ++ v) with (k ++ String "=" v).
  rewrite contains_app_sep, (split_first_app _ _ _ Hsep). cbn [negb].
  apply string_eqb_empty in Hk, Hv. rewrite Hk, Hv. cbn [orb].
  rewrite IH. reflexivity.
Qed.

(** X19.  Arguments [key=value] with a non-empty key free of ['='] and a
    non-empty value are all accepted, and the dict that results binds
    every key to the value of its last occurrence; a value may itself hold
    ['=']. *)
Theorem process_scenario_args_last_wins (kvs : list (string * string)) :
  Forall (fun kv => fst kv <> "" /\ snd kv <> ""
                    /\ contains "=" (fst kv) = false) kvs ->
  exists d,
    _process_scenario_args
      (Some (map (fun kv => fst kv ++ "=" ++ snd kv) kvs)) = inr d /\
    forall key,
      lookup key d
      = lookup key (rev (map (fun kv => (fst kv, VStr (snd kv))) kvs)).
Proof.
  intros Hwf.
  exists (update [] (map (fun kv => (fst kv, VStr (snd kv))) kvs)). split.
  - destruct kvs as [|kv kvs]; [reflexivity|].
    exact (scenario_args_loop_run (kv :: kvs) Hwf []).
  - intros key. rewrite lookup_update.
    destruct (lookup key (rev _)); reflexivity.
Qed.

Lemma split_first_unique (sep : ascii) (k v key value : string) :
  contains sep k = false -> contains sep key = false ->
  k ++ String sep v = key ++ String sep value ->
  k = key /\ v = value.
Proof.
  intros Hk Hkey Heq.
  pose proof (f_equal (split_first sep) Heq) as H.
  rewrite !split_first_app in H by assumption.
  now inversion H.
Qed.

Lemma scenario_args_loop_accepts (args : list string) :
  forall d,
    (exists d', scenario_args_loop args d = inr d') <->
    Forall (fun arg => exists k v,
              arg = k ++ "=" ++ v /\ k <> "" /\ v <> ""
              /\ contains "=" k = false) args.
Proof.
  induction args as [|arg args IH]; intros d.
  - split; [constructor | intros _; now exists d].
  - cbn [scenario_args_loop].
    destruct (contains "=" arg) eqn:Hc; cbn [negb].
    + destruct (split_first_spec "=" arg Hc) as [Heq Hkey].
      destruct (split_first "=" arg) as [key value]. cbn [fst snd] in *.
      assert (Hsame : forall k v,
                arg = k ++ "=" ++ v -> contains "=" k = false ->
                k = key /\ v = value).
      { intros k v Harg Hs. rewrite Heq in Harg.
        symmetry in Harg.
        exact (split_first_unique "=" k v key value Hs Hkey Harg). }
      destruct (key =? "") eqn:Ek; cbn [orb].
      * split; [intros [d' H]; discriminate|].
        intros H. inversion H as [|? ? (k & v & Harg & Hk' & Hv' & Hs) _].
        destruct (Hsame k v Harg Hs) as [-> _].
        apply String.eqb_eq in Ek. contradiction.
      * destruct (value =? "") eqn:Ev.
        -- split; [intros [d' H]; discriminate|].
           intros H. inversion H as [|? ? (k & v & Harg & Hk' & Hv' & Hs) _].
           destruct (Hsame k v Harg Hs) as [_ ->].
           apply String.eqb_eq in Ev. contradiction.
        -- rewrite IH. split.
           ++ intros H. constructor; [|exact H].
              exists key, value. apply string_eqb_empty in Ek, Ev.
              repeat split; assumption.
           ++ intros H. now inversion H.
    + split; [intros [d' H]; discriminate|].
      intros H. inversion H as [|? ? (k & v & Harg & _) _].
      rewrite Harg in Hc.
      change (k ++ "=" ++ v) with (k ++ String "="%char v) in Hc.
      rewrite contains_app_sep in Hc. discriminate.
Qed.

(** X20.  The scenario arguments are accepted exactly when each of them is a
    non-empty key free of ['='], an ['='] and a non-empty value; any other
    argument ends the run with a usage error. *)
Theorem process_scenario_args_accepts_iff (args : list string) :
  (exists d, _process_scenario_args (Some args) = inr d) <->
  Forall (fun arg => exists k v,
            arg = k ++ "=" ++ v /\ k <> "" /\ v <> ""
            /\ contains "=" k = false) args.
Proof.
  destruct args as [|arg args].
  - split; [constructor | intros _; now exists []].
  - apply (scenario_args_loop_accepts (arg :: args) []).
Qed.

(** X21.  The check of the required arguments passes exactly when every
    argument the scenario's entry requires is a key of the dict; a
    scenario without an entry requires nothing. *)
Theorem validate_scenario_args_iff
    (scenarios : list (string * scenario_config)) (scenario : string)
    (scenario_args : dict) :
  _validate_scenario_args_in scenarios scenario scenario_args = inr tt <->
  forall cfg, scenarios_get scenarios scenario = Some cfg ->
    forall name text, In (name, text) (required_args cfg) ->
      lookup name scenario_args <> None.
Proof.
  unfold _validate_scenario_args_in.
  set (required := match scenarios_get scenarios scenario with
                   | Some cfg => required_args cfg
                   | None => []
                   end).
  set (missing := filter _ required).
  assert (Hmissing : missing = [] <->
            forall name text, In (name, text) required ->
              lookup name scenario_args <> None).
  { subst missing. split.
    - intros Hnil name text Hin Hnone.
      assert (Hf : In (name, text)
                     (filter (fun ad => negb (has_key (fst ad) scenario_args))
                        required)).
      { apply filter_In. split; [exact Hin|]. unfold has_key. cbn.
        now rewrite Hnone. }
      rewrite Hnil in Hf. exact Hf.
    - intros Hall.
      destruct (filter _ required) as [|[name text] rest] eqn:Hf;
        [reflexivity|].
      assert (Hin : In (name, text)
                      (filter (fun ad => negb (has_key (fst ad) scenario_args))
                         required)) by (rewrite Hf; now left).
      apply filter_In in Hin. destruct Hin as [Hin Hk].
      unfold has_key in Hk. cbn in Hk.
      destruct (lookup name scenario_args) eqn:Hl; [discriminate|].
      exfalso. exact (Hall name text Hin Hl). }
  split.
  - intros H cfg Hcfg. subst required. rewrite Hcfg in *.
    apply Hmissing. destruct missing; [reflexivity | discriminate].
  - intros H.
    assert (Hnil : missing = []).
    { apply Hmissing. subst required.
      destruct (scenarios_get scenarios scenario) as [cfg|];
        [apply (H cfg eq_refl) | intros ? ? []]. }
    now rewrite Hnil.
Qed.

Lemma process_scenario_args_last_wins_witness :
  exists d,
    _process_scenario_args (Some ["limit=10"; "filter=a=b"; "limit=50"])
    = inr d /\
    lookup "limit" d = Some (VStr "50") /\
    lookup "filter" d = Some (VStr "a=b").
Proof.
  destruct (process_scenario_args_last_wins
              [("limit", "10"); ("filter", "a=b"); ("limit", "50")])
    as (d & Hd & Hlookup).
  - repeat constructor; discriminate.
  - exists d. split; [exact Hd|]. split; rewrite Hlookup; reflexivity.
Defined.

End CliFacts.

(** ** The service: settings, and the run from fetch to insert *)

Module ServiceFacts.

Import Dict Services DictFacts Samples Clients.

Section Settings.

Variable settings_model : Type.
Variable settings_validate
  : value -> Transformers.validation_error + settings_model.
Variable settings_dump : string -> settings_model -> value.
Variable default_settings : settings_model.
Variable fetchone : string -> bool -> result (option Transformers.row).
Variable scenario : string.
Variable is_debug : bool.
Variable api_key : value.
Variable scenario_args : option dict.

Abbreviation init_api_settings :=
  (_init_api_settings settings_model settings_validate settings_dump
     default_settings fetchone scenario is_debug).
Abbreviation init_api_client :=
  (_init_api_client settings_model settings_validate settings_dump
     default_settings fetchone scenario is_debug api_key scenario_args).

(** X22.  [retrieve] never lets an exception of the driver out: it answers
    with a row only when the query found one, and with [None] when there
    is no row or the query failed. *)
Theorem retrieve_never_raises (conn : Repositories.connection) :
  (forall e, fetchone scenario is_debug = Raise e ->
             isinstance e Exception_ = true) ->
  exists r,
    result_of (retrieve fetchone scenario is_debug conn) = Ok r /\
    (r = None \/ fetchone scenario is_debug = Ok r).
Proof.
  intros Hexn. unfold retrieve, try_except.
  unfold Repositories.with_connection, Repositories.with_cursor, bind, gets.
  destruct conn as [[|] tm cm pd st].
  all: destruct (fetchone scenario is_debug)
         as [[[|column columns]|]|e] eqn:Hf.
  all: cbn -[isinstance_any String.append].
  all: try (eexists; split; [reflexivity|]; auto; fail).
  all: unfold isinstance_any; cbn -[isinstance String.append].
  all: rewrite (Hexn e eq_refl); cbn -[String.append].
  all: exists None; split; [reflexivity | now left].
Qed.

(** X23.  When the settings query fails, the API settings are the defaults of
    the settings model, and no exception reaches the service. *)
Theorem settings_survive_query_failure
    (conn : Repositories.connection) (e : exn) (items : dict) :
  fetchone scenario is_debug = Raise e ->
  isinstance e Exception_ = true ->
  settings_dump "python" default_settings = VDict items ->
  result_of (init_api_settings conn) = Ok items.
Proof.
  intros Hf Hexn Hdump.
  unfold _init_api_settings, bind, retrieve, try_except.
  unfold Repositories.with_connection, Repositories.with_cursor, bind, gets.
  rewrite Hf. destruct conn as [[|] tm cm pd st].
  all: cbn -[isinstance_any String.append].
  all: unfold isinstance_any; cbn -[isinstance String.append].
  all: rewrite Hexn; cbn -[String.append String.concat].
  all: unfold lift, Transformers.settings_process_data,
         Transformers._get_default_settings, Transformers._model_to_dict,
         try_except, bind.
  all: cbn -[String.append String.concat].
  all: rewrite Hdump; reflexivity.
Qed.

(** X24.  The settings the client is built from: an argument of the scenario
    overrides everything, the configured API key overrides a settings
    field named [api_key], and every other key keeps the value of the
    settings. *)
Theorem client_settings_precedence
    (conn : Repositories.connection) (settings : dict) :
  result_of (init_api_settings conn) = Ok settings ->
  NoDup (map fst (match scenario_args with Some d => d | None => [] end)) ->
  exists d,
    result_of (init_api_client conn) = Ok d /\
    forall key,
      lookup key d
      = match lookup key
                (match scenario_args with Some d => d | None => [] end) with
        | Some v => Some v
        | None => if key =? "api_key" then Some api_key
                  else lookup key settings
        end.
Proof.
  intros Hs Hnd. unfold _init_api_client, bind.
  destruct (init_api_settings conn) as [[c l] r]. cbn in Hs. subst r.
  cbn. eexists. split; [reflexivity|].
  intros key. rewrite lookup_update, (lookup_rev _ _ Hnd), lookup_set_item.
  rewrite (String.eqb_sym "api_key" key). reflexivity.
Qed.

End Settings.

Section Run.

Variable scenario class_name : string.
Variable is_debug : bool.
Variable lpid : Z.
Variable collection_start_dttm : option string.
Variable utcnow : string.
Variable fetch_data : M Clients.client (option (list value)).
Variable process_data : list value -> M unit (list value).
Variable insert
  : list value -> Z -> bool -> string -> M Repositories.connection unit.

Abbreviation run' :=
  (run scenario class_name is_debug lpid collection_start_dttm utcnow
     fetch_data process_data insert).

(** X25.  When the fetch or the transformation raises, [run] re-raises that
    very exception and the database connection is as it was: nothing is
    written unless both steps succeed.  The failure is logged under
    [EXCEPTION] with the name of the exception's class. *)
Theorem run_fails_before_database (w : world) (e : exn) :
  (result_of (fetch_data (api_client w)) = Raise e \/
   exists raw,
     result_of (fetch_data (api_client w)) = Ok (Some raw) /\
     result_of (process_data raw tt) = Raise e) ->
  result_of (run' w) = Raise e /\
  db_conn (state_of (run' w)) = db_conn w /\
  (isinstance e Exception_ = true ->
   In (Log.mk Log.ERROR "EXCEPTION"
         ("Error during " ++ scenario ++ " service run: "
            ++ type_name (cls e) ++ "."))
      (logs_of (run' w))).
Proof.
  intros H. unfold run, bind, try_except, on_client, lift, log.
  destruct (fetch_data (api_client w)) as [[c l] r] eqn:Hfetch.
  cbn [result_of snd] in H.
  assert (Hany : isinstance_any e [Exception_] = isinstance e Exception_).
  { unfold isinstance_any, existsb. apply orb_false_r. }
  destruct H as [Hr | (raw & Hr & Hp)]; subst r.
  2: destruct (process_data raw tt) as [[u l2] r2] eqn:Hproc;
     cbn [result_of snd] in Hp; subst r2.
  all: cbn -[isinstance_any isinstance String.append]; rewrite Hany.
  all: destruct (isinstance e Exception_) eqn:E.
  all: cbn -[String.append]; repeat split.
  all: try (intros Hx; discriminate Hx).
  all: intros _; right; apply in_or_app; right; now left.
Qed.

End Run.

Lemma retrieve_never_raises_witness :
  exists r,
    result_of (retrieve failing_settings_query "wb24" false fresh_connection)
    = Ok r /\
    (r = None \/ failing_settings_query "wb24" false = Ok r).
Proof.
  apply (retrieve_never_raises failing_settings_query "wb24" false
           fresh_connection).
  intros e H. inversion H. reflexivity.
Defined.

Lemma settings_survive_query_failure_witness :
  result_of (_init_api_settings value settings_validate nmid_dump
               default_settings failing_settings_query "wb24" false
               fresh_connection)
  = Ok [("load_params_id", VStr "wb24_ProductsPricesReport");
        ("api_key", VNone); ("limit", VInt 1000); ("offset", VInt 0)].
Proof.
  apply (settings_survive_query_failure value settings_validate
           nmid_dump default_settings failing_settings_query "wb24" false
           fresh_connection
           (mk_exn DatabaseError "Invalid object name 'cfg.WBApiLoadParams'")).
  - reflexivity.
  - reflexivity.
  - reflexivity.
Defined.

Lemma client_settings_precedence_witness :
  exists d,
    result_of (_init_api_client value settings_validate nmid_dump
                 default_settings failing_settings_query "wb24" false
                 (VStr "secret") (Some page_size_override) fresh_connection)
    = Ok d /\
    lookup "limit" d = Some (VStr "50") /\
    lookup "api_key" d = Some (VStr "secret") /\
    lookup "offset" d = Some (VInt 0).
Proof.
  destruct (client_settings_precedence value settings_validate
              nmid_dump default_settings failing_settings_query "wb24" false
              (VStr "secret") (Some page_size_override) fresh_connection
              [("load_params_id", VStr "wb24_ProductsPricesReport");
               ("api_key", VNone); ("limit", VInt 1000); ("offset", VInt 0)])
    as (d & Hd & Hlookup).
  - reflexivity.
  - repeat constructor. intros [].
  - exists d. split; [exact Hd|].
    repeat split; rewrite Hlookup; reflexivity.
Defined.

Lemma run_fails_before_database_witness :
  result_of
    (wb24_run value nmid_validate nmid_dump one_broken_good 2 5 accepts_all
       false 7 None "2024-05-01T09:00:00+00:00"
       {| api_client := new_client 0; db_conn := fresh_connection |})
  = Raise (mk_exn DataProcessingError "Field required: ('nmID',)") /\
  db_conn
    (state_of
       (wb24_run value nmid_validate nmid_dump one_broken_good 2 5 accepts_all
          false 7 None "2024-05-01T09:00:00+00:00"
          {| api_client := new_client 0; db_conn := fresh_connection |}))
  = fresh_connection.
Proof.
  destruct (run_fails_before_database "wb24" "WB24Service" false 7
              None "2024-05-01T09:00:00+00:00"
              (wb24_fetch_data one_broken_good 2 5)
              (Transformers.process_data value nmid_validate nmid_dump
                 Transformers.wb24_clean_data)
              (wb24_insert accepts_all)
              {| api_client := new_client 0; db_conn := fresh_connection |}
              (mk_exn DataProcessingError "Field required: ('nmID',)"))
    as (Hr & Hc & _).
  - right. exists [broken_card]. split; reflexivity.
  - split; [exact Hr | exact Hc].
Defined.

End ServiceFacts.

(** ** The wb24 run, end to end *)

Module WB24ServiceFacts.

Import Dict Services Samples Clients Schedule.

Lemma unpack_all_tuples (records : list value) :
  unpack_all (map Transformers.wb24_clean_tuple records)
  = inr (map wb24_columns records).
Proof.
  induction records as [|r records IH]; [reflexivity|].
  cbn [map unpack_all]. rewrite IH. reflexivity.
Qed.

Section EndToEnd.

Variable model : Type.
Variable model_validate : value -> Transformers.validation_error + model.
Variable model_dump : string -> model -> value.
Variable limit : Z.
Variable db : Repositories.database.

(** X26.  The whole wb24 run.  When the remote serves full pages and then a
    short one, every good validates and the server accepts every row,
    [run] succeeds and the table gains exactly one row per good, in the
    order the goods were served: the run's identifier, the test flag, the
    two collection times, then the columns of the cleaned good. *)
Theorem wb24_run_loads_every_good
    (validated : value -> model)
    (fulls : list (list value)) (short : list value) (o : Z) (fuel : nat)
    (conn : Repositories.connection) (t : value)
    (is_debug : bool) (lpid : Z)
    (collection_start_dttm : option string) (utcnow : string) :
  Forall (fun page => page <> [] /\ (limit <= len page)%Z) fulls ->
  short <> [] ->
  (len short < limit)%Z ->
  List.length fulls < fuel ->
  (forall g, In g (List.concat fulls ++ short)%list ->
             model_validate g = inr (validated g)) ->
  Repositories.now db = Ok t ->
  (forall k r, Repositories.row_error db k r = None) ->
  Repositories.pending conn = [] ->
  let api := scripted (map goods_page (fulls ++ [short]))%list in
  let start := match collection_start_dttm with
               | Some s => if s =? "" then utcnow else s
               | None => utcnow
               end in
  let out :=
    wb24_run model model_validate model_dump api limit fuel db
      is_debug lpid collection_start_dttm utcnow
      {| api_client := new_client o; db_conn := conn |} in
  result_of out = Ok (Some tt) /\
  Repositories.committed (db_conn (state_of out))
  = (Repositories.committed conn
       ++ map (fun g =>
                 Repositories.prefixed lpid is_debug start t
                   (wb24_columns (model_dump "json" (validated g))))
            (List.concat fulls ++ short))%list /\
  Repositories.pending (db_conn (state_of out)) = [].
Proof.
  intros Hfull Hne Hshort Hfuel Hvalid Hnow Hrows Hpend. cbv zeta.
  set (start := match collection_start_dttm with
                | Some s => if s =? "" then utcnow else s
                | None => utcnow
                end).
  set (goods := (List.concat fulls ++ short)%list) in *.
  assert (Hgoods : goods <> []).
  { subst goods. destruct short; [congruence|].
    intros H. apply app_eq_nil in H. destruct H; discriminate. }
  destruct (OffsetFacts.wb24_fetch_run limit fulls short o fuel
              Hfull Hne Hshort Hfuel) as (Hfetch & _).
  cbv zeta in Hfetch. fold goods in Hfetch.
  unfold wb24_run, run, bind, try_except, on_client, on_connection, lift, log.
  cbn [api_client db_conn].
  destruct (wb24_fetch_data _ limit fuel (new_client o)) as [[c1 l1] r1].
  cbn [result_of snd] in Hfetch. subst r1.
  unfold Transformers.process_data, bind.
  change Transformers.wb24_clean_data
    with (fun record : value => @ret unit value
                                  (Transformers.wb24_clean_tuple record)).
  rewrite (PipelineFacts.process_loop_maps model model_validate model_dump
             Transformers.wb24_clean_tuple validated goods Hvalid []).
  cbn [app].
  destruct (map (fun r => Transformers.wb24_clean_tuple
                            (model_dump "json" (validated r))) goods)
    as [|tuple tuples] eqn:Htuples.
  { destruct goods; [congruence | discriminate]. }
  rewrite <- Htuples. clear Htuples tuple tuples.
  cbn -[String.append repr_int wb24_insert].
  unfold wb24_insert.
  rewrite <- (map_map (fun r => model_dump "json" (validated r))
                Transformers.wb24_clean_tuple).
  rewrite unpack_all_tuples, map_map.
  destruct (RepositorySpec.insert_run db
              (map (fun g => wb24_columns (model_dump "json" (validated g)))
                 goods) lpid is_debug start conn Hpend)
    as (c' & logs & r & new & Hrun & _ & _ & Hp' & _ & _ & _ & Hres).
  unfold start in Hrun. rewrite Hrun. fold start.
  destruct Hres as [(t' & Hnow' & -> & Hcommitted & _)
                   | (e & _ & _ & [Hraise | (t' & i & item & _ & _ & He)])].
  - rewrite Hnow in Hnow'. inversion Hnow'; subst t'.
    cbn [result_of state_of fst snd db_conn].
    rewrite Hcommitted, map_map. repeat split. exact Hp'.
  - rewrite Hnow in Hraise. discriminate.
  - rewrite Hrows in He. discriminate.
Qed.

End EndToEnd.

Lemma wb24_run_loads_every_good_witness :
  Repositories.committed
    (db_conn
       (state_of
          (wb24_run value nmid_validate nmid_dump three_goods 2 5 accepts_all
             false 7 None "2024-05-01T09:00:00+00:00"
             {| api_client := new_client 0; db_conn := fresh_connection |})))
  = map (fun g =>
           Repositories.prefixed 7 false "2024-05-01T09:00:00+00:00"
             (VStr "2024-05-01 10:00:00.000") (wb24_columns g))
      [card 1; card 2; card 3].
Proof.
  destruct (wb24_run_loads_every_good value nmid_validate
              nmid_dump 2 accepts_all (fun g => g)
              [[card 1; card 2]] [card 3] 0 5 fresh_connection
              (VStr "2024-05-01 10:00:00.000") false 7 None
              "2024-05-01T09:00:00+00:00")
    as (_ & Hcommitted & _).
  - repeat constructor; [discriminate | cbn; lia].
  - discriminate.
  - cbn; lia.
  - cbn; lia.
  - intros g [<-|[<-|[<-|[]]]]; reflexivity.
  - reflexivity.
  - reflexivity.
  - reflexivity.
  - exact Hcommitted.
Defined.

End WB24ServiceFacts.

(** ** The start-up check of the database schema *)

Module SchemaFacts.

Import Schema Samples.

Abbreviation tables_of name rows :=
  (map snd (filter (fun r : string * string => fst r =? name) rows)).

Lemma schemas_get_add_table (s t name : string) (schemas : schemas_dict) :
  schemas_get (add_table s t schemas) name
  = if s =? name
    then Some (match schemas_get schemas name with
               | Some ts => (ts ++ [t])%list
               | None => [t]
               end)
    else schemas_get schemas name.
Proof.
  induction schemas as [|[k ts] rest IH]; cbn.
  - destruct (s =? name); reflexivity.
  - destruct (k =? s) eqn:Eks; cbn.
    + apply String.eqb_eq in Eks. subst k.
      destruct (s =? name); reflexivity.
    + rewrite IH. destruct (k =? name) eqn:Ekn; [|reflexivity].
      apply String.eqb_eq in Ekn. subst k.
      rewrite String.eqb_sym, Eks. reflexivity.
Qed.

Lemma schemas_get_fold (name : string) (rows : list (string * string)) :
  forall schemas,
    schemas_get
      (fold_left (fun schemas r => add_table (fst r) (snd r) schemas)
         rows schemas) name
    = match schemas_get schemas name, tables_of name rows with
      | Some ts, more => Some (ts ++ more)%list
      | None, [] => None
      | None, more => Some more
      end.
Proof.
  induction rows as [|[s t] rows IH]; intros schemas; cbn [fold_left].
  - cbn. destruct (schemas_get schemas name); [|reflexivity].
    now rewrite app_nil_r.
  - rewrite IH, schemas_get_add_table. cbn [filter fst snd].
    destruct (s =? name) eqn:E; cbn [map snd].
    + destruct (schemas_get schemas name) as [ts|].
      * now rewrite <- app_assoc.
      * reflexivity.
    + reflexivity.
Qed.

Lemma schemas_get_collect (name : string) (rows : list (string * string)) :
  schemas_get (collect rows) name
  = match tables_of name rows with
    | [] => None
    | found => Some found
    end.
Proof. unfold collect. now rewrite schemas_get_fold. Qed.

Lemma in_tables_of (name t : string) (rows : list (string * string)) :
  In t (tables_of name rows) <-> In (name, t) rows.
Proof.
  rewrite in_map_iff. split.
  - intros ([s t'] & Ht & Hin). cbn in Ht. subst t'.
    apply filter_In in Hin. destruct Hin as [Hin Hs]. cbn in Hs.
    apply String.eqb_eq in Hs. now subst s.
  - intros Hin. exists (name, t). split; [reflexivity|].
    apply filter_In. split; [exact Hin|]. cbn. apply String.eqb_refl.
Qed.

Lemma table_in_spec (t : string) (existing : list string) :
  table_in t existing = true <-> In t existing.
Proof.
  unfold table_in. rewrite existsb_exists. split.
  - intros (x & Hin & Heq). apply String.eqb_eq in Heq. now subst.
  - intros Hin. exists t. split; [exact Hin | apply String.eqb_refl].
Qed.

Lemma no_missing_tables (existing expected : list string) :
  filter (fun t => negb (table_in t existing)) expected = [] <->
  forall t, In t expected -> In t existing.
Proof.
  induction expected as [|t expected IH]; cbn.
  - split; [intros _ ? [] | reflexivity].
  - destruct (table_in t existing) eqn:E; cbn.
    + rewrite IH. apply table_in_spec in E. split.
      * intros H x [<-|Hx]; [exact E | now apply H].
      * intros H x Hx. apply H. now right.
    + split; [discriminate|]. intros H. exfalso.
      assert (Hin : In t existing) by (apply H; now left).
      apply table_in_spec in Hin. congruence.
Qed.

(** What a validation gives: nothing, or a [ValueError]; it changes and
    logs nothing. *)
Lemma validate_schema_cases {S : Type} (schemas : schemas_dict)
    (schema_name : string) (expected : list string) (s : S) :
  _validate_schema schemas schema_name expected s = (s, [], Ok tt) \/
  exists text,
    _validate_schema schemas schema_name expected s
    = (s, [], Raise (mk_exn ValueError text)).
Proof.
  unfold _validate_schema.
  destruct (schemas_get schemas schema_name) as [existing|].
  - destruct (filter _ expected); [left | right; eexists]; reflexivity.
  - right; eexists; reflexivity.
Qed.

(** X27.  Over the rows the query of [sys.tables] returned, the validation of
    a schema passes exactly when some row names the schema and, for every
    expected table, a row pairs the schema with it. *)
Theorem validate_schema_iff {S : Type} (rows : list (string * string))
    (schema_name : string) (expected : list string) (s : S) :
  result_of (_validate_schema (collect rows) schema_name expected s) = Ok tt
  <->
  (exists t, In (schema_name, t) rows) /\
  (forall t, In t expected -> In (schema_name, t) rows).
Proof.
  unfold _validate_schema. rewrite schemas_get_collect.
  destruct (tables_of schema_name rows) as [|t0 found] eqn:Hfound.
  - cbn. split; [discriminate|]. intros [[t Hin] _].
    apply in_tables_of in Hin. rewrite Hfound in Hin. destruct Hin.
  - assert (Hex : exists t, In (schema_name, t) rows).
    { exists t0. apply in_tables_of. rewrite Hfound. now left. }
    destruct (filter _ expected) as [|m missing] eqn:Hmissing.
    + cbn. split; [|reflexivity]. intros _. split; [exact Hex|].
      intros t Ht. apply in_tables_of. rewrite Hfound.
      exact (proj1 (no_missing_tables _ _) Hmissing t Ht).
    + cbn. split; [discriminate|]. intros [_ Hall]. exfalso.
      assert (Hnil : filter (fun t => negb (table_in t (t0 :: found)))
                       expected = []).
      { apply no_missing_tables. intros t Ht. rewrite <- Hfound.
        apply in_tables_of. now apply Hall. }
      rewrite Hnil in Hmissing. discriminate.
Qed.

(** X28.  [get_schema_config] answers with the default schema whatever the
    database holds: a missing schema or table, and a query that fails,
    are logged and do not stop the start-up. *)
Theorem get_schema_config_always_answers
    (db_manager : option (result (list (string * string))))
    (scenario_ : option string) (conn : Repositories.connection) :
  (forall e, db_manager = Some (Raise e) -> isinstance e Exception_ = true) ->
  result_of (get_schema_config db_manager scenario_ conn)
  = Ok (default_schema scenario_).
Proof.
  intros Hexn. unfold get_schema_config.
  destruct db_manager as [[rows|e]|]; [| |reflexivity].
  - unfold try_except, Repositories.with_connection,
      Repositories.with_cursor, bind, gets.
    cbn [ret].
    destruct (validate_schema_cases (collect rows)
                (config_schema (_schema scenario_))
                [config_table (_schema scenario_)] conn) as [H1|[x1 H1]];
      rewrite H1; [|destruct conn as [[|] tm cm pd st]; reflexivity].
    destruct (validate_schema_cases (collect rows)
                (log_schema (_schema scenario_))
                [log_table (_schema scenario_)] conn) as [H2|[x2 H2]];
      rewrite H2; [|destruct conn as [[|] tm cm pd st]; reflexivity].
    destruct (has_scenario scenario_).
    + destruct (validate_schema_cases (collect rows)
                  (data_schema (_schema scenario_))
                  (tables (_schema scenario_)) conn) as [H3|[x3 H3]];
        rewrite H3; destruct conn as [[|] tm cm pd st]; reflexivity.
    + destruct conn as [[|] tm cm pd st]; reflexivity.
  - unfold try_except, Repositories.with_connection,
      Repositories.with_cursor, bind, gets.
    destruct conn as [[|] tm cm pd st].
    all: cbn -[isinstance_any isinstance String.append].
    all: unfold isinstance_any, existsb; rewrite (Hexn e eq_refl).
    all: reflexivity.
Qed.

Lemma get_schema_config_always_answers_witness :
  result_of (get_schema_config (Some (Ok tables_without_log)) (Some "wb24")
               fresh_connection)
  = Ok (default_schema (Some "wb24")) /\
  result_of (get_schema_config
               (Some (Raise (mk_exn DatabaseError "Login timeout expired")))
               (Some "wb24") fresh_connection)
  = Ok (default_schema (Some "wb24")).
Proof.
  split.
  - apply (get_schema_config_always_answers
             (Some (Ok tables_without_log)) (Some "wb24") fresh_connection).
    intros e H. discriminate H.
  - apply (get_schema_config_always_answers
             (Some (Raise (mk_exn DatabaseError "Login timeout expired")))
             (Some "wb24") fresh_connection).
    intros e H. inversion H. reflexivity.
Defined.

End SchemaFacts.

(** ** The message handed to the notifier *)

Module NotifierFacts.

Import Notifiers.

Lemma prefix_empty (s : string) : prefix "" s = true.
Proof. destruct s; reflexivity. Qed.

Lemma prefix_cons (a d : ascii) (p u : string) :
  prefix (String a p) (String d u) = (d =? a)%char && prefix p u.
Proof.
  change (prefix (String a p) (String d u))
    with (match ascii_dec a d with
          | left _ => prefix p u
          | right _ => false
          end).
  destruct (ascii_dec a d) as [->|Hne].
  - now rewrite Ascii.eqb_refl.
  - assert (H : (d =? a)%char = false) by (apply Ascii.eqb_neq; congruence).
    now rewrite H.
Qed.

Lemma prefix_one (a c : ascii) (rest : string) :
  prefix (one a) (String c rest) = (c =? a)%char.
Proof.
  unfold one. now rewrite prefix_cons, prefix_empty, andb_true_r.
Qed.

(** Replacing a character by a character is the character-wise
    [replace]. *)
Lemma replace_all_char (a b : ascii) (s : string) :
  replace_all (one a) (one b) 0 s = replace a b s.
Proof.
  induction s as [|c s IH]; [reflexivity|].
  cbn [replace_all]. rewrite prefix_one. cbn [String.length one Nat.sub].
  cbn [replace]. destruct (c =? a)%char; cbn; now rewrite IH.
Qed.

Lemma contains_replace_old (a b c : ascii) (s : string) :
  c <> b -> contains c (replace a b s) = true -> contains c s = true.
Proof.
  intros Hcb. induction s as [|d s IH]; cbn; [discriminate|].
  destruct (d =? a)%char eqn:Eda.
  - intros H. apply orb_true_iff in H. destruct H as [H|H].
    + apply Ascii.eqb_eq in H. congruence.
    + rewrite (IH H). apply orb_true_r.
  - intros H. apply orb_true_iff in H. destruct H as [H|H].
    + now rewrite H.
    + rewrite (IH H). apply orb_true_r.
Qed.

Lemma replace_leaves_none (a b : ascii) (s : string) :
  a <> b -> contains a (replace a b s) = false.
Proof.
  intros Hab. induction s as [|d s IH]; [reflexivity|].
  cbn. rewrite IH, orb_false_r.
  destruct (d =? a)%char eqn:E.
  - apply Ascii.eqb_neq. congruence.
  - exact E.
Qed.

Lemma contains_append (c : ascii) (a b : string) :
  contains c (a ++ b) = contains c a || contains c b.
Proof.
  induction a as [|d a IH]; [reflexivity|].
  cbn. now rewrite IH, orb_assoc.
Qed.

Lemma prefix_percent (c : ascii) (rest : string) :
  prefix "%" (String c rest) = (c =? percent)%char.
Proof. exact (prefix_one percent c rest). Qed.

Lemma contains_doubled (c : ascii) (s : string) :
  contains c (replace_all "%" "%%" 0 s) = contains c s.
Proof.
  induction s as [|d s IH]; [reflexivity|].
  cbn [replace_all]. rewrite prefix_percent.
  destruct (d =? percent)%char eqn:E.
  - apply Ascii.eqb_eq in E. subst d.
    cbn [String.length Nat.sub]. rewrite contains_append, IH.
    cbn [contains]. fold percent.
    destruct (percent =? c)%char; reflexivity.
  - cbn. now rewrite IH.
Qed.

(** X29.  The escaped message is a single line: it holds no carriage return
    and no line feed, whatever the message. *)
Theorem escaped_message_is_one_line (s : string) :
  contains CR (_escape_for_cmd_single_arg s) = false /\
  contains LF (_escape_for_cmd_single_arg s) = false.
Proof.
  unfold _escape_for_cmd_single_arg.
  rewrite !contains_doubled.
  change " " with (one " "%char).
  rewrite !replace_all_char.
  split.
  - destruct (contains CR (replace LF " " (replace CR LF _))) eqn:H;
      [|reflexivity].
    apply contains_replace_old in H; [|discriminate].
    rewrite replace_leaves_none in H; [discriminate H | discriminate].
  - apply replace_leaves_none. discriminate.
Qed.

Lemma replace_all_absent (old new : string) (c : ascii) (s : string) :
  contains c old = true -> contains c s = false ->
  forall skip, skip = 0 -> replace_all old new skip s = s.
Proof.
  intros Hold. induction s as [|d s IH]; intros Hs skip ->; [reflexivity|].
  cbn [contains] in Hs. apply orb_false_iff in Hs. destruct Hs as [Hd Hs].
  cbn [replace_all].
  assert (Hp : prefix old (String d s) = false).
  { destruct (prefix old (String d s)) eqn:Hp; [|reflexivity].
    exfalso. clear IH.
    assert (Hc : contains c (String d s) = true).
    { revert Hp Hold. generalize (String d s) as u.
      induction old as [|a old IHo]; intros u Hp Hold; [discriminate|].
      destruct u as [|b u]; [discriminate|].
      rewrite prefix_cons in Hp. apply andb_true_iff in Hp.
      destruct Hp as [Hba Hp]. apply Ascii.eqb_eq in Hba. subst b.
      cbn [contains] in Hold |- *. apply orb_true_iff in Hold.
      destruct Hold as [H|H]; [now rewrite H|].
      rewrite (IHo u Hp H). apply orb_true_r. }
    cbn [contains] in Hc. rewrite Hd, Hs in Hc. discriminate. }
  rewrite Hp, (IH Hs 0 eq_refl). reflexivity.
Qed.

Lemma undouble_doubled (s : string) :
  replace_all "%%" "%" 0 (replace_all "%" "%%" 0 s) = s.
Proof.
  induction s as [|d s IH]; [reflexivity|].
  cbn [replace_all]. rewrite prefix_percent.
  destruct (d =? percent)%char eqn:E.
  - apply Ascii.eqb_eq in E. subst d.
    cbn [String.length Nat.sub append].
    set (rest := replace_all "%" "%%" 0 s) in *.
    unfold percent.
    change (replace_all "%%" "%" 0 (String "%" (String "%" rest)))
      with (if prefix "%%" (String "%" (String "%" rest))
            then "%" ++ replace_all "%%" "%" 0 rest
            else String "%" (replace_all "%%" "%" 0 (String "%" rest))).
    rewrite !prefix_cons, prefix_empty. cbn [Ascii.eqb Bool.eqb andb append].
    now rewrite IH.
  - cbn [replace_all].
    unfold percent in E. rewrite prefix_cons, E. cbn [andb].
    now rewrite IH.
Qed.

(** X30.  A message without line breaks comes through the escaping with every
    percent sign doubled and nothing else changed: reading [%%] back as
    [%], as the command interpreter does, gives the message itself. *)
Theorem escaping_is_undone_by_the_interpreter (s : string) :
  contains CR s = false ->
  contains LF s = false ->
  replace_all "%%" "%" 0 (_escape_for_cmd_single_arg s) = s.
Proof.
  intros Hcr Hlf. unfold _escape_for_cmd_single_arg.
  rewrite (replace_all_absent (String CR (one LF)) (one LF) CR s
             eq_refl Hcr 0 eq_refl).
  rewrite (replace_all_absent (one CR) (one LF) CR s eq_refl Hcr 0 eq_refl).
  rewrite (replace_all_absent (one LF) " " LF s eq_refl Hlf 0 eq_refl).
  apply undouble_doubled.
Qed.

Lemma escaping_is_undone_by_the_interpreter_witness :
  replace_all "%%" "%" 0 (_escape_for_cmd_single_arg "load 100% failed")
  = "load 100% failed".
Proof.
  apply (escaping_is_undone_by_the_interpreter "load 100% failed");
    reflexivity.
Defined.

End NotifierFacts.
